(** * Devil Muse server (src/index.js): a shallow embedding and its properties

    The server is one Express route, [/devil-pov], that dispatches on an
    [action] field to a handler; handlers fetch context from a CMS, build
    a prompt and call a hosted chat-completion API.

    Modelling conventions.
    - JavaScript values that come from JSON (request bodies, response
      bodies, CMS records) are [jsval].  Numbers are the integers a
      double represents ([Z]); fractional numbers only occur as the
      constant sampling temperatures, which are kept as [Q].
    - A [string] stands for a JavaScript string, one character per code
      unit.  [toUpperCase] is computed on ASCII strings and left to the
      engine beyond.  The few characters outside ASCII in prompt texts are
      written as their UTF-8 bytes; no property below depends on them.
    - A thrown value is an [exn] (its constructor name and its message).
      Messages of engine-raised errors follow V8.
    - An async function is a computation [M A]: it reads the history of
      observable events so far, returns a value or throws, and emits new
      events.  Observable events are outbound HTTP requests, clock reads
      and HTTP responses written.  Console output is not an event, but a
      log line whose template literal converts a value to a string is
      modelled where the conversion can throw.
    - The outside world (environment variables, what the network answers
      and which of several promises rejects first, the clock, and the
      engine's JSON, number parsing and case mapping beyond ASCII) is a
      [world]. *)

From Stdlib Require Import List String Ascii ZArith Bool Lia DecimalString QArith_base.
Import ListNotations.
Close Scope Q_scope.
Set Warnings "-register-all".
Local Open Scope string_scope.

(* ================================================================= *)
(** ** JavaScript values *)

Inductive jsval : Type :=
| JUndefined
| JNull
| JBool (b : bool)
| JNum (n : Z)
| JStr (s : string)
| JArr (elems : list jsval)
| JObj (fields : list (string * jsval)).

Inductive exn_kind : Type := Error | TypeError | ReferenceError | SyntaxError.

Inductive exn : Type := Exn (kind : exn_kind) (message : string).

Definition message (e : exn) : string := let 'Exn _ m := e in m.

(** A computation that returns or throws. *)
Definition result (A : Type) : Type := (exn + A)%type.

(** The double quote and the line feed, for prompt texts. *)
Definition dq : string := String (ascii_of_nat 34) EmptyString.
Definition nl : string := String (ascii_of_nat 10) EmptyString.

(** ToBoolean. *)
Definition truthy (v : jsval) : bool :=
  match v with
  | JUndefined | JNull => false
  | JBool b => b
  | JNum n => negb (n =? 0)%Z
  | JStr s => negb (s =? EmptyString)
  | JArr _ | JObj _ => true
  end.

(** [a || b] *)
Definition js_or (a b : jsval) : jsval := if truthy a then a else b.

Definition string_of_Z (n : Z) : string := NilZero.string_of_int (Z.to_int n).

(** Whether the integer [v] rounds to the double [x], for [x] at least
    2^53: round to nearest, ties to the even significand. *)
Definition rounds_to (x v : Z) : bool :=
  let e := (Z.log2 x - 52)%Z in
  let m := (x / 2 ^ e)%Z in
  let above := (2 ^ (e - 1))%Z in
  let below := (if (m =? 2 ^ 52)%Z then 2 ^ (e - 2) else 2 ^ (e - 1))%Z in
  if Z.even m then ((x - below <=? v) && (v <=? x + above))%Z
  else ((x - below <? v) && (v <? x + above))%Z.

(** The number with the fewest significant digits, [k] or more, that rounds
    to [x]; of two with as many digits the closer one, then the even one. *)
Fixpoint shortest_from (fuel k : nat) (digits : nat) (x : Z) : Z :=
  match fuel with
  | O => x
  | S fuel' =>
      let p := (10 ^ Z.of_nat (digits - k))%Z in
      let lo := (x / p * p)%Z in
      let hi := (lo + p)%Z in
      match rounds_to x lo, rounds_to x hi with
      | true, true =>
          if (x - lo <? hi - x)%Z then lo
          else if (hi - x <? x - lo)%Z then hi
          else if Z.even (lo / p) then lo else hi
      | true, false => lo
      | false, true => hi
      | false, false => shortest_from fuel' (S k) digits x
      end
  end.

(** The digits Number::toString prints for a double [x] of 2^53 or more,
    as a number: the fewest that read back as [x], then zeros. *)
Definition shortest (x : Z) : Z :=
  shortest_from 17 1 (String.length (string_of_Z x)) x.

Fixpoint strip_zeros (l : list ascii) : list ascii :=
  match l with
  | c :: r => if (c =? "0")%char then strip_zeros r else l
  | [] => []
  end.

(** Exponential notation, as Number::toString writes a number of 10^21 or
    more. *)
Definition exponential (v : Z) : string :=
  let digits := string_of_Z v in
  match rev (strip_zeros (rev (list_ascii_of_string digits))) with
  | [] => "0"
  | d :: rest =>
      String d (match rest with [] => EmptyString | _ => "." ++ string_of_list_ascii rest end)
      ++ "e+" ++ string_of_Z (Z.of_nat (String.length digits - 1))
  end.

(** Number::toString on an integer: every digit below 2^53, where each
    integer is a double; beyond, the fewest digits that read back as the
    same double, in exponential notation from 10^21 on. *)
Definition number_to_string (n : Z) : string :=
  let a := Z.abs n in
  (if (n <? 0)%Z then "-" else EmptyString)
  ++ (if (a <? 2 ^ 53)%Z then string_of_Z a
      else if (a <? 10 ^ 21)%Z then string_of_Z (shortest a)
      else exponential (shortest a)).

(** The string ToString yields, when it yields one (see [ToString]). *)
Fixpoint to_string (v : jsval) : string :=
  match v with
  | JUndefined => "undefined"
  | JNull => "null"
  | JBool true => "true"
  | JBool false => "false"
  | JNum n => number_to_string n
  | JStr s => s
  | JArr l =>
      (fix join (l : list jsval) : string :=
         match l with
         | [] => EmptyString
         | x :: r =>
             match x with JUndefined | JNull => EmptyString | _ => to_string x end
             ++ match r with [] => EmptyString | _ => "," ++ join r end
         end) l
  | JObj _ => "[object Object]"
  end.

(** Whether an object has a property of its own named [k]. *)
Definition has_own (k : string) (fs : list (string * jsval)) : bool :=
  existsb (fun kv => fst kv =? k) fs.

(** Whether ToString yields a string.  An object parsed from JSON converts
    through [Object.prototype.toString], unless a property of its own named
    toString hides that method: JSON holds no function, so the property is
    not callable, [valueOf] gives back the object, and the conversion
    throws.  An array converts through [join], which converts each element
    that is neither undefined nor null. *)
Fixpoint printable (v : jsval) : bool :=
  match v with
  | JArr l =>
      (fix all (l : list jsval) : bool :=
         match l with
         | [] => true
         | x :: r => printable x && all r
         end) l
  | JObj fs => negb (has_own "toString" fs)
  | _ => true
  end.

Definition cannot_convert : exn :=
  Exn TypeError "Cannot convert object to primitive value".

(** ToString, as a template literal and a property key apply it. *)
Definition ToString (v : jsval) : result string :=
  if printable v then inr (to_string v) else inl cannot_convert.

(** The string [Array.prototype.join(sep)] yields, when it yields one. *)
Fixpoint array_join (sep : string) (l : list jsval) : string :=
  match l with
  | [] => EmptyString
  | x :: r =>
      match x with JUndefined | JNull => EmptyString | _ => to_string x end
      ++ match r with [] => EmptyString | _ => sep ++ array_join sep r end
  end.

(** [l.join(sep)] *)
Definition join (sep : string) (l : list jsval) : result string :=
  if printable (JArr l) then inr (array_join sep l) else inl cannot_convert.

(** Own property lookup in an object literal or a parsed JSON object. *)
Fixpoint own_field (k : string) (fs : list (string * jsval)) : jsval :=
  match fs with
  | [] => JUndefined
  | (k', v) :: rest => if k' =? k then v else own_field k rest
  end.

Definition char_at (s : string) (i : nat) : jsval :=
  match String.get i s with
  | Some c => JStr (String c EmptyString)
  | None => JUndefined
  end.

(** [v.k] for a value [v] that is neither undefined nor null.  [k] is one of
    the property names the source reads; none of them is inherited from a
    prototype, apart from [length]. *)
Definition prop (v : jsval) (k : string) : jsval :=
  match v with
  | JObj fs => own_field k fs
  | JArr l => if k =? "length" then JNum (Z.of_nat (List.length l)) else JUndefined
  | JStr s => if k =? "length" then JNum (Z.of_nat (String.length s)) else JUndefined
  | _ => JUndefined
  end.

Definition cannot_read (v : jsval) (k : string) : exn :=
  Exn TypeError ("Cannot read properties of " ++ to_string v ++ " (reading '" ++ k ++ "')").

(** [v.k] *)
Definition get_prop (v : jsval) (k : string) : result jsval :=
  match v with
  | JUndefined | JNull => inl (cannot_read v k)
  | _ => inr (prop v k)
  end.

(** [v?.k] *)
Definition opt_prop (v : jsval) (k : string) : jsval :=
  match v with
  | JUndefined | JNull => JUndefined
  | _ => prop v k
  end.

(** [v[0]] *)
Definition get_index0 (v : jsval) : result jsval :=
  match v with
  | JUndefined | JNull => inl (cannot_read v "0")
  | JArr l => inr (nth 0 l JUndefined)
  | JStr s => inr (char_at s 0)
  | JObj fs => inr (own_field "0" fs)
  | _ => inr JUndefined
  end.

(** [v === 0] *)
Definition is_zero (v : jsval) : bool :=
  match v with JNum n => (n =? 0)%Z | _ => false end.

(** [v > 0]: the operand is converted to a number; converting a string is
    the engine's work, [str_gt0 s] says whether the number [s] converts to
    is greater than zero.  An array or an object is first converted to a
    string, which throws as [ToString] does; the string of an object is no
    number. *)
Definition gt_zero (str_gt0 : string -> bool) (v : jsval) : result bool :=
  match v with
  | JNum n => inr (0 <? n)%Z
  | JBool b => inr b
  | JStr s => inr (str_gt0 s)
  | JArr _ =>
      match ToString v with
      | inl e => inl e
      | inr s => inr (str_gt0 s)
      end
  | JObj _ =>
      match ToString v with
      | inl e => inl e
      | inr _ => inr false
      end
  | JUndefined | JNull => inr false
  end.

(** [Array.isArray(v) ? v[0] : v] *)
Definition first_tag (v : jsval) : jsval :=
  match v with
  | JArr l => nth 0 l JUndefined
  | _ => v
  end.

(* ----------------------------------------------------------------- *)
(** *** Strings *)

Definition is_ws (c : ascii) : bool :=
  let n := nat_of_ascii c in
  (((9 <=? n) && (n <=? 13)) || (n =? 32) || (n =? 160))%nat.

Fixpoint drop_ws (l : list ascii) : list ascii :=
  match l with
  | c :: r => if is_ws c then drop_ws r else l
  | [] => []
  end.

(** [String.prototype.trim] *)
Definition trim (s : string) : string :=
  string_of_list_ascii (rev (drop_ws (rev (drop_ws (list_ascii_of_string s))))).

Definition upper_char (c : ascii) : ascii :=
  let n := nat_of_ascii c in
  if ((97 <=? n) && (n <=? 122))%nat then ascii_of_nat (n - 32) else c.

(** [String.prototype.toUpperCase] on an ASCII string. *)
Fixpoint ascii_toUpperCase (s : string) : string :=
  match s with
  | EmptyString => EmptyString
  | String c r => String (upper_char c) (ascii_toUpperCase r)
  end.

(** Every character of [s] is an ASCII character. *)
Definition is_ascii (s : string) : bool :=
  forallb (fun c => (nat_of_ascii c <? 128)%nat) (list_ascii_of_string s).

(** [s.replace('_', ' ')]: a string pattern replaces its first occurrence. *)
Fixpoint replace_underscore (s : string) : string :=
  match s with
  | EmptyString => EmptyString
  | String c r => if (c =? "_")%char then String " " r else String c (replace_underscore r)
  end.

(** [s.replace(/```json|```/g, '')]: [skip] characters of a match are still
    to be dropped. *)
Fixpoint strip_fences_from (skip : nat) (s : string) : string :=
  match s with
  | EmptyString => EmptyString
  | String c r =>
      match skip with
      | S k => strip_fences_from k r
      | O =>
          if String.prefix "```json" s then strip_fences_from 6 r
          else if String.prefix "```" s then strip_fences_from 2 r
          else String c (strip_fences_from 0 r)
      end
  end.

Definition strip_fences (s : string) : string := strip_fences_from 0 s.

(** [l.slice(-n)] on an array: its last [n] elements. *)
Definition last_n {A : Type} (n : nat) (l : list A) : list A :=
  skipn (List.length l - n) l.

(** [s.slice(-n)] on a string. *)
Definition string_last_n (n : nat) (s : string) : string :=
  String.substring (String.length s - n) n s.

(** The elements a spread [...s] of a string yields. *)
Fixpoint chars (s : string) : list jsval :=
  match s with
  | EmptyString => []
  | String c r => JStr (String c EmptyString) :: chars r
  end.

Definition not_a_function (expr : string) : exn :=
  Exn TypeError (expr ++ " is not a function").

(** The error of a call in a spread whose callee is no function. *)
Definition not_a_function_or_iterable (expr : string) : exn :=
  Exn TypeError (expr ++ " is not a function or its return value is not iterable").

(** [x.trim()] where [x] is known to be truthy; [expr] is the callee as the
    source writes it. *)
Definition call_trim (expr : string) (x : jsval) : result string :=
  match x with
  | JStr s => inr (trim s)
  | _ => inl (not_a_function expr)
  end.

(** [!x || x.trim().length === 0], the presence check of the handlers. *)
Definition blank (expr : string) (x : jsval) : result bool :=
  if negb (truthy x) then inr true
  else match call_trim expr x with
       | inr t => inr (String.length t =? 0)%nat
       | inl e => inl e
       end.

(* ================================================================= *)
(** ** The outside world and observable events *)

Inductive req_body : Type :=
| ChatCompletion (model : string) (messages : list jsval) (temperature : Q) (max_tokens : Z)
| DataQuery (dataCollectionId : string) (filter : jsval) (limit : Z).

Record request : Type := {
  url : string;
  method : string;
  headers : list (string * jsval);
  body : req_body
}.

(** A [Response]: its [ok] flag and what [text()] and [json()] settle to. *)
Record response : Type := {
  ok : bool;
  text : result string;
  json : result jsval
}.

Inductive event : Type :=
| Fetch (r : request)
| DateNow
| Respond (status : Z) (payload : jsval).

Record world : Type := {
  (** the environment variables: a string, or undefined for one not set *)
  OPENROUTER_API_KEY : jsval;
  WIX_API_KEY : jsval;
  WIX_ACCOUNT_ID : jsval;
  WIX_SITE_ID : jsval;
  (** what [fetch] settles to, given what happened before *)
  network : list event -> request -> result response;
  (** when several promises of a [Promise.all] reject: which of them, by
      its rank among those that reject, does so first *)
  rejects_first : list event -> nat;
  (** what [Date.now()] reads, given what happened before *)
  clock : list event -> Z;
  JSON_parse : string -> result jsval;
  (** [JSON.stringify(v, null, 2)]: a string, or nothing for undefined *)
  JSON_stringify : jsval -> option string;
  (** whether a string converts to a number greater than zero *)
  string_gt_zero : string -> bool;
  (** [String.prototype.toUpperCase] on a string that is not ASCII *)
  String_toUpperCase : string -> string
}.

(** [String.prototype.toUpperCase] *)
Definition toUpperCase (w : world) (s : string) : string :=
  if is_ascii s then ascii_toUpperCase s else String_toUpperCase w s.

(* ================================================================= *)
(** ** Computations *)

Definition M (A : Type) : Type := list event -> result A * list event.

Definition ret {A : Type} (a : A) : M A := fun _ => (inr a, []).

Definition throw {A : Type} (e : exn) : M A := fun _ => (inl e, []).

Definition lift {A : Type} (r : result A) : M A := fun _ => (r, []).

Definition bind {A B : Type} (m : M A) (f : A -> M B) : M B :=
  fun h =>
    match m h with
    | (inl e, out) => (inl e, out)
    | (inr a, out) => let '(r, out') := f a (h ++ out)%list in (r, (out ++ out')%list)
    end.

(** [try { m } catch (e) { handler e }] *)
Definition try_catch {A : Type} (m : M A) (handler : exn -> M A) : M A :=
  fun h =>
    match m h with
    | (inl e, out) => let '(r, out') := handler e (h ++ out)%list in (r, (out ++ out')%list)
    | (inr a, out) => (inr a, out)
    end.

Declare Scope js_scope.
Delimit Scope js_scope with js.
Notation "x <- m ;; k" := (bind m (fun x => k))
  (at level 100, m at next level, right associativity) : js_scope.
Notation "m ;;; k" := (bind m (fun _ => k))
  (at level 100, right associativity) : js_scope.
Local Open Scope js_scope.

(** [await fetch(req)] *)
Definition fetch (w : world) (req : request) : M response :=
  fun h => (network w h req, [Fetch req]).

(** [Date.now()] *)
Definition Date_now (w : world) : M Z :=
  fun h => (inr (clock w h), [DateNow]).

(** [res.status(status).json(payload)] *)
Definition respond (status : Z) (payload : jsval) : M unit :=
  fun _ => (inr tt, [Respond status payload]).

(** The rejection of a computation, if it rejects. *)
Definition rejection {A : Type} (r : result A) : list exn :=
  match r with
  | inl e => [e]
  | inr _ => []
  end.

(** The rejection a [Promise.all] settles with: of the rejections [es] of
    its promises, which are not empty, the one that comes first in time. *)
Definition first_rejection (w : world) (h : list event) (es : list exn) : exn :=
  nth (rejects_first w h mod List.length es) es (Exn Error EmptyString).

(** [await Promise.all([a, b])]: both computations are started, in order,
    and each issues its request at once, so the requests go out in that
    order whatever the outcome.  When both reject, the whole rejects with
    the rejection that comes first. *)
Definition all2 {A B : Type} (w : world) (a : M A) (b : M B) : M (A * B) :=
  fun h =>
    let '(ra, oa) := a h in
    let '(rb, ob) := b (h ++ oa)%list in
    (match ra, rb with
     | inr x, inr y => inr (x, y)
     | _, _ => inl (first_rejection w (h ++ oa ++ ob) (rejection ra ++ rejection rb))
     end, (oa ++ ob)%list).

(* ================================================================= *)
(** ** AI call with fallback *)

Definition PRIMARY_MODEL : string := "deepseek/deepseek-chat-v3.1".
Definition BACKUP_MODEL : string := "deepseek/deepseek-v3.2".
Definition TERTIARY_MODEL : string := "mistralai/mistral-large".

Definition OPENROUTER_URL : string := "https://openrouter.ai/api/v1/chat/completions".
Definition REFERER : string :=
  "https://amygonzalez305.wixsite.com/the-draft-reaper/devil-muse-server".

Definition chat_request (apiKey : jsval) (xTitle model : string)
    (messages : list jsval) (temperature : Q) (maxTokens : Z) : request :=
  {| url := OPENROUTER_URL;
     method := "POST";
     headers := [("Content-Type", JStr "application/json");
                 ("Authorization", JStr ("Bearer " ++ to_string apiKey));
                 ("HTTP-Referer", JStr REFERER);
                 ("X-Title", JStr xTitle)];
     body := ChatCompletion model messages temperature maxTokens |}.

(** [data.choices[0].message.content] *)
Definition message_content (data : jsval) : result jsval :=
  match get_prop data "choices" with
  | inl e => inl e
  | inr choices =>
      match get_index0 choices with
      | inl e => inl e
      | inr choice =>
          match get_prop choice "message" with
          | inl e => inl e
          | inr msg => get_prop msg "content"
          end
      end
  end.

(** One turn of the loop of [callAI]: [Some content] is the [return],
    [None] a [continue]. *)
Definition callAI_attempt (w : world) (apiKey : jsval) (messages : list jsval)
    (temperature : Q) (maxTokens : Z) (model : string) : M (option jsval) :=
  try_catch
    (response <- fetch w (chat_request apiKey "Devil Muse" model messages temperature maxTokens) ;;
     if negb (ok response) then
       (errorText <- lift (text response) ;;
        ret None)
     else
       (data <- lift (json response) ;;
        content <- lift (message_content data) ;;
        ret (Some content)))
    (fun error => ret None).

Fixpoint callAI_loop (w : world) (apiKey : jsval) (messages : list jsval)
    (temperature : Q) (maxTokens : Z) (models : list string) : M jsval :=
  match models with
  | [] => throw (Exn Error "All models failed")
  | model :: rest =>
      r <- callAI_attempt w apiKey messages temperature maxTokens model ;;
      match r with
      | Some content => ret content
      | None => callAI_loop w apiKey messages temperature maxTokens rest
      end
  end.

Definition callAI (w : world) (messages : list jsval) (temperature : Q) (maxTokens : Z)
    : M jsval :=
  let models := [PRIMARY_MODEL; BACKUP_MODEL; TERTIARY_MODEL] in
  let apiKey := OPENROUTER_API_KEY w in
  if negb (truthy apiKey) then throw (Exn Error "No API key configured")
  else callAI_loop w apiKey messages temperature maxTokens models.

(* ================================================================= *)
(** ** Query Wix CMS *)

Definition WIX_QUERY_URL : string := "https://www.wixapis.com/wix-data/v2/items/query".

Definition wix_request (w : world) (collection : string) (filter : jsval) (limit : Z)
    : request :=
  {| url := WIX_QUERY_URL;
     method := "POST";
     headers := [("Content-Type", JStr "application/json");
                 ("Authorization", WIX_API_KEY w);
                 ("wix-site-id", WIX_SITE_ID w);
                 ("wix-account-id", WIX_ACCOUNT_ID w)];
     body := DataQuery collection filter limit |}.

(** The object [{ items: ... }] that [queryWixCMS] returns. *)
Record query_result : Type := { items : jsval }.

Definition queryWixCMS (w : world) (collection : string) (filter : jsval) (limit : Z)
    : M query_result :=
  try_catch
    (response <- fetch w (wix_request w collection filter limit) ;;
     if negb (ok response) then
       (errorText <- lift (text response) ;;
        ret {| items := JArr [] |})
     else
       (data <- lift (json response) ;;
        dataItems <- lift (get_prop data "dataItems") ;;
        (* the log line renders data.dataItems?.length || 0 *)
        found <- lift (ToString (js_or (opt_prop dataItems "length") (JNum 0))) ;;
        ret {| items := js_or dataItems (JArr []) |}))
    (fun error => ret {| items := JArr [] |}).

(* ================================================================= *)
(** ** Context fetchers *)

(** The filter [{ field: { op: tag } }]. *)
Definition filter_on (field op : string) (tag : jsval) : jsval :=
  JObj [(field, JObj [(op, tag)])].

(** [!tags || tags.length === 0] *)
Definition no_tags (tags : jsval) : bool :=
  negb (truthy tags) || is_zero (prop tags "length").

(** [result.items.length > 0]; [items] is truthy. *)
Definition has_items (w : world) (r : query_result) : result bool :=
  gt_zero (string_gt_zero w) (prop (items r) "length").

Definition getCharacterContext (w : world) (characterTags : jsval) : M jsval :=
  if no_tags characterTags then ret (JStr EmptyString)
  else
    let charTag := first_tag characterTags in
    result <- queryWixCMS w "Characters" (filter_on "charactertags" "$eq" charTag) 1 ;;
    found <- lift (has_items w result) ;;
    if found then
      item <- lift (get_index0 (items result)) ;;
      data <- lift (get_prop item "data") ;;
      let personality := js_or (opt_prop data "chatbot") (JStr EmptyString) in
      ret personality
    else ret (JStr EmptyString).

(** The callback of [result.items.map] in [getChatHistory]; its own
    try/catch turns every failure into an empty message list. *)
Definition session_of_item (w : world) (item : jsval) : jsval :=
  match get_prop item "data" with
  | inl _ => JObj [("messages", JArr [])]
  | inr data =>
      let chatBox := opt_prop data "chatBox" in
      match (match chatBox with JStr s => JSON_parse w s | _ => inr chatBox end) with
      | inl _ => JObj [("messages", JArr [])]
      | inr messages => JObj [("messages", js_or messages (JArr []))]
      end
  end.

Definition getChatHistory (w : world) (characterTags : jsval) : M (list jsval) :=
  if negb (truthy characterTags) then ret []
  else
    let charTag := first_tag characterTags in
    result <- queryWixCMS w "ChatWithCharacters" (filter_on "charactertags" "$eq" charTag) 5 ;;
    (* the log line renders result.items.length, then the tag *)
    sessions <- lift (ToString (prop (items result) "length")) ;;
    shown <- lift (ToString charTag) ;;
    found <- lift (has_items w result) ;;
    if found then
      match items result with
      | JArr l => ret (map (session_of_item w) l)
      | _ => throw (not_a_function "result.items.map")
      end
    else ret [].

(** A related chapter, [{ title, content }]. *)
Record chapter : Type := { title : jsval; content : string }.

(** [x.substring(0, n)] where [x] is truthy or the empty string. *)
Definition call_substring (expr : string) (n : nat) (x : jsval) : result string :=
  match x with
  | JStr s => inr (String.substring 0 n s)
  | _ => inl (not_a_function expr)
  end.

(** The callback of [result.items.map] in [getRelatedChapters]. *)
Definition chapter_of_item (item : jsval) : result chapter :=
  match get_prop item "data" with
  | inl e => inl e
  | inr data =>
      let t := js_or (opt_prop data "title") (JStr "Untitled") in
      match call_substring ("((intermediate value) || " ++ dq ++ dq ++ ").substring") 1500
              (js_or (opt_prop data "chapterContent") (JStr EmptyString)) with
      | inl e => inl e
      | inr c => inr {| title := t; content := c |}
      end
  end.

(** [l.map(f)] for a callback that may throw: the first throw ends the map. *)
Fixpoint map_result {A B : Type} (f : A -> result B) (l : list A) : result (list B) :=
  match l with
  | [] => inr []
  | x :: r =>
      match f x with
      | inl e => inl e
      | inr y => match map_result f r with
                 | inl e => inl e
                 | inr ys => inr (y :: ys)
                 end
      end
  end.

Definition getRelatedChapters (w : world) (storyTags : jsval) : M (list chapter) :=
  if no_tags storyTags then ret []
  else
    let storyTag := first_tag storyTags in
    result <- queryWixCMS w "BackupChapters" (filter_on "storyTag" "$eq" storyTag) 3 ;;
    found <- lift (has_items w result) ;;
    if found then
      (* the log line renders result.items.length *)
      shown <- lift (ToString (prop (items result) "length")) ;;
      match items result with
      | JArr l => lift (map_result chapter_of_item l)
      | _ => throw (not_a_function "result.items.map")
      end
    else ret [].

Definition getCatalystIntel (w : world) (catalystTags : jsval) : M jsval :=
  if no_tags catalystTags then ret (JStr EmptyString)
  else
    let catalystTag := first_tag catalystTags in
    result <- queryWixCMS w "Catalyst" (filter_on "title" "$contains" catalystTag) 1 ;;
    found <- lift (has_items w result) ;;
    if found then
      item <- lift (get_index0 (items result)) ;;
      catalystData <- lift (get_prop item "data") ;;
      let catalystInfo :=
        match JSON_stringify w catalystData with
        | Some s => JStr s
        | None => JUndefined
        end in
      ret catalystInfo
    else ret (JStr EmptyString).

(** [await Promise.all([a, b, c, d])], as [all2]. *)
Definition all4 {A B C D : Type} (w : world) (a : M A) (b : M B) (c : M C) (d : M D)
    : M (A * B * C * D) :=
  fun h =>
    let '(ra, oa) := a h in
    let '(rb, ob) := b (h ++ oa)%list in
    let '(rc, oc) := c (h ++ oa ++ ob)%list in
    let '(rd, od) := d (h ++ oa ++ ob ++ oc)%list in
    (match ra, rb, rc, rd with
     | inr x, inr y, inr z, inr t => inr (x, y, z, t)
     | _, _, _, _ =>
         inl (first_rejection w (h ++ oa ++ ob ++ oc ++ od)
                (rejection ra ++ rejection rb ++ rejection rc ++ rejection rd))
     end, (oa ++ ob ++ oc ++ od)%list).

(* ================================================================= *)
(** ** Generation handlers *)

(** The request body, a parsed JSON object; destructuring reads own fields. *)
Definition fields : Type := list (string * jsval).

(** The chat message [{ role, content }]. *)
Definition msg (role : string) (content : jsval) : jsval :=
  JObj [("role", JStr role); ("content", content)].

(** The lines of a multi-line template literal. *)
Fixpoint lines (l : list string) : string :=
  match l with
  | [] => EmptyString
  | [x] => x
  | x :: r => x ++ nl ++ lines r
  end.

(** What [if (context) systemPrompt += heading + context] appends; the
    template literal converts [context] to a string. *)
Definition section_if (heading : string) (context : jsval) : result string :=
  if truthy context then
    match ToString context with
    | inl e => inl e
    | inr s => inr (heading ++ s)
    end
  else inr EmptyString.

Definition handleUnhinge (w : world) (req : fields) : M jsval :=
  let chapterContent := own_field "chapterContent" req in
  b <- lift (blank "chapterContent.trim" chapterContent) ;;
  if b then throw (Exn Error "No content to unhinge")
  else
    let messages :=
      [msg "system" (JStr "You are a dark, twisted muse. Your job is to take existing writing and make it DARKER, more UNHINGED, more VISCERAL. Push boundaries. Increase tension. Add psychological horror elements. Make it raw and disturbing while maintaining the core narrative. Do not add explanations or meta-commentary - ONLY return the darkened version of the text.");
       msg "user" (JStr ("Transform this chapter into something darker and more unhinged. Maintain the plot and characters but amplify the darkness, tension, and psychological elements:" ++ nl ++ nl ++ to_string chapterContent))] in
    callAI w messages (Qmake 9 10) 3000.

Definition handleUnleash (w : world) (req : fields) : M jsval :=
  let chapterContent := own_field "chapterContent" req in
  let characterTags := own_field "characterTags" req in
  let catalystTags := own_field "catalystTags" req in
  b <- lift (blank "chapterContent.trim" chapterContent) ;;
  if b then throw (Exn Error "No content to continue from")
  else
    ctx <- all2 w (getCharacterContext w characterTags) (getCatalystIntel w catalystTags) ;;
    let '(characterContext, catalystIntel) := ctx in
    character <- lift (section_if (nl ++ nl ++ "CHARACTER CONTEXT:" ++ nl) characterContext) ;;
    catalyst <- lift (section_if (nl ++ nl ++ "NARRATIVE CATALYST:" ++ nl) catalystIntel) ;;
    let systemPrompt :=
      "You are a dark, creative storyteller. Continue the story from where it left off. Match the tone, style, and darkness of the existing text. Write 2-3 paragraphs that flow naturally from the previous content. Make it intense, gripping, and push the narrative forward. Do NOT add any preamble or explanation - start writing immediately where the story left off."
      ++ character ++ catalyst in
    let messages :=
      [msg "system" (JStr systemPrompt);
       msg "user" (JStr ("Continue this story. Pick up EXACTLY where it ends and keep going:" ++ nl ++ nl ++ to_string chapterContent))] in
    callAI w messages (Qmake 17 20) 2000.

(** The two-message conversation of [handleNoMercy]. *)
Definition noMercy_messages (selectedText : jsval) : list jsval :=
  [msg "system" (JStr "You are a merciless editor who rewrites text to be DARKER, MORE INTENSE, and MORE VISCERAL. Show no mercy. Make every word count. Amplify emotions, darken the tone, and make the prose more powerful and disturbing. Return ONLY the rewritten text with no explanations.");
   msg "user" (JStr ("Rewrite this with NO MERCY - make it darker, more intense, more powerful:" ++ nl ++ nl ++ to_string selectedText))].

Definition handleNoMercy (w : world) (req : fields) : M jsval :=
  let selectedText := own_field "selectedText" req in
  b <- lift (blank "selectedText.trim" selectedText) ;;
  if b then throw (Exn Error "No text selected for rewrite")
  else callAI w (noMercy_messages selectedText) (Qmake 9 10) 1500.

Definition handleInvoke (w : world) (req : fields) : M jsval :=
  let userPrompt := own_field "userPrompt" req in
  let contextBefore := own_field "contextBefore" req in
  let contextAfter := own_field "contextAfter" req in
  let characterTags := own_field "characterTags" req in
  let catalystTags := own_field "catalystTags" req in
  ctx <- all2 w (getCharacterContext w characterTags) (getCatalystIntel w catalystTags) ;;
  let '(characterContext, catalystIntel) := ctx in
  before <- lift (ToString contextBefore) ;;
  after <- lift (ToString contextAfter) ;;
  request <- lift (ToString userPrompt) ;;
  character <- lift (section_if (nl ++ nl ++ "CHARACTER CONTEXT:" ++ nl) characterContext) ;;
  catalyst <- lift (section_if (nl ++ nl ++ "NARRATIVE CATALYST:" ++ nl) catalystIntel) ;;
  let systemPrompt :=
    lines ["You are a dark creative writing assistant. The user wants to insert specific content at their cursor position.";
           "";
           "Context before cursor:";
           before;
           "";
           "Context after cursor:";
           after;
           "";
           "User's request: " ++ request;
           "";
           "Write ONLY what they asked for. Match the tone and style of the surrounding text. Be dark and visceral."]
    ++ character ++ catalyst in
  let messages := [msg "system" (JStr systemPrompt); msg "user" userPrompt] in
  callAI w messages (Qmake 17 20) 800.

Definition handleIntensify (w : world) (req : fields) : M jsval :=
  let selectedText := own_field "selectedText" req in
  b <- lift (blank "selectedText.trim" selectedText) ;;
  if b then throw (Exn Error "No text selected to intensify")
  else
    let messages :=
      [msg "system" (JStr "You are a master of prose enhancement. Take existing text and make it MORE INTENSE, MORE VIVID, MORE POWERFUL. Enhance imagery, strengthen verbs, deepen emotions, and make every sentence hit harder. Maintain the core meaning but amplify everything. Return ONLY the enhanced text.");
       msg "user" (JStr ("Intensify and enhance this text - make it more vivid, powerful, and impactful:" ++ nl ++ nl ++ to_string selectedText))] in
    callAI w messages (Qmake 4 5) 1500.

(** [tags?.length > 0 ? label + tags.join(', ') : ''] *)
Definition tag_line (w : world) (label expr : string) (tags : jsval) : result string :=
  match gt_zero (string_gt_zero w) (opt_prop tags "length") with
  | inl e => inl e
  | inr true =>
      match tags with
      | JArr l =>
          match join ", " l with
          | inl e => inl e
          | inr joined => inr (label ++ joined)
          end
      | _ => inl (not_a_function expr)
      end
  | inr false => inr EmptyString
  end.

(** The chapters appended to a system prompt by [relatedChapters.forEach];
    the template literal converts each title to a string. *)
Fixpoint chapters_text (chs : list chapter) : result string :=
  match chs with
  | [] => inr EmptyString
  | ch :: r =>
      match ToString (title ch) with
      | inl e => inl e
      | inr t =>
          match chapters_text r with
          | inl e => inl e
          | inr rest => inr ("[" ++ t ++ "]" ++ nl ++ content ch ++ nl ++ nl ++ rest)
          end
      end
  end.

(** What [if (relatedChapters.length > 0) { systemPrompt += heading; ... }]
    appends. *)
Definition chapters_section (heading : string) (chs : list chapter) : result string :=
  match chs with
  | [] => inr EmptyString
  | _ =>
      match chapters_text chs with
      | inl e => inl e
      | inr t => inr (heading ++ t)
      end
  end.

(** A logging statement whose argument calls [x.substring(0, 200)] under
    [if (x)]: nothing observable, unless the call throws. *)
Definition log_preview (expr : string) (x : jsval) : M unit :=
  if truthy x then (_ <- lift (call_substring expr 200 x) ;; ret tt) else ret tt.

(** The log line of [relatedChapters.forEach]: its template literal
    converts the chapter's title to a string. *)
Definition log_chapter (ch : chapter) : result string := ToString (title ch).

(** The log line of [chatHistoryContext.forEach]: its template literal
    converts [session.messages?.length || 0] to a string. *)
Definition log_session (session : jsval) : result string :=
  ToString (js_or (opt_prop (prop session "messages") "length") (JNum 0)).

(** [handleCharacterChat] up to the construction of [messages]: the
    presence check, the four context fetches, the log lines and the system
    prompt. *)
Definition characterChat_systemPrompt (w : world) (req : fields) : M string :=
  let userMessage := own_field "userMessage" req in
  let characterName := own_field "characterName" req in
  let personaType := own_field "personaType" req in
  let chatbotInstructions := own_field "chatbotInstructions" req in
  let characterTags := own_field "characterTags" req in
  let storyTags := own_field "storyTags" req in
  let toneTags := own_field "toneTags" req in
  b <- lift (blank "userMessage.trim" userMessage) ;;
  if b then throw (Exn Error "No message provided")
  else
    contextStart <- Date_now w ;;
    ctx <- all4 w (getCharacterContext w characterTags)
                  (getChatHistory w characterTags)
                  (getRelatedChapters w storyTags)
                  (getCatalystIntel w characterTags) ;;
    let '(characterContext, chatHistoryContext, relatedChapters, catalystIntel) := ctx in
    contextEnd <- Date_now w ;;
    log_preview "characterContext.substring" characterContext ;;;
    lift (map_result log_chapter relatedChapters) ;;;
    log_preview "catalystIntel.substring" catalystIntel ;;;
    lift (map_result log_session chatHistoryContext) ;;;
    characterTraits <- lift (tag_line w "Your character traits: " "characterTags.join" characterTags) ;;
    storyContext <- lift (tag_line w "Story tags: " "storyTags.join" storyTags) ;;
    toneContext <- lift (tag_line w "Your tone: " "toneTags.join" toneTags) ;;
    let personalityContext := js_or (js_or chatbotInstructions characterContext) (JStr EmptyString) in
    name <- lift (ToString characterName) ;;
    core <- lift (if truthy personalityContext
                  then match ToString personalityContext with
                       | inl e => inl e
                       | inr p => inr ("YOUR CORE PERSONALITY:" ++ nl ++ p ++ nl ++ nl)
                       end
                  else inr EmptyString) ;;
    let systemPrompt :=
      "You are " ++ name ++ ", a dark and complex character. Stay in character at all times. Be dark, intense, and true to your nature." ++ nl ++ nl
      ++ core
      ++ characterTraits ++ nl ++ storyContext ++ nl ++ toneContext in
    systemPrompt <-
      lift (match personaType with
            | JStr "author-mode" =>
                match ToString personalityContext with
                | inl e => inl e
                | inr p =>
                    inr ("You are " ++ name ++ ", and you are AWARE you're a character created by this author. Be meta. Be accusatory. Question their choices. Challenge them. Make them uncomfortable about what they've written. Be dark and intense, blurring the line between fiction and reality." ++ nl ++ nl ++ p)
                end
            | _ => inr systemPrompt
            end) ;;
    catalyst <- lift (section_if (nl ++ nl ++ "NARRATIVE CATALYST:" ++ nl) catalystIntel) ;;
    chapters <- lift (chapters_section (nl ++ nl ++ "RELATED CHAPTERS YOU APPEAR IN:" ++ nl)
                        relatedChapters) ;;
    ret (systemPrompt ++ catalyst ++ chapters).

(** [...(chatHistory || []).slice(-70)] *)
Definition spread_last_70 (chatHistory : jsval) : result (list jsval) :=
  match js_or chatHistory (JArr []) with
  | JArr l => inr (last_n 70 l)
  | JStr s => inr (chars (string_last_n 70 s))
  | _ => inl (not_a_function_or_iterable "(chatHistory || []).slice")
  end.

Definition handleCharacterChat (w : world) (req : fields) : M jsval :=
  let userMessage := own_field "userMessage" req in
  let chatHistory := own_field "chatHistory" req in
  systemPrompt <- characterChat_systemPrompt w req ;;
  history <- lift (spread_last_70 chatHistory) ;;
  let messages :=
    ([msg "system" (JStr systemPrompt)] ++ history ++ [msg "user" userMessage])%list in
  callAI w messages (Qmake 17 20) 500.

(** [msg.type === 'user' ? 'AUTHOR' : 'YOU'] followed by the text, which
    the template literal converts to a string. *)
Definition transcript_line (m : jsval) : result string :=
  match get_prop m "type", get_prop m "text" with
  | inr ty, inr tx =>
      match ToString tx with
      | inl e => inl e
      | inr t => inr ((match ty with JStr "user" => "AUTHOR" | _ => "YOU" end) ++ ": " ++ t ++ nl)
      end
  | inl e, _ => inl e
  | _, inl e => inl e
  end.

(** [session.messages?.slice(-5).forEach(...)]: the lines it appends. *)
Definition session_lines (session : jsval) : result string :=
  match prop session "messages" with
  | JUndefined | JNull => inr EmptyString
  | JArr l =>
      match map_result transcript_line (last_n 5 l) with
      | inl e => inl e
      | inr ls => inr (String.concat EmptyString ls)
      end
  | JStr _ => inl (not_a_function "session.messages?.slice(...).forEach")
  | _ => inl (not_a_function "session.messages?.slice")
  end.

(** [chatHistory.forEach((session, idx) => ...)], from index [idx]. *)
Fixpoint sessions_text (idx : nat) (sessions : list jsval) : result string :=
  match sessions with
  | [] => inr EmptyString
  | session :: r =>
      match session_lines session with
      | inl e => inl e
      | inr ls =>
          match sessions_text (S idx) r with
          | inl e => inl e
          | inr rest =>
              inr (nl ++ "[Session " ++ string_of_Z (Z.of_nat (idx + 1)) ++ "]" ++ nl ++ ls ++ rest)
          end
      end
  end.

Definition handleDevilPOV (w : world) (req : fields) : M jsval :=
  let previousChapter := own_field "previousChapter" req in
  let characterName := own_field "characterName" req in
  let characterTags := own_field "characterTags" req in
  let storyTags := own_field "storyTags" req in
  let toneTags := own_field "toneTags" req in
  let catalystTags := own_field "catalystTags" req in
  if negb (truthy previousChapter) then throw (Exn Error "No chapter provided")
  else
    contextStart <- Date_now w ;;
    ctx <- all4 w (getCharacterContext w characterTags)
                  (getChatHistory w characterTags)
                  (getRelatedChapters w storyTags)
                  (getCatalystIntel w catalystTags) ;;
    let '(characterContext, chatHistory, relatedChapters, catalystIntel) := ctx in
    contextEnd <- Date_now w ;;
    characterTraits <- lift (tag_line w "Character traits: " "characterTags.join" characterTags) ;;
    storyContext <- lift (tag_line w "Story: " "storyTags.join" storyTags) ;;
    toneContext <- lift (tag_line w "Tone: " "toneTags.join" toneTags) ;;
    name <- lift (ToString (js_or characterName (JStr "the antagonist"))) ;;
    personality <- lift (section_if (nl ++ nl ++ "YOUR CORE PERSONALITY:" ++ nl) characterContext) ;;
    catalyst <- lift (section_if (nl ++ nl ++ "NARRATIVE CATALYST:" ++ nl) catalystIntel) ;;
    chapters <- lift (chapters_section (nl ++ nl ++ "RELATED CHAPTERS FROM THIS STORY:" ++ nl)
                        relatedChapters) ;;
    let systemPrompt :=
      lines ["You are " ++ name ++ ", a dark and complex character. ";
             "";
             "Write from YOUR perspective in response to what the author just wrote. Be DARK, VISCERAL, and UNAPOLOGETICALLY YOURSELF. Show your motivations, your twisted logic, your desires. Make the reader uncomfortable. Make them understand you even as they fear you.";
             "";
             characterTraits;
             storyContext;
             toneContext]
      ++ personality ++ catalyst ++ chapters in
    conversations <-
      lift (match chatHistory with
            | [] => inr EmptyString
            | _ => match sessions_text 0 chatHistory with
                   | inl e => inl e
                   | inr t => inr (nl ++ nl ++ "CONVERSATIONS THE AUTHOR HAS HAD WITH YOU:" ++ nl ++ t)
                   end
            end) ;;
    let systemPrompt :=
      systemPrompt ++ conversations ++ nl ++ nl
      ++ "Write ONLY the chapter from your POV. No explanations, no meta-commentary. Pure character voice. This is YOUR response to what just happened." in
    chapter <- lift (ToString previousChapter) ;;
    result <- callAI w
      [msg "system" (JStr systemPrompt);
       msg "user" (JStr ("This is what the author just wrote:" ++ nl ++ nl ++ chapter ++ nl ++ nl ++ "Now write YOUR response to these events from your twisted perspective:"))]
      (Qmake 9 10) 2500 ;;
    ret result.

(* ================================================================= *)
(** ** Manuscript analysis tools *)

Definition callClaudeForAnalysis (w : world) (messages : list jsval) (maxTokens : Z)
    : M jsval :=
  let apiKey := OPENROUTER_API_KEY w in
  if negb (truthy apiKey) then throw (Exn Error "No API key configured")
  else
    try_catch
      (response <- fetch w (chat_request apiKey "Devil Muse - Manuscript Analysis"
                              "openai/gpt-3.5-turbo" messages (Qmake 3 10) maxTokens) ;;
       if negb (ok response) then
         (errorText <- lift (text response) ;;
          throw (Exn Error ("Claude API failed: " ++ errorText)))
       else
         (data <- lift (json response) ;;
          lift (message_content data)))
      (fun error => throw error).

(** [try { return JSON.parse(response.replace(/```json|```/g, '').trim()) }
     catch (e) { throw new Error(failure) }] *)
Definition parse_markers (w : world) (failure : string) (response : jsval) : M jsval :=
  match response with
  | JStr s =>
      let cleaned := trim (strip_fences s) in
      match JSON_parse w cleaned with
      | inr v => ret v
      | inl _ => throw (Exn Error failure)
      end
  | _ => throw (Exn Error failure)
  end.

(** The shape shared by the five analysis handlers that take only [text]. *)
Definition analysis_handler (w : world) (prompt : jsval -> string) (maxTokens : Z)
    (failure : string) (req : fields) : M jsval :=
  let text := own_field "text" req in
  b <- lift (blank "text.trim" text) ;;
  if b then throw (Exn Error "No text provided for analysis")
  else
    let messages := [msg "user" (JStr (prompt text))] in
    response <- callClaudeForAnalysis w messages maxTokens ;;
    parse_markers w failure response.

Definition overuse_prompt (text : jsval) : string :=
    lines ["You are a ruthless manuscript editor analyzing for OVERUSE patterns.";
           "";
           "Analyze this chapter and identify:";
           "1. **Word repetition** (soft and hard) - words used excessively";
           "2. **Phrase echo** - repeated sentence structures or phrases";
           "3. **Crutch verbs** - overreliance on weak verbs (was, had, felt, seemed, etc.)";
           "4. **Favorite tells** - author's repetitive writing tics";
           "5. **Dialogue fillers** - " ++ dq ++ "um," ++ dq ++ " " ++ dq ++ "well," ++ dq ++ " " ++ dq ++ "just," ++ dq ++ " " ++ dq ++ "actually," ++ dq ++ " etc.";
           "";
           "For each finding, provide:";
           "- The specific issue";
           "- Frequency count";
           "- Severity (Minor/Moderate/Severe)";
           "- First occurrence location (approximate)";
           "";
           "Return your analysis as a JSON array of markers. Each marker must have:";
           "- " ++ dq ++ "icon" ++ dq ++ ": an emoji representing the issue type";
           "- " ++ dq ++ "type" ++ dq ++ ": the category (e.g., " ++ dq ++ "Word Repetition" ++ dq ++ ", " ++ dq ++ "Crutch Verb" ++ dq ++ ")";
           "- " ++ dq ++ "message" ++ dq ++ ": brief description with frequency";
           "- " ++ dq ++ "detail" ++ dq ++ ": expanded explanation and examples";
           "";
           "Example format:";
           "[";
           "  {";
           "    " ++ dq ++ "icon" ++ dq ++ ": " ++ dq ++ "🗡" ++ dq ++ ",";
           "    " ++ dq ++ "type" ++ dq ++ ": " ++ dq ++ "Word Repetition" ++ dq ++ ",";
           "    " ++ dq ++ "message" ++ dq ++ ": " ++ dq ++ "The word 'suddenly' appears 8 times - severe overuse" ++ dq ++ ",";
           "    " ++ dq ++ "detail" ++ dq ++ ": " ++ dq ++ "First occurrence: paragraph 2. This word loses impact through repetition. Consider alternatives: abruptly, without warning, in an instant." ++ dq;
           "  }";
           "]";
           "";
           "CRITICAL: Return ONLY valid JSON. No preamble, no explanation, no markdown code blocks. Just the JSON array.";
           "";
           "Chapter text:";
           to_string text].

Definition handleOveruseScanner (w : world) : fields -> M jsval :=
  analysis_handler w overuse_prompt 3000 "Failed to parse analysis response".

Definition pacing_prompt (text : jsval) : string :=
    lines ["You are a story pacing expert analyzing narrative momentum.";
           "";
           "Analyze this chapter for:";
           "1. **Long exposition clusters** - where narrative bogs down";
           "2. **Dialogue deserts** - stretches without character interaction";
           "3. **Action compression** - rushed sequences that need expansion";
           "4. **Emotional flatlines** - scenes lacking emotional variation";
           "5. **Tension drops** - where stakes or conflict diminish";
           "";
           "Return analysis as JSON array with these fields:";
           "- " ++ dq ++ "icon" ++ dq ++ ": emoji for the pacing issue";
           "- " ++ dq ++ "type" ++ dq ++ ": category name";
           "- " ++ dq ++ "message" ++ dq ++ ": what's wrong and where";
           "- " ++ dq ++ "detail" ++ dq ++ ": why it matters and impact on reader";
           "";
           "Return ONLY valid JSON array. No markdown, no explanation.";
           "";
           "Chapter text:";
           to_string text].

Definition handlePacingAnalyzer (w : world) : fields -> M jsval :=
  analysis_handler w pacing_prompt 3000 "Failed to parse pacing analysis".

Definition mechanics_prompt (text : jsval) : string :=
    lines ["You are a prose mechanics surgeon analyzing sentence-level craft.";
           "";
           "Deep dive into:";
           "1. **Sentence length variance** - monotonous vs dynamic rhythm";
           "2. **Passive density** - overuse of passive voice";
           "3. **Clause stacking** - overly complex nested clauses";
           "4. **Rhythm irregularities** - awkward cadence or flow issues";
           "";
           "This is scalpel work, not grammar police. Focus on CRAFT.";
           "";
           "Return JSON array with:";
           "- " ++ dq ++ "icon" ++ dq ++ ": relevant emoji";
           "- " ++ dq ++ "type" ++ dq ++ ": mechanic category";
           "- " ++ dq ++ "message" ++ dq ++ ": the specific issue";
           "- " ++ dq ++ "detail" ++ dq ++ ": technical explanation and improvement path";
           "";
           "Return ONLY valid JSON array.";
           "";
           "Chapter text:";
           to_string text].

Definition handleSentenceMechanics (w : world) : fields -> M jsval :=
  analysis_handler w mechanics_prompt 2500 "Failed to parse mechanics analysis".

Definition dialogue_prompt (text : jsval) : string :=
    lines ["You are a merciless dialogue critic with surgical precision.";
           "";
           "Analyze dialogue for:";
           "1. **Voice consistency** - does each character sound distinct?";
           "2. **Power imbalance** - who controls conversations and why";
           "3. **Subtext density** - what's said vs what's meant";
           "4. **On-the-nose alerts** - characters stating emotions directly";
           "";
           "Be brutal. No rewrites. Only judgment.";
           "";
           "Return JSON array with:";
           "- " ++ dq ++ "icon" ++ dq ++ ": dialogue-related emoji";
           "- " ++ dq ++ "type" ++ dq ++ ": issue category";
           "- " ++ dq ++ "message" ++ dq ++ ": what's wrong";
           "- " ++ dq ++ "detail" ++ dq ++ ": why it fails and what it reveals about craft";
           "";
           "Return ONLY valid JSON array.";
           "";
           "Chapter text:";
           to_string text].

Definition handleDialogueCritic (w : world) : fields -> M jsval :=
  analysis_handler w dialogue_prompt 2500 "Failed to parse dialogue analysis".

Definition structural_prompt (text : jsval) : string :=
    lines ["You are a structural story architect analyzing narrative integrity.";
           "";
           "Examine:";
           "1. **Act alignment** - does structure follow proper story beats?";
           "2. **Promise vs payoff** - are setups resolved satisfyingly?";
           "3. **Foreshadow utilization** - planted elements that pay off";
           "4. **Chekhov violations** - guns on the wall that don't fire";
           "";
           "This is architectural, not line-level editing.";
           "";
           "Return JSON array with:";
           "- " ++ dq ++ "icon" ++ dq ++ ": structure emoji";
           "- " ++ dq ++ "type" ++ dq ++ ": structural element";
           "- " ++ dq ++ "message" ++ dq ++ ": what's present or missing";
           "- " ++ dq ++ "detail" ++ dq ++ ": impact on overall narrative";
           "";
           "Return ONLY valid JSON array.";
           "";
           "Chapter text:";
           to_string text].

Definition handleStructuralCheck (w : world) : fields -> M jsval :=
  analysis_handler w structural_prompt 2500 "Failed to parse structural analysis".

(* ----------------------------------------------------------------- *)
(** *** AI critic mode *)

Definition cold_editor : string :=
  "You are a cold, ruthless editor who has seen thousands of manuscripts. You care about craft, not feelings. Be direct, surgical, and focus on what WORKS and what DOESN'T.".

(** The own properties of the [personas] object literal. *)
Definition personas : list (string * string) :=
  [("cold_editor", cold_editor);
   ("market_hawk", "You are a market-savvy publishing hawk who knows what SELLS. Evaluate commercial viability, genre expectations, and reader engagement. Be pragmatic and business-focused.");
   ("literary_judge", "You are a literary fiction judge who values prose artistry, thematic depth, and narrative innovation. Be intellectual and demanding about craft excellence.");
   ("dark_romance_gatekeeper", "You are a dark romance gatekeeper who knows the genre inside out. Judge heat levels, power dynamics, emotional stakes, and whether this delivers what readers crave. Be fierce.")].

Fixpoint lookup (k : string) (table : list (string * string)) : option string :=
  match table with
  | [] => None
  | (k', v) :: rest => if k' =? k then Some v else lookup k rest
  end.

(** The function-valued properties an object literal inherits from
    [Object.prototype]. *)
Definition Object_prototype_methods : list string :=
  ["__defineGetter__"; "__defineSetter__"; "hasOwnProperty"; "__lookupGetter__";
   "__lookupSetter__"; "isPrototypeOf"; "propertyIsEnumerable"; "toString";
   "valueOf"; "toLocaleString"].

Definition mem (k : string) (l : list string) : bool := existsb (String.eqb k) l.

(** A built-in function in a template literal. *)
Definition native_function (name : string) : string :=
  "function " ++ name ++ "() { [native code] }".

(** [personas[persona] || personas.cold_editor], as the template literal
    renders it, for a string [persona].  The four texts are truthy; so is
    an inherited property, which is found before the fallback applies. *)
Definition selectedPersona (persona : string) : string :=
  match lookup persona personas with
  | Some t => t
  | None =>
      if persona =? "constructor" then native_function "Object"
      else if persona =? "__proto__" then "[object Object]"
      else if mem persona Object_prototype_methods then native_function persona
      else cold_editor
  end.

(** [persona.replace('_', ' ').toUpperCase()] *)
Definition persona_label (w : world) (persona : jsval) : result string :=
  match persona with
  | JStr p => inr (toUpperCase w (replace_underscore p))
  | JUndefined | JNull => inl (cannot_read persona "replace")
  | _ => inl (not_a_function "persona.replace")
  end.

Definition critic_prompt (selected label : string) (text : jsval) : string :=
    lines [selected;
           "";
           "Read this chapter and provide your assessment in under 500 words.";
           "";
           "Focus on:";
           "- What works";
           "- What doesn't";
           "- Biggest issue to fix";
           "- Overall verdict";
           "";
           "NO EDITS. Only assessment.";
           "";
           "Return as JSON array with ONE marker:";
           "- " ++ dq ++ "icon" ++ dq ++ ": " ++ dq ++ "🎭" ++ dq;
           "- " ++ dq ++ "type" ++ dq ++ ": " ++ dq ++ label ++ dq;
           "- " ++ dq ++ "message" ++ dq ++ ": " ++ dq ++ "Overall Assessment" ++ dq;
           "- " ++ dq ++ "detail" ++ dq ++ ": Your full critique (under 500 words)";
           "";
           "Return ONLY valid JSON array.";
           "";
           "Chapter text:";
           to_string text].

Definition handleAICritic (w : world) (req : fields) : M jsval :=
  let text := own_field "text" req in
  let persona := own_field "persona" req in
  (* the opening log line renders the persona *)
  key <- lift (ToString persona) ;;
  b <- lift (blank "text.trim" text) ;;
  if b then throw (Exn Error "No text provided for critique")
  else
    (* personas[persona]: the property key is the persona as a string *)
    let selected := selectedPersona key in
    label <- lift (persona_label w persona) ;;
    let messages := [msg "user" (JStr (critic_prompt selected label text))] in
    response <- callClaudeForAnalysis w messages 3500 ;;
    parse_markers w "Failed to parse critic response" response.

(* ----------------------------------------------------------------- *)
(** *** Tag janitor *)

(** The names the module declares at its top level. *)
Definition module_scope : list string :=
  ["express"; "cors"; "app"; "WIX_API_KEY"; "WIX_ACCOUNT_ID"; "WIX_SITE_ID";
   "PRIMARY_MODEL"; "BACKUP_MODEL"; "TERTIARY_MODEL"; "callAI"; "queryWixCMS";
   "getCharacterContext"; "getChatHistory"; "getRelatedChapters"; "getCatalystIntel";
   "handleUnhinge"; "handleUnleash"; "handleNoMercy"; "handleInvoke"; "handleIntensify";
   "handleCharacterChat"; "handleDevilPOV"; "callClaudeForAnalysis"; "handleOveruseScanner";
   "handlePacingAnalyzer"; "handleSentenceMechanics"; "handleDialogueCritic"; "handleAICritic";
   "handleStructuralCheck"; "handleTagGeneration"; "PORT"].

(** The names of the platform the source uses.  The platform has no global
    named result, startTime or existingTags. *)
Definition platform_scope : list string :=
  ["require"; "module"; "exports"; "process"; "console"; "fetch"; "JSON"; "Date";
   "Promise"; "Array"; "Error"].

(** Resolving the identifier [x] where the names [locals] are declared by
    the enclosing blocks and functions: a name declared nowhere on the
    scope chain makes the read throw. *)
Definition resolve (locals : list string) (x : string) : result unit :=
  if mem x locals || mem x module_scope || mem x platform_scope then inr tt
  else inl (Exn ReferenceError (x ++ " is not defined")).

(** The names declared inside [handleTagGeneration]: its two destructured
    parameters and its constants. *)
Definition tag_generation_locals : list string :=
  ["name"; "type"; "apiKey"; "prompt"; "response"; "errorText"; "data"; "tag"; "error"].

(** [existingTags?.length ? `Avoid these existing tags: ...` : ''].  The
    optional chain guards the property read, not the identifier. *)
Definition avoid_clause : result string :=
  match resolve tag_generation_locals "existingTags" with
  | inl e => inl e
  | inr _ => inr EmptyString (* not reached: the name has no declaration to take a value from *)
  end.

Definition tag_prompt (type name : jsval) : result string :=
  match avoid_clause with
  | inl e => inl e
  | inr avoid =>
      match type with
      | JStr "character" =>
          inr ("Generate a character tag. Rules: 1) Must start with @, 2) Format: @FirstLast or @FLast if no last name, 3) No spaces, PascalCase, 4) Remove special characters. Name: " ++ to_string name ++ ". " ++ avoid ++ " Return ONLY the tag, nothing else.")
      | _ =>
          inr ("Generate a story tag. Rules: 1) Must start with @, 2) Format: @TitleWithoutSpaces, 3) PascalCase, 4) Keep concise. Title: " ++ to_string name ++ ". " ++ avoid ++ " Return ONLY the tag, nothing else.")
      end
  end.

(** [x.trim()] for any [x]. *)
Definition call_trim_any (expr : string) (x : jsval) : result string :=
  match x with
  | JUndefined | JNull => inl (cannot_read x "trim")
  | _ => call_trim expr x
  end.

Definition handleTagGeneration (w : world) (req : fields) : M jsval :=
  let name := own_field "name" req in
  let type := own_field "type" req in
  (* the opening log line renders the type, then the name *)
  shownType <- lift (ToString type) ;;
  shownName <- lift (ToString name) ;;
  b <- lift (blank "name.trim" name) ;;
  if b then throw (Exn Error "No name provided for tag generation")
  else
    let apiKey := OPENROUTER_API_KEY w in
    if negb (truthy apiKey) then throw (Exn Error "No API key configured")
    else
      prompt <- lift (tag_prompt type name) ;;
      try_catch
        (response <- fetch w (chat_request apiKey "Devil Muse - Tag Janitor"
                                "openai/gpt-4.1-mini" [msg "user" (JStr prompt)]
                                (Qmake 1 10) 50) ;;
         if negb (ok response) then
           (errorText <- lift (text response) ;;
            throw (Exn Error ("Tag generation failed: " ++ errorText)))
         else
           (data <- lift (json response) ;;
            c <- lift (message_content data) ;;
            tag <- lift (call_trim_any "data.choices[0].message.content.trim" c) ;;
            ret (JObj [("tag", JStr tag)])))
        (fun error => throw error).

(* ================================================================= *)
(** ** The unified /devil-pov endpoint *)

(** [action.toUpperCase()], in the first log line. *)
Definition call_toUpperCase (w : world) (expr : string) (x : jsval) : result string :=
  match x with
  | JStr s => inr (toUpperCase w s)
  | JUndefined | JNull => inl (cannot_read x "toUpperCase")
  | _ => inl (not_a_function expr)
  end.

(** The [switch (action)]: every [case] label is compared, in order, before
    [default] applies, wherever [default] stands. *)
Definition dispatch (w : world) (action : jsval) (req : fields) : M jsval :=
  match action with
  | JStr a =>
      if a =? "unhinge" then handleUnhinge w req
      else if a =? "unleash" then handleUnleash w req
      else if a =? "noMercy" then handleNoMercy w req
      else if a =? "invoke" then handleInvoke w req
      else if a =? "intensify" then handleIntensify w req
      else if a =? "characterChat" then handleCharacterChat w req
      else if a =? "devilPOV" then handleDevilPOV w req
      else if a =? "overuse_scanner" then handleOveruseScanner w req
      else if a =? "pacing_analyzer" then handlePacingAnalyzer w req
      else if a =? "sentence_mechanics" then handleSentenceMechanics w req
      else if a =? "dialogue_critic" then handleDialogueCritic w req
      else if a =? "ai_critic" then handleAICritic w req
      else if a =? "structural_check" then handleStructuralCheck w req
      else if a =? "tag_generation" then handleTagGeneration w req
      else handleDevilPOV w req
  | _ => handleDevilPOV w req
  end.

(** [const { action = 'devilPOV' } = req.body] *)
Definition requested_action (req : fields) : jsval :=
  match own_field "action" req with
  | JUndefined => JStr "devilPOV"
  | a => a
  end.

(** The body of the [try] block of the route. *)
Definition try_block (w : world) (req : fields) : M unit :=
  startTime <- Date_now w ;;
  let action := requested_action req in
  shown <- lift (call_toUpperCase w "action.toUpperCase" action) ;;
  result <- dispatch w action req ;;
  logged <- Date_now w ;;
  charsGenerated <- lift (get_prop result "length") ;;
  now <- Date_now w ;;
  respond 200 (JObj [("status", JStr "success");
                     ("result", result);
                     ("charsGenerated", charsGenerated);
                     ("processingTime", JNum (now - startTime))]).

(** The failure envelope of the [catch] block, for an action that converts
    to a string. *)
Definition failure_envelope (req : fields) (err : exn) : jsval :=
  JObj [("error", JStr (to_string (js_or (own_field "action" req) (JStr "Action")) ++ " failed"));
        ("details", JStr (message err))].

(** The names in scope in the [catch] block: its parameter and the
    parameters of the route.  [startTime], [action] and [result] are
    declared with [const] and [let] inside the [try] block and are out of
    scope here. *)
Definition catch_locals : list string := ["err"; "req"; "res"].

(** The body of the [catch] block.  Its log line renders the action before
    the response is written; the envelope renders it again.  Building the
    argument of the second [res.json] reads [result] first. *)
Definition catch_block (w : world) (req : fields) (err : exn) : M unit :=
  shown <- lift (ToString (own_field "action" req)) ;;
  label <- lift (ToString (js_or (own_field "action" req) (JStr "Action"))) ;;
  respond 500 (JObj [("error", JStr (label ++ " failed"));
                     ("details", JStr (message err))]) ;;;
  lift (resolve catch_locals "result") ;;;
  now <- Date_now w ;;
  lift (resolve catch_locals "startTime") ;;;
  (* not reached: neither name has a declaration to take a value from *)
  respond 200 (JObj [("status", JStr "success");
                     ("markers", JUndefined);
                     ("processingTime", JUndefined)]).

(** [app.post('/devil-pov', async (req, res) => { try {...} catch (err) {...} })] *)
Definition devil_pov (w : world) (req : fields) : M unit :=
  try_catch (try_block w req) (catch_block w req).

(** The responses among a list of events. *)
Definition responses (evs : list event) : list (Z * jsval) :=
  flat_map (fun e => match e with Respond s p => [(s, p)] | _ => [] end) evs.

(** The outbound requests among a list of events. *)
Definition requests (evs : list event) : list request :=
  flat_map (fun e => match e with Fetch r => [r] | _ => [] end) evs.

(* ================================================================= *)
(** ** Specification-level readings *)

(** What one candidate model yields, read off the answer to its request:
    its message content when the response is a success, its body parses
    and the content can be reached; nothing otherwise. *)
Definition candidate_content (answer : result response) : option jsval :=
  match answer with
  | inl _ => None
  | inr resp =>
      if ok resp then
        match json resp with
        | inl _ => None
        | inr data =>
            match message_content data with
            | inl _ => None
            | inr c => Some c
            end
        end
      else None
  end.

(** The request [callAI] sends to a model. *)
Definition candidate_request (w : world) (messages : list jsval) (temperature : Q)
    (maxTokens : Z) (model : string) : request :=
  chat_request (OPENROUTER_API_KEY w) "Devil Muse" model messages temperature maxTokens.



(** Every event a computation emits satisfies [P]. *)
Definition emits {A : Type} (P : event -> Prop) (m : M A) : Prop :=
  forall h, Forall P (snd (m h)).

Definition no_response (e : event) : Prop :=
  match e with Respond _ _ => False | _ => True end.

(** The conversation of every chat-completion request among the events
    satisfies [Q]. *)
Definition conversation_is (Q : list jsval -> Prop) (e : event) : Prop :=
  match e with
  | Fetch q =>
      match body q with
      | ChatCompletion _ messages _ _ => Q messages
      | DataQuery _ _ _ => True
      end
  | _ => True
  end.

(** A CMS query for the Catalyst collection filters on [tag]. *)
Definition catalyst_keyed_by (tag : jsval) (e : event) : Prop :=
  match e with
  | Fetch q =>
      match body q with
      | DataQuery c f _ => c = "Catalyst" -> f = filter_on "title" "$contains" tag
      | ChatCompletion _ _ _ _ => True
      end
  | _ => True
  end.

(* ================================================================= *)
(** ** Worlds and requests for the examples *)

(** A success response carrying one completion. *)
Definition completion (c : string) : response :=
  {| ok := true;
     text := inr c;
     json := inr (JObj [("choices",
                         JArr [JObj [("message",
                                      JObj [("role", JStr "assistant");
                                            ("content", JStr c)])]])]) |}.

Definition fetch_failed : exn := Exn TypeError "fetch failed".

Fixpoint all_digits (s : string) : bool :=
  match s with
  | EmptyString => true
  | String c r => ((48 <=? nat_of_ascii c) && (nat_of_ascii c <=? 57))%nat && all_digits r
  end.

Fixpoint some_nonzero (s : string) : bool :=
  match s with
  | EmptyString => false
  | String c r => negb (nat_of_ascii c =? 48)%nat || some_nonzero r
  end.

(** A world with no credential and no network; its engine converts digit
    strings, parses the empty array literal and serializes nothing.  It is
    only asked to upper-case ASCII strings. *)
Definition offline : world :=
  {| OPENROUTER_API_KEY := JUndefined;
     WIX_API_KEY := JUndefined;
     WIX_ACCOUNT_ID := JUndefined;
     WIX_SITE_ID := JUndefined;
     network := fun _ _ => inl fetch_failed;
     rejects_first := fun _ => 0;
     clock := fun h => Z.of_nat (List.length h);
     JSON_parse := fun s => if s =? "[]" then inr (JArr [])
                            else inl (Exn SyntaxError "Unexpected token");
     JSON_stringify := fun _ => None;
     string_gt_zero := fun s => all_digits s && some_nonzero s;
     String_toUpperCase := fun s => s |}.

(** [offline] with a credential and a network [net]. *)
Definition online (net : list event -> request -> result response) : world :=
  {| OPENROUTER_API_KEY := JStr "sk-or-test";
     WIX_API_KEY := JStr "wix-key";
     WIX_ACCOUNT_ID := JStr "account";
     WIX_SITE_ID := JStr "site";
     network := net;
     rejects_first := rejects_first offline;
     clock := clock offline;
     JSON_parse := JSON_parse offline;
     JSON_stringify := JSON_stringify offline;
     string_gt_zero := string_gt_zero offline;
     String_toUpperCase := String_toUpperCase offline |}.

(** The primary model answers 200 with a body that is no JSON; every other
    model answers with the completion [c]. *)
Definition garbled_primary (c : string) : world :=
  online (fun _ q =>
    match body q with
    | ChatCompletion model _ _ _ =>
        if model =? PRIMARY_MODEL then
          inr {| ok := true;
                 text := inr "<html>Bad gateway</html>";
                 json := inl (Exn SyntaxError "Unexpected token < in JSON at position 0") |}
        else inr (completion c)
    | DataQuery _ _ _ => inl fetch_failed
    end).

(** Every model answers with the completion [c]; the CMS is unreachable. *)
Definition always_completes (c : string) : world :=
  online (fun _ q =>
    match body q with
    | ChatCompletion _ _ _ _ => inr (completion c)
    | DataQuery _ _ _ => inl fetch_failed
    end).

Definition hello : list jsval := [msg "user" (JStr "hello")].

(** The request of the end-to-end example, and the stubbed completion. *)
Definition sky_request : fields :=
  [("action", JStr "noMercy"); ("selectedText", JStr "The sky was blue.")].

Definition sky_completion : string := "The sky bled violet fury.".

(** The success envelope of the route. *)
Definition success_envelope (result charsGenerated : jsval) (elapsed : Z) : jsval :=
  JObj [("status", JStr "success");
        ("result", result);
        ("charsGenerated", charsGenerated);
        ("processingTime", JNum elapsed)].

(** A session history of [n] messages, numbered from [k]. *)
Fixpoint numbered_messages (k n : nat) : list jsval :=
  match n with
  | O => []
  | S n' => msg "user" (JStr ("message " ++ string_of_Z (Z.of_nat k))) :: numbered_messages (S k) n'
  end.

(** A characterChat request that carries a session history of 80 messages. *)
Definition chat_request_80 : fields :=
  [("action", JStr "characterChat");
   ("userMessage", JStr "Are you still there?");
   ("characterName", JStr "Lilith");
   ("chatHistory", JArr (numbered_messages 1 80))].


(** A CMS that answers every query with one record whose chapter body is
    [chapterContent]. *)
Definition one_chapter (chapterContent : string) : world :=
  online (fun _ q =>
    match body q with
    | DataQuery _ _ _ =>
        inr {| ok := true;
               text := inr "{...}";
               json := inr (JObj [("dataItems",
                                   JArr [JObj [("data",
                                               JObj [("title", JStr "Chapter One");
                                                     ("chapterContent", JStr chapterContent)])]])]) |}
    | ChatCompletion _ _ _ _ => inl fetch_failed
    end).

(** [name] is a property every object literal inherits. *)
Definition inherited_name (name : string) : bool :=
  (name =? "constructor") || (name =? "__proto__") || mem name Object_prototype_methods.

(** Two ai_critic requests on the same text: one names a persona the table
    does not have, the other names cold_editor. *)
Definition critic_request (persona : string) : fields :=
  [("action", JStr "ai_critic"); ("text", JStr "It was a dark night."); ("persona", JStr persona)].

(** The chat messages of the requests among a list of events. *)
Definition outbound_messages (evs : list event) : list (list jsval) :=
  flat_map (fun q => match body q with
                     | ChatCompletion _ messages _ _ => [messages]
                     | DataQuery _ _ _ => []
                     end) (requests evs).

(** A characterChat request with a character tag, and the same request with
    a catalystTags field besides. *)
Definition lilith_chat : fields :=
  [("action", JStr "characterChat");
   ("userMessage", JStr "Are you still there?");
   ("characterName", JStr "Lilith");
   ("characterTags", JArr [JStr "@Lilith"; JStr "@Queen"])].

Definition lilith_chat_with_catalyst : fields :=
  ("catalystTags", JArr [JStr "@Storm"]) :: lilith_chat.

(** The presence checks of the handlers: the action, the field it requires
    and the message of the error it throws when the field is blank. *)
Definition presence_checks : list (string * string * string) :=
  [("unhinge", "chapterContent", "No content to unhinge");
   ("unleash", "chapterContent", "No content to continue from");
   ("noMercy", "selectedText", "No text selected for rewrite");
   ("intensify", "selectedText", "No text selected to intensify");
   ("characterChat", "userMessage", "No message provided");
   ("overuse_scanner", "text", "No text provided for analysis");
   ("pacing_analyzer", "text", "No text provided for analysis");
   ("sentence_mechanics", "text", "No text provided for analysis");
   ("dialogue_critic", "text", "No text provided for analysis");
   ("ai_critic", "text", "No text provided for critique");
   ("structural_check", "text", "No text provided for analysis");
   ("tag_generation", "name", "No name provided for tag generation")].

(** Every character of [s] is white space. *)
Definition whitespace_only (s : string) : bool :=
  forallb is_ws (list_ascii_of_string s).

(** A required field that is missing, falsy, or a string of white space. *)
Definition absent_or_blank (v : jsval) : Prop :=
  truthy v = false \/ exists s, v = JStr s /\ whitespace_only s = true.

(** The [case] labels of the route's [switch]. *)
Definition case_labels : list string :=
  ["unhinge"; "unleash"; "noMercy"; "invoke"; "intensify"; "characterChat"; "devilPOV";
   "overuse_scanner"; "pacing_analyzer"; "sentence_mechanics"; "dialogue_critic";
   "ai_critic"; "structural_check"; "tag_generation"].

(** The failure envelope with its two fields spelled out. *)
Definition failure (error details : string) : jsval :=
  JObj [("error", JStr error); ("details", JStr details)].

(** The one request [callClaudeForAnalysis] sends. *)
Definition analysis_request (w : world) (messages : list jsval) (maxTokens : Z) : request :=
  chat_request (OPENROUTER_API_KEY w) "Devil Muse - Manuscript Analysis"
    "openai/gpt-3.5-turbo" messages (Qmake 3 10) maxTokens.

(** What the analysis caller makes of the answer to its request. *)
Definition analysis_outcome (answer : result response) : result jsval :=
  match answer with
  | inl e => inl e
  | inr resp =>
      if ok resp then
        match json resp with
        | inl e => inl e
        | inr data => message_content data
        end
      else
        match text resp with
        | inl e => inl e
        | inr errorText => inl (Exn Error ("Claude API failed: " ++ errorText))
        end
  end.

(** [s] holds no backtick. *)
Fixpoint no_backtick (s : string) : bool :=
  match s with
  | EmptyString => true
  | String c r => negb (c =? "`")%char && no_backtick r
  end.

(** A model whose every answer is the text [c], for the analysis tools. *)
Definition analyst (c : string) : world := always_completes c.

(** The answer to a CMS query brings no record: the request failed, the
    status is not a success, the body cannot be parsed, or its [dataItems]
    is missing, null or empty. *)
Definition no_records (answer : result response) : bool :=
  match answer with
  | inl _ => true
  | inr resp =>
      if ok resp then
        match json resp with
        | inl _ => true
        | inr data =>
            match prop data "dataItems" with
            | JUndefined | JNull | JArr [] => true
            | _ => false
            end
        end
      else true
  end.

(** A chat session cut down to its last five messages. *)
Definition recent_five (session : jsval) : jsval :=
  match prop session "messages" with
  | JArr l => JObj [("messages", JArr (last_n 5 l))]
  | _ => session
  end.

(** The fixed instructions that open the system prompt of [handleUnleash]. *)
Definition unleash_instructions : string :=
  "You are a dark, creative storyteller. Continue the story from where it left off. Match the tone, style, and darkness of the existing text. Write 2-3 paragraphs that flow naturally from the previous content. Make it intense, gripping, and push the narrative forward. Do NOT add any preamble or explanation - start writing immediately where the story left off.".

(** The user message of [handleUnleash]. *)
Definition unleash_user_message (chapterContent : string) : jsval :=
  msg "user" (JStr ("Continue this story. Pick up EXACTLY where it ends and keep going:"
                    ++ nl ++ nl ++ chapterContent)).

(** A computation that throws whatever happened before, and whose events
    all satisfy [P]. *)
Definition stops_with {A : Type} (P : event -> Prop) (m : M A) : Prop :=
  forall h, (exists e, fst (m h) = inl e) /\ Forall P (snd (m h)).

(** No chat-completion request. *)
Definition no_chat_request : event -> Prop := conversation_is (fun _ => False).

(** Every model answers 200 with a message whose content is null. *)
Definition answers_null : world :=
  online (fun _ q =>
    match body q with
    | ChatCompletion _ _ _ _ =>
        inr {| ok := true;
               text := inr "{...}";
               json := inr (JObj [("choices",
                                   JArr [JObj [("message",
                                                JObj [("role", JStr "assistant");
                                                      ("content", JNull)])]])]) |}
    | DataQuery _ _ _ => inl fetch_failed
    end).

(** A CMS that answers every query with two chat records: the first stores
    its message log as text that is no JSON, the second as an array. *)
Definition two_sessions : world :=
  online (fun _ q =>
    match body q with
    | DataQuery _ _ _ =>
        inr {| ok := true;
               text := inr "{...}";
               json := inr (JObj [("dataItems",
                                   JArr [JObj [("data", JObj [("chatBox", JStr "{oops")])];
                                         JObj [("data",
                                                JObj [("chatBox",
                                                       JArr [JObj [("type", JStr "user");
                                                                   ("text", JStr "hi")]])])]])]) |}
    | ChatCompletion _ _ _ _ => inl fetch_failed
    end).

(** The three models [callAI] falls back over. *)
Definition fallback_models : list string := [PRIMARY_MODEL; BACKUP_MODEL; TERTIARY_MODEL].

(** The temperature and token budget the generation handlers call [callAI]
    with. *)
Definition generation_settings : list (Q * Z) :=
  [(Qmake 9 10, 3000%Z); (Qmake 17 20, 2000%Z); (Qmake 9 10, 1500%Z); (Qmake 17 20, 800%Z);
   (Qmake 4 5, 1500%Z); (Qmake 17 20, 500%Z); (Qmake 9 10, 2500%Z)].

(** The token budgets of the analysis tools. *)
Definition analysis_budgets : list Z := [3000%Z; 2500%Z; 3500%Z].

(** The CMS queries of the context fetchers: collection, filtered field,
    operator and limit. *)
Definition cms_queries : list (string * string * string * Z) :=
  [("Characters", "charactertags", "$eq", 1%Z);
   ("ChatWithCharacters", "charactertags", "$eq", 5%Z);
   ("BackupChapters", "storyTag", "$eq", 3%Z);
   ("Catalyst", "title", "$contains", 1%Z)].

(** The requests the route sends: a generation request to one of the three
    fallback models, an analysis request, or one of the four CMS queries. *)
Inductive expected_request (w : world) : request -> Prop :=
| expected_generation : forall model messages temperature maxTokens,
    In model fallback_models ->
    In (temperature, maxTokens) generation_settings ->
    expected_request w (candidate_request w messages temperature maxTokens model)
| expected_analysis : forall messages maxTokens,
    In maxTokens analysis_budgets ->
    expected_request w (analysis_request w messages maxTokens)
| expected_query : forall collection field op tag limit,
    In (collection, field, op, limit) cms_queries ->
    expected_request w (wix_request w collection (filter_on field op tag) limit).

Definition expected (w : world) (e : event) : Prop :=
  match e with
  | Fetch q => expected_request w q
  | _ => True
  end.

(** The header [name] of a request. *)
Definition header (name : string) (q : request) : jsval := own_field name (headers q).

(** A request to a model, and a query to the CMS. *)
Definition is_chat (e : event) : bool :=
  match e with
  | Fetch q => match body q with ChatCompletion _ _ _ _ => true | DataQuery _ _ _ => false end
  | _ => false
  end.

Definition is_query (e : event) : bool :=
  match e with
  | Fetch q => match body q with DataQuery _ _ _ => true | ChatCompletion _ _ _ _ => false end
  | _ => false
  end.

(** The number of events that [p] selects. *)
Definition count (p : event -> bool) (evs : list event) : nat :=
  List.length (filter p evs).

(** A computation emits at most [n] events that [p] selects. *)
Definition at_most {A : Type} (p : event -> bool) (n : nat) (m : M A) : Prop :=
  forall h, count p (snd (m h)) <= n.

(** An event that [p] does not select. *)
Definition skipped (p : event -> bool) (e : event) : Prop := p e = false.

(** A world with a credential where every request fails in transport. *)
Definition unreachable : world := online (fun _ _ => inl fetch_failed).

(** A characterChat request with a character tag and a story tag. *)
Definition tagged_chat : fields :=
  [("action", JStr "characterChat");
   ("userMessage", JStr "Are you still there?");
   ("characterTags", JArr [JStr "@Lilith"]);
   ("storyTags", JArr [JStr "@Ashfall"])].

(** A CMS that answers every query 200 with a body whose [dataItems] is a
    text, not an array. *)
Definition text_for_items : world :=
  online (fun _ q =>
    match body q with
    | DataQuery _ _ _ =>
        inr {| ok := true;
               text := inr "{...}";
               json := inr (JObj [("dataItems", JStr "none")]) |}
    | ChatCompletion _ _ _ _ => inl fetch_failed
    end).

(** The fields that the opening log line of a handler renders in a
    template literal, before the handler's presence check. *)
Definition logged_first (action : string) : list string :=
  if action =? "ai_critic" then ["persona"]
  else if action =? "tag_generation" then ["type"; "name"]
  else [].

(** The fields [names] of the request all convert to a string. *)
Definition renders (req : fields) (names : list string) : bool :=
  forallb (fun k => printable (own_field k req)) names.

(** An action that is given but is no string. *)
Definition not_text (v : jsval) : bool :=
  match v with
  | JUndefined | JStr _ => false
  | _ => true
  end.

(** A computation that emits nothing. *)
Definition silent {A : Type} (m : M A) : Prop := forall h, snd (m h) = [].

(* ================================================================= *)
(** ** Running computations *)

(** Conversions to a string, on examples. *)
Example number_to_string_examples :
  to_string (JNum 42) = "42" /\
  to_string (JNum (-7)) = "-7" /\
  to_string (JNum (2 ^ 53)) = "9007199254740992" /\
  to_string (JNum (2 ^ 60)) = "1152921504606847000" /\
  to_string (JNum (10 ^ 21)) = "1e+21" /\
  to_string (JNum (2 ^ 70)) = "1.1805916207174113e+21".
Proof. vm_compute. repeat split. Qed.

Example ToString_examples :
  ToString (JArr [JNull; JNum 1; JArr [JStr "a"; JStr "b"]]) = inr ",1,a,b" /\
  ToString (JObj [("valueOf", JNum 1)]) = inr "[object Object]" /\
  ToString (JObj [("toString", JNum 1)])
    = inl (Exn TypeError "Cannot convert object to primitive value") /\
  ToString (JArr [JStr "a"; JObj [("toString", JStr "b")]])
    = inl (Exn TypeError "Cannot convert object to primitive value").
Proof. repeat split. Qed.

Lemma app_nil_end_r : forall (A : Type) (l : list A), (l ++ [])%list = l.
Proof. intros A l. induction l as [|x r IH]; simpl; congruence. Qed.

Lemma run_bind : forall (A B : Type) (m : M A) (f : A -> M B) (h : list event),
  bind m f h =
  match m h with
  | (inl e, out) => (inl e, out)
  | (inr a, out) => let '(r, out') := f a (h ++ out)%list in (r, (out ++ out')%list)
  end.
Proof. reflexivity. Qed.

Lemma run_bind_lift_inr : forall (A B : Type) (a : A) (f : A -> M B) (h : list event),
  bind (lift (inr a)) f h = f a h.
Proof.
  intros A B a f h. unfold bind, lift. rewrite app_nil_end_r.
  destruct (f a h) as [r out]. reflexivity.
Qed.

Lemma run_bind_lift_inl : forall (A B : Type) (e : exn) (f : A -> M B) (h : list event),
  bind (lift (inl e)) f h = (inl e, []).
Proof. reflexivity. Qed.

Lemma run_bind_ret : forall (A B : Type) (a : A) (f : A -> M B) (h : list event),
  bind (ret a) f h = f a h.
Proof. intros. apply run_bind_lift_inr. Qed.

Lemma silent_lift : forall (A : Type) (r : result A), silent (lift r).
Proof. intros A r h. reflexivity. Qed.

Lemma silent_ret : forall (A : Type) (a : A), silent (ret a).
Proof. intros A a h. reflexivity. Qed.

Lemma silent_throw : forall (A : Type) (e : exn), silent (@throw A e).
Proof. intros A e h. reflexivity. Qed.

Lemma silent_bind : forall (A B : Type) (m : M A) (f : A -> M B),
  silent m -> (forall a, silent (f a)) -> silent (bind m f).
Proof.
  intros A B m f Hm Hf h. unfold bind. specialize (Hm h).
  destruct (m h) as [[e|a] out]; simpl in *; [assumption|].
  specialize (Hf a (h ++ out)%list). destruct (f a (h ++ out)%list) as [r out'].
  simpl in *. subst. reflexivity.
Qed.

Lemma snd_bind_silent : forall (A B : Type) (m : M A) (f : A -> M B) h,
  (forall a, silent (f a)) -> snd (bind m f h) = snd (m h).
Proof.
  intros A B m f h Hf. unfold bind.
  destruct (m h) as [[e|a] out]; simpl; [reflexivity|].
  specialize (Hf a (h ++ out)%list). destruct (f a (h ++ out)%list) as [r out'].
  simpl in *. subst. apply app_nil_end_r.
Qed.

Ltac silent_step :=
  match goal with
  | |- silent (bind _ _) => apply silent_bind; [|intros]
  | |- silent (lift _) => apply silent_lift
  | |- silent (ret _) => apply silent_ret
  | |- silent (throw _) => apply silent_throw
  | |- silent (if ?b then _ else _) => destruct b
  | |- silent (match ?x with _ => _ end) => destruct x
  end.

Ltac silent_auto := repeat silent_step.

(* ================================================================= *)
(** ** The CMS query adapter *)

Lemma queryWixCMS_run : forall w collection filter limit h,
  queryWixCMS w collection filter limit h =
  (inr {| items :=
            match network w h (wix_request w collection filter limit) with
            | inl _ => JArr []
            | inr resp =>
                if ok resp then
                  match json resp with
                  | inl _ => JArr []
                  | inr data =>
                      match get_prop data "dataItems" with
                      | inl _ => JArr []
                      | inr dataItems =>
                          if printable (js_or (opt_prop dataItems "length") (JNum 0))
                          then js_or dataItems (JArr [])
                          else JArr []
                      end
                  end
                else JArr []
            end |},
   [Fetch (wix_request w collection filter limit)]).
Proof.
  intros w collection filter limit h.
  unfold queryWixCMS, try_catch, bind, fetch, lift, ret.
  destruct (network w h (wix_request w collection filter limit)) as [e|resp]; simpl.
  - reflexivity.
  - destruct (ok resp); simpl.
    + destruct (json resp) as [e|data]; simpl; [reflexivity|].
      destruct (get_prop data "dataItems") as [e|dataItems]; [reflexivity|].
      unfold ToString.
      destruct (printable (js_or (opt_prop dataItems "length") (JNum 0))); reflexivity.
    + destruct (text resp); reflexivity.
Qed.

(** C4, as the code has it.  The CMS query adapter never throws and issues
    exactly one request.  It returns [{items: []}] when the request fails
    in transport, when the status is not a success, and when the body
    cannot be parsed or parses to null.  On a success whose body [data]
    parsed it returns [data.dataItems || []]: the array when [dataItems] is
    an array, [[]] when [dataItems] is missing or falsy, and a truthy
    [dataItems] that is no array as it is.  The one exception is a
    [dataItems] whose [length] the log line cannot render: the adapter
    catches that and returns [{items: []}]. *)
Theorem queryWixCMS_never_throws : forall w collection filter limit h,
  exists r,
    queryWixCMS w collection filter limit h
      = (inr r, [Fetch (wix_request w collection filter limit)]) /\
    let answer := network w h (wix_request w collection filter limit) in
    (forall e, answer = inl e -> items r = JArr []) /\
    (forall resp, answer = inr resp -> ok resp = false -> items r = JArr []) /\
    (forall resp e, answer = inr resp -> ok resp = true -> json resp = inl e ->
       items r = JArr []) /\
    (forall resp, answer = inr resp -> ok resp = true -> json resp = inr JNull ->
       items r = JArr []) /\
    (forall resp data records, answer = inr resp -> ok resp = true ->
       json resp = inr data -> get_prop data "dataItems" = inr (JArr records) ->
       items r = JArr records) /\
    (forall resp data dataItems, answer = inr resp -> ok resp = true ->
       json resp = inr data -> get_prop data "dataItems" = inr dataItems ->
       truthy dataItems = false ->
       items r = JArr []) /\
    (forall resp data dataItems, answer = inr resp -> ok resp = true ->
       json resp = inr data -> get_prop data "dataItems" = inr dataItems ->
       truthy dataItems = true -> printable (opt_prop dataItems "length") = true ->
       items r = dataItems) /\
    (forall resp data dataItems, answer = inr resp -> ok resp = true ->
       json resp = inr data -> get_prop data "dataItems" = inr dataItems ->
       printable (js_or (opt_prop dataItems "length") (JNum 0)) = false ->
       items r = JArr []).
Proof.
  intros w collection filter limit h.
  eexists. split; [apply queryWixCMS_run|].
  cbv zeta. simpl items.
  repeat split.
  - intros e H. rewrite H. reflexivity.
  - intros resp H Hok. rewrite H, Hok. reflexivity.
  - intros resp e H Hok Hj. rewrite H, Hok, Hj. reflexivity.
  - intros resp H Hok Hj. rewrite H, Hok, Hj. reflexivity.
  - intros resp data records H Hok Hj Hd. rewrite H, Hok, Hj, Hd.
    destruct records; reflexivity.
  - intros resp data dataItems H Hok Hj Hd Hf. rewrite H, Hok, Hj, Hd.
    destruct (printable (js_or (opt_prop dataItems "length") (JNum 0))); [|reflexivity].
    unfold js_or. rewrite Hf. reflexivity.
  - intros resp data dataItems H Hok Hj Hd Ht Hp. rewrite H, Hok, Hj, Hd.
    assert (Hq : printable (js_or (opt_prop dataItems "length") (JNum 0)) = true).
    { unfold js_or. destruct (truthy (opt_prop dataItems "length")); [exact Hp|reflexivity]. }
    rewrite Hq. unfold js_or. rewrite Ht. reflexivity.
  - intros resp data dataItems H Hok Hj Hd Hp. rewrite H, Hok, Hj, Hd, Hp. reflexivity.
Qed.

(** C4 as stated fails: the CMS answers 200 with a body whose [dataItems]
    is a text.  The adapter returns that text as [items], which is neither
    [[]] nor an array of records, and the caller that maps over the items
    throws. *)
Lemma queryWixCMS_non_array_passed_through :
  queryWixCMS text_for_items "BackupChapters" (filter_on "storyTag" "$eq" (JStr "@Story")) 3 []
    = (inr {| items := JStr "none" |},
       [Fetch (wix_request text_for_items "BackupChapters"
                 (filter_on "storyTag" "$eq" (JStr "@Story")) 3)]) /\
  JStr "none" <> JArr [] /\
  (forall records, JStr "none" <> JArr records) /\
  fst (getRelatedChapters text_for_items (JArr [JStr "@Story"]) [])
    = inl (Exn TypeError "result.items.map is not a function").
Proof.
  split; [reflexivity|]. split; [discriminate|]. split; [intros records; discriminate|].
  reflexivity.
Qed.

(* ================================================================= *)
(** ** The model-fallback caller *)

Lemma callAI_attempt_run : forall w apiKey messages temperature maxTokens model h,
  callAI_attempt w apiKey messages temperature maxTokens model h =
  (inr (candidate_content
          (network w h (chat_request apiKey "Devil Muse" model messages temperature maxTokens))),
   [Fetch (chat_request apiKey "Devil Muse" model messages temperature maxTokens)]).
Proof.
  intros w apiKey messages temperature maxTokens model h.
  unfold callAI_attempt, try_catch, bind, fetch, lift, ret, candidate_content.
  destruct (network w h _) as [e|resp]; simpl; [reflexivity|].
  destruct (ok resp); simpl.
  - destruct (json resp) as [e|data]; simpl; [reflexivity|].
    destruct (message_content data); reflexivity.
  - destruct (text resp); reflexivity.
Qed.

Lemma callAI_loop_cons : forall w apiKey messages temperature maxTokens model rest h,
  callAI_loop w apiKey messages temperature maxTokens (model :: rest) h =
  let q := chat_request apiKey "Devil Muse" model messages temperature maxTokens in
  match candidate_content (network w h q) with
  | Some c => (inr c, [Fetch q])
  | None =>
      let '(r, out) := callAI_loop w apiKey messages temperature maxTokens rest (h ++ [Fetch q])%list in
      (r, Fetch q :: out)
  end.
Proof.
  intros. cbn [callAI_loop]. rewrite run_bind, callAI_attempt_run. cbv zeta.
  destruct (candidate_content _); reflexivity.
Qed.

(** C1, as the code has it.  With a credential configured, [callAI] asks the
    primary, the backup and the tertiary model, in that order and one at a
    time.  The first candidate that yields content (a success response whose
    body parses and holds [choices[0].message.content]) ends the call with
    that content, and no later candidate is asked.  A candidate that yields
    none (transport failure, non-success status, or a success response
    whose content cannot be extracted) is passed over.  When none of the
    three yields content the call throws "All models failed". *)
Theorem callAI_first_yielding_candidate : forall w messages temperature maxTokens h,
  truthy (OPENROUTER_API_KEY w) = true ->
  let q1 := candidate_request w messages temperature maxTokens PRIMARY_MODEL in
  let q2 := candidate_request w messages temperature maxTokens BACKUP_MODEL in
  let q3 := candidate_request w messages temperature maxTokens TERTIARY_MODEL in
  callAI w messages temperature maxTokens h =
  match candidate_content (network w h q1) with
  | Some c => (inr c, [Fetch q1])
  | None =>
      match candidate_content (network w (h ++ [Fetch q1])%list q2) with
      | Some c => (inr c, [Fetch q1; Fetch q2])
      | None =>
          match candidate_content (network w ((h ++ [Fetch q1]) ++ [Fetch q2])%list q3) with
          | Some c => (inr c, [Fetch q1; Fetch q2; Fetch q3])
          | None => (inl (Exn Error "All models failed"), [Fetch q1; Fetch q2; Fetch q3])
          end
      end
  end.
Proof.
  intros w messages temperature maxTokens h Hkey q1 q2 q3.
  unfold callAI. rewrite Hkey. cbn [negb].
  rewrite callAI_loop_cons. cbv zeta. fold (candidate_request w messages temperature maxTokens PRIMARY_MODEL).
  fold q1. destruct (candidate_content (network w h q1)); [reflexivity|].
  rewrite callAI_loop_cons. cbv zeta. fold (candidate_request w messages temperature maxTokens BACKUP_MODEL).
  fold q2. destruct (candidate_content (network w (h ++ [Fetch q1])%list q2)); [reflexivity|].
  rewrite callAI_loop_cons. cbv zeta. fold (candidate_request w messages temperature maxTokens TERTIARY_MODEL).
  fold q3. destruct (candidate_content (network w ((h ++ [Fetch q1]) ++ [Fetch q2])%list q3)); reflexivity.
Qed.

Lemma callAI_first_yielding_candidate_witness :
  truthy (OPENROUTER_API_KEY (garbled_primary "x")) = true /\
  callAI (garbled_primary "x") hello (Qmake 9 10) 2500 [] =
    (inr (JStr "x"),
     [Fetch (candidate_request (garbled_primary "x") hello (Qmake 9 10) 2500 PRIMARY_MODEL);
      Fetch (candidate_request (garbled_primary "x") hello (Qmake 9 10) 2500 BACKUP_MODEL)]).
Proof.
  split; [reflexivity|].
  exact (callAI_first_yielding_candidate (garbled_primary "x") hello (Qmake 9 10) 2500 []
           eq_refl).
Defined.

(** C1 as stated fails: the primary model's request returns a success
    response, yet the backup model is asked as well and it is the backup's
    content that is returned. *)
Lemma callAI_success_response_passed_over :
  (exists resp,
     network (garbled_primary "x") []
       (candidate_request (garbled_primary "x") hello (Qmake 9 10) 2500 PRIMARY_MODEL)
       = inr resp /\ ok resp = true) /\
  callAI (garbled_primary "x") hello (Qmake 9 10) 2500 [] =
    (inr (JStr "x"),
     [Fetch (candidate_request (garbled_primary "x") hello (Qmake 9 10) 2500 PRIMARY_MODEL);
      Fetch (candidate_request (garbled_primary "x") hello (Qmake 9 10) 2500 BACKUP_MODEL)]).
Proof.
  split.
  - eexists. split; reflexivity.
  - reflexivity.
Qed.

(* ================================================================= *)
(** ** Missing credential *)

Lemma blank_string : forall expr s,
  blank expr (JStr s) = inr (orb (s =? EmptyString) (String.length (trim s) =? 0)%nat).
Proof.
  intros expr s. unfold blank. simpl. destruct (s =? EmptyString); reflexivity.
Qed.

Lemma length_zero_empty : forall s, (String.length s =? 0)%nat = (s =? EmptyString).
Proof. destruct s; reflexivity. Qed.

Lemma blank_false : forall expr s,
  trim s <> EmptyString -> blank expr (JStr s) = inr false.
Proof.
  intros expr s Hne. rewrite blank_string, length_zero_empty.
  destruct (trim s =? EmptyString) eqn:Ht; [apply String.eqb_eq in Ht; contradiction|].
  destruct (s =? EmptyString) eqn:He; [|reflexivity].
  apply String.eqb_eq in He. subst s. exfalso. apply Hne. reflexivity.
Qed.

Lemma printable_string : forall s, ToString (JStr s) = inr s.
Proof. reflexivity. Qed.

(** [handleTagGeneration] throws whatever it is given, and what it throws. *)
Lemma handleTagGeneration_throws : forall w req,
  exists e,
    (forall h, handleTagGeneration w req h = (inl e, [])) /\
    (printable (own_field "type" req) = false -> e = cannot_convert) /\
    (printable (own_field "type" req) = true ->
     printable (own_field "name" req) = true ->
     match blank "name.trim" (own_field "name" req) with
     | inl e' => e = e'
     | inr true => e = Exn Error "No name provided for tag generation"
     | inr false =>
         e = if truthy (OPENROUTER_API_KEY w)
             then Exn ReferenceError "existingTags is not defined"
             else Exn Error "No API key configured"
     end).
Proof.
  intros w req. unfold handleTagGeneration, ToString. cbv zeta.
  destruct (printable (own_field "type" req)).
  - destruct (printable (own_field "name" req)).
    + destruct (blank "name.trim" (own_field "name" req)) as [e|[|]].
      * exists e. split; [reflexivity|]. split; [discriminate|]. reflexivity.
      * eexists. split; [reflexivity|]. split; [discriminate|]. reflexivity.
      * destruct (truthy (OPENROUTER_API_KEY w)).
        -- eexists. split; [reflexivity|]. split; [discriminate|]. reflexivity.
        -- eexists. split; [reflexivity|]. split; [discriminate|]. reflexivity.
    + eexists. split; [reflexivity|]. split; discriminate.
  - eexists. split; [reflexivity|]. split; [reflexivity|discriminate].
Qed.

(** C2, as the code has it.  Without a credential the fallback caller and
    the single-model analysis caller throw "No API key configured" and
    issue no request, whatever their arguments.  Tag generation also
    throws without issuing a request; its error is "No API key configured"
    when the name is a string that is not blank and the type converts to a
    string.  (Its opening log line renders the type and the name before
    any check: a type that does not convert makes that line throw a
    TypeError.) *)
Theorem no_credential_no_request : forall w,
  truthy (OPENROUTER_API_KEY w) = false ->
  (forall messages temperature maxTokens h,
     callAI w messages temperature maxTokens h
       = (inl (Exn Error "No API key configured"), [])) /\
  (forall messages maxTokens h,
     callClaudeForAnalysis w messages maxTokens h
       = (inl (Exn Error "No API key configured"), [])) /\
  (forall req,
     exists e,
       (forall h, handleTagGeneration w req h = (inl e, [])) /\
       (forall s, own_field "name" req = JStr s -> trim s <> EmptyString ->
          printable (own_field "type" req) = true ->
          e = Exn Error "No API key configured") /\
       (printable (own_field "type" req) = false ->
          e = Exn TypeError "Cannot convert object to primitive value")).
Proof.
  intros w Hkey. repeat split.
  - intros. unfold callAI. rewrite Hkey. reflexivity.
  - intros. unfold callClaudeForAnalysis. rewrite Hkey. reflexivity.
  - intros req. destruct (handleTagGeneration_throws w req) as [e [H1 [H2 H3]]].
    exists e. split; [exact H1|]. split; [|exact H2].
    intros s Hs Hne Hp. specialize (H3 Hp). rewrite Hs in H3. specialize (H3 eq_refl).
    rewrite (blank_false _ _ Hne), Hkey in H3. exact H3.
Qed.

Lemma no_credential_no_request_witness :
  truthy (OPENROUTER_API_KEY offline) = false /\
  callAI offline hello (Qmake 9 10) 2500 [] = (inl (Exn Error "No API key configured"), []) /\
  callClaudeForAnalysis offline hello 3000 [] = (inl (Exn Error "No API key configured"), []) /\
  handleTagGeneration offline [("name", JStr "Lilith Vane"); ("type", JStr "character")] []
    = (inl (Exn Error "No API key configured"), []).
Proof.
  pose proof (no_credential_no_request offline eq_refl) as [H1 [H2 H3]].
  split; [reflexivity|].
  split; [apply H1|].
  split; [apply H2|].
  reflexivity.
Defined.

(** C2 as stated fails for tag generation: with no credential and a blank
    name the error is the presence check's, not a configuration error. *)
Lemma tag_generation_blank_name_not_configuration_error :
  truthy (OPENROUTER_API_KEY offline) = false /\
  handleTagGeneration offline [("name", JStr " "); ("type", JStr "character")] []
    = (inl (Exn Error "No name provided for tag generation"), []) /\
  Exn Error "No name provided for tag generation" <> Exn Error "No API key configured".
Proof.
  split; [reflexivity|]. split; [reflexivity|]. discriminate.
Qed.

(* ================================================================= *)
(** ** Context fetchers without a tag *)

(** C3 at its failing input.  [getChatHistory] only tests [!characterTags];
    an empty list is truthy, so the CMS is queried, with an undefined tag. *)
Theorem getChatHistory_empty_list_queries : forall w h,
  snd (getChatHistory w (JArr []) h) =
  [Fetch (wix_request w "ChatWithCharacters" (filter_on "charactertags" "$eq" JUndefined) 5)].
Proof.
  intros w h. unfold getChatHistory. cbn [truthy negb first_tag nth].
  rewrite snd_bind_silent; [rewrite queryWixCMS_run; reflexivity|].
  intros result. silent_auto.
Qed.

(** With a CMS that answers every query with a record, the chat history
    fetched for an empty tag list is not even empty. *)
Example getChatHistory_empty_list_sessions :
  fst (getChatHistory (one_chapter "Once upon a time") (JArr []) [])
  = inr [JObj [("messages", JArr [])]].
Proof. reflexivity. Qed.

(** The other three fetchers return their default without a query when the
    tag argument is undefined, null, empty or an empty list, and so does
    [getChatHistory] when its argument is falsy. *)
Lemma fetchers_default_without_tags : forall w tags h,
  no_tags tags = true ->
  getCharacterContext w tags h = (inr (JStr EmptyString), []) /\
  getRelatedChapters w tags h = (inr [], []) /\
  getCatalystIntel w tags h = (inr (JStr EmptyString), []) /\
  (truthy tags = false -> getChatHistory w tags h = (inr [], [])).
Proof.
  intros w tags h H.
  unfold getCharacterContext, getRelatedChapters, getCatalystIntel, getChatHistory.
  rewrite H. repeat split. intros Hf. rewrite Hf. reflexivity.
Qed.

Lemma no_tags_examples :
  no_tags JUndefined = true /\ no_tags JNull = true /\
  no_tags (JStr EmptyString) = true /\ no_tags (JArr []) = true.
Proof. repeat split. Qed.

(* ================================================================= *)
(** ** What computations emit *)

Section Emits.

Variable P : event -> Prop.

Lemma emits_ret : forall (A : Type) (a : A), emits P (ret a).
Proof. intros A a h. constructor. Qed.

Lemma emits_throw : forall (A : Type) (e : exn), emits P (@throw A e).
Proof. intros A e h. constructor. Qed.

Lemma emits_lift : forall (A : Type) (r : result A), emits P (lift r).
Proof. intros A r h. constructor. Qed.

Lemma emits_bind : forall (A B : Type) (m : M A) (f : A -> M B),
  emits P m -> (forall a, emits P (f a)) -> emits P (bind m f).
Proof.
  intros A B m f Hm Hf h. unfold bind. specialize (Hm h).
  destruct (m h) as [[e|a] out]; simpl in *; [assumption|].
  specialize (Hf a (h ++ out)%list).
  destruct (f a (h ++ out)%list) as [r out']. simpl in *.
  apply Forall_app. split; assumption.
Qed.

Lemma emits_try_catch : forall (A : Type) (m : M A) (handler : exn -> M A),
  emits P m -> (forall e, emits P (handler e)) -> emits P (try_catch m handler).
Proof.
  intros A m handler Hm Hh h. unfold try_catch. specialize (Hm h).
  destruct (m h) as [[e|a] out]; simpl in *; [|assumption].
  specialize (Hh e (h ++ out)%list).
  destruct (handler e (h ++ out)%list) as [r out']. simpl in *.
  apply Forall_app. split; assumption.
Qed.

Lemma emits_all2 : forall (A B : Type) (w : world) (a : M A) (b : M B),
  emits P a -> emits P b -> emits P (all2 w a b).
Proof.
  intros A B w a b Ha Hb h. unfold all2. specialize (Ha h).
  destruct (a h) as [ra oa]. specialize (Hb (h ++ oa)%list).
  destruct (b (h ++ oa)%list) as [rb ob]. simpl in *.
  apply Forall_app. split; assumption.
Qed.

Lemma emits_all4 : forall (A B C D : Type) (w : world) (a : M A) (b : M B) (c : M C) (d : M D),
  emits P a -> emits P b -> emits P c -> emits P d -> emits P (all4 w a b c d).
Proof.
  intros A B C D w a b c d Ha Hb Hc Hd h. unfold all4. specialize (Ha h).
  destruct (a h) as [ra oa]. specialize (Hb (h ++ oa)%list).
  destruct (b (h ++ oa)%list) as [rb ob]. specialize (Hc (h ++ oa ++ ob)%list).
  destruct (c (h ++ oa ++ ob)%list) as [rc oc]. specialize (Hd (h ++ oa ++ ob ++ oc)%list).
  destruct (d (h ++ oa ++ ob ++ oc)%list) as [rd od]. simpl in *.
  repeat (apply Forall_app; split); assumption.
Qed.

Lemma emits_fetch : forall w q, P (Fetch q) -> emits P (fetch w q).
Proof. intros w q H h. simpl. constructor; [assumption|constructor]. Qed.

Lemma emits_Date_now : forall w, P DateNow -> emits P (Date_now w).
Proof. intros w H h. simpl. constructor; [assumption|constructor]. Qed.

Lemma emits_respond : forall s p, P (Respond s p) -> emits P (respond s p).
Proof. intros s p H h. simpl. constructor; [assumption|constructor]. Qed.

End Emits.

(** One step through a computation, by its shape. *)
Ltac emits_step :=
  match goal with
  | |- emits _ (bind _ _) => apply emits_bind; [|intros]
  | |- emits _ (try_catch _ _) => apply emits_try_catch; [|intros]
  | |- emits _ (all2 _ _ _) => apply emits_all2
  | |- emits _ (all4 _ _ _ _ _) => apply emits_all4
  | |- emits _ (ret _) => apply emits_ret
  | |- emits _ (throw _) => apply emits_throw
  | |- emits _ (lift _) => apply emits_lift
  | |- emits _ (fetch _ _) => apply emits_fetch
  | |- emits _ (Date_now _) => apply emits_Date_now
  | |- emits _ (respond _ _) => apply emits_respond
  | |- emits _ (if ?b then _ else _) => destruct b
  | |- emits _ (match ?x with _ => _ end) => destruct x
  end.

Create HintDb emits.

Ltac emits_auto := repeat (first [solve [auto with emits] | emits_step]).

Section SharedCalls.

(** Events that clock reads and CMS queries outside the Catalyst collection
    all satisfy. *)
Variable P : event -> Prop.
Hypothesis P_now : P DateNow.
Hypothesis P_query : forall w collection filter limit,
  collection <> "Catalyst" -> P (Fetch (wix_request w collection filter limit)).

Lemma emits_bind_lift_inr : forall (A B : Type) (a : A) (f : A -> M B),
  emits P (f a) -> emits P (bind (lift (inr a)) f).
Proof. intros A B a f H h. rewrite run_bind_lift_inr. apply H. Qed.

Lemma emits_callAI : forall w messages temperature maxTokens,
  (forall model, P (Fetch (candidate_request w messages temperature maxTokens model))) ->
  emits P (callAI w messages temperature maxTokens).
Proof.
  intros w messages temperature maxTokens H. unfold candidate_request in H.
  unfold callAI. cbv zeta.
  destruct (negb (truthy (OPENROUTER_API_KEY w))); [apply emits_throw|].
  generalize [PRIMARY_MODEL; BACKUP_MODEL; TERTIARY_MODEL] as models.
  induction models as [|model rest IH]; cbn [callAI_loop].
  - apply emits_throw.
  - apply emits_bind.
    + unfold callAI_attempt. emits_auto.
    + intros [c|]; [apply emits_ret|exact IH].
Qed.

Lemma emits_callClaudeForAnalysis : forall w messages maxTokens,
  P (Fetch (chat_request (OPENROUTER_API_KEY w) "Devil Muse - Manuscript Analysis"
              "openai/gpt-3.5-turbo" messages (Qmake 3 10) maxTokens)) ->
  emits P (callClaudeForAnalysis w messages maxTokens).
Proof. intros. unfold callClaudeForAnalysis. cbv zeta. emits_auto. Qed.

Lemma emits_queryWixCMS : forall w collection filter limit,
  P (Fetch (wix_request w collection filter limit)) ->
  emits P (queryWixCMS w collection filter limit).
Proof. intros. unfold queryWixCMS. emits_auto. Qed.

Lemma emits_getCharacterContext : forall w tags, emits P (getCharacterContext w tags).
Proof.
  intros. unfold getCharacterContext. cbv zeta.
  destruct (no_tags tags); [apply emits_ret|].
  apply emits_bind; [apply emits_queryWixCMS, P_query; discriminate|intros; emits_auto].
Qed.

Lemma emits_getChatHistory : forall w tags, emits P (getChatHistory w tags).
Proof.
  intros. unfold getChatHistory. cbv zeta.
  destruct (negb (truthy tags)); [apply emits_ret|].
  apply emits_bind; [apply emits_queryWixCMS, P_query; discriminate|intros; emits_auto].
Qed.

Lemma emits_getRelatedChapters : forall w tags, emits P (getRelatedChapters w tags).
Proof.
  intros. unfold getRelatedChapters. cbv zeta.
  destruct (no_tags tags); [apply emits_ret|].
  apply emits_bind; [apply emits_queryWixCMS, P_query; discriminate|intros; emits_auto].
Qed.

Lemma emits_getCatalystIntel : forall w tags,
  P (Fetch (wix_request w "Catalyst" (filter_on "title" "$contains" (first_tag tags)) 1)) ->
  emits P (getCatalystIntel w tags).
Proof.
  intros w tags H. unfold getCatalystIntel. cbv zeta.
  destruct (no_tags tags); [apply emits_ret|].
  apply emits_bind; [apply emits_queryWixCMS, H|intros; emits_auto].
Qed.

Lemma emits_characterChat_systemPrompt : forall w req,
  P (Fetch (wix_request w "Catalyst"
              (filter_on "title" "$contains" (first_tag (own_field "characterTags" req))) 1)) ->
  emits P (characterChat_systemPrompt w req).
Proof.
  intros w req H. unfold characterChat_systemPrompt, log_preview. cbv zeta.
  apply emits_bind; [apply emits_lift|]. intros b. destruct b; [apply emits_throw|].
  apply emits_bind; [apply emits_Date_now; exact P_now|]. intros t0.
  apply emits_bind.
  - apply emits_all4.
    + apply emits_getCharacterContext.
    + apply emits_getChatHistory.
    + apply emits_getRelatedChapters.
    + apply emits_getCatalystIntel. exact H.
  - intros ctx. emits_auto.
Qed.

End SharedCalls.

(* ================================================================= *)
(** ** Handlers write no response *)

Lemma no_response_fetch : forall q, no_response (Fetch q).
Proof. intros q. exact I. Qed.

Lemma no_response_now : no_response DateNow.
Proof. exact I. Qed.

#[local] Hint Resolve no_response_fetch no_response_now : emits.

Lemma quiet_callAI : forall w messages temperature maxTokens,
  emits no_response (callAI w messages temperature maxTokens).
Proof. intros. apply emits_callAI; auto with emits. Qed.

Lemma quiet_callClaudeForAnalysis : forall w messages maxTokens,
  emits no_response (callClaudeForAnalysis w messages maxTokens).
Proof. intros. apply emits_callClaudeForAnalysis; auto with emits. Qed.

Lemma quiet_getCharacterContext : forall w tags,
  emits no_response (getCharacterContext w tags).
Proof. intros. apply emits_getCharacterContext; auto with emits. Qed.

Lemma quiet_getChatHistory : forall w tags, emits no_response (getChatHistory w tags).
Proof. intros. apply emits_getChatHistory; auto with emits. Qed.

Lemma quiet_getRelatedChapters : forall w tags,
  emits no_response (getRelatedChapters w tags).
Proof. intros. apply emits_getRelatedChapters; auto with emits. Qed.

Lemma quiet_getCatalystIntel : forall w tags, emits no_response (getCatalystIntel w tags).
Proof. intros. apply emits_getCatalystIntel; auto with emits. Qed.

#[local] Hint Resolve quiet_callAI quiet_callClaudeForAnalysis quiet_getCharacterContext
  quiet_getChatHistory quiet_getRelatedChapters quiet_getCatalystIntel : emits.

Lemma quiet_parse_markers : forall w failure response,
  emits no_response (parse_markers w failure response).
Proof. intros. unfold parse_markers. emits_auto. Qed.

#[local] Hint Resolve quiet_parse_markers : emits.

Lemma quiet_analysis_handler : forall w prompt maxTokens failure req,
  emits no_response (analysis_handler w prompt maxTokens failure req).
Proof. intros. unfold analysis_handler. cbv zeta. emits_auto. Qed.

Lemma quiet_handleUnhinge : forall w req, emits no_response (handleUnhinge w req).
Proof. intros. unfold handleUnhinge. cbv zeta. emits_auto. Qed.

Lemma quiet_handleUnleash : forall w req, emits no_response (handleUnleash w req).
Proof. intros. unfold handleUnleash. cbv zeta. emits_auto. Qed.

Lemma quiet_handleNoMercy : forall w req, emits no_response (handleNoMercy w req).
Proof. intros. unfold handleNoMercy. cbv zeta. emits_auto. Qed.

Lemma quiet_handleInvoke : forall w req, emits no_response (handleInvoke w req).
Proof. intros. unfold handleInvoke. cbv zeta. emits_auto. Qed.

Lemma quiet_handleIntensify : forall w req, emits no_response (handleIntensify w req).
Proof. intros. unfold handleIntensify. cbv zeta. emits_auto. Qed.

Lemma quiet_characterChat_systemPrompt : forall w req,
  emits no_response (characterChat_systemPrompt w req).
Proof. intros. apply emits_characterChat_systemPrompt; auto with emits. Qed.

#[local] Hint Resolve quiet_characterChat_systemPrompt : emits.

Lemma quiet_handleCharacterChat : forall w req, emits no_response (handleCharacterChat w req).
Proof. intros. unfold handleCharacterChat. cbv zeta. emits_auto. Qed.

Lemma quiet_handleDevilPOV : forall w req, emits no_response (handleDevilPOV w req).
Proof. intros. unfold handleDevilPOV. cbv zeta. emits_auto. Qed.

Lemma quiet_handleAICritic : forall w req, emits no_response (handleAICritic w req).
Proof. intros. unfold handleAICritic. cbv zeta. emits_auto. Qed.

Lemma quiet_handleTagGeneration : forall w req, emits no_response (handleTagGeneration w req).
Proof. intros. unfold handleTagGeneration. cbv zeta. emits_auto. Qed.

#[local] Hint Resolve quiet_analysis_handler quiet_handleUnhinge quiet_handleUnleash
  quiet_handleNoMercy quiet_handleInvoke quiet_handleIntensify quiet_handleCharacterChat
  quiet_handleDevilPOV quiet_handleAICritic quiet_handleTagGeneration : emits.

Lemma quiet_dispatch : forall w action req, emits no_response (dispatch w action req).
Proof.
  intros w action req. unfold dispatch, handleOveruseScanner, handlePacingAnalyzer,
    handleSentenceMechanics, handleDialogueCritic, handleStructuralCheck.
  emits_auto.
Qed.

Lemma responses_app : forall a b, responses (a ++ b)%list = (responses a ++ responses b)%list.
Proof. intros a b. unfold responses. apply flat_map_app. Qed.

Lemma no_response_responses : forall evs, Forall no_response evs -> responses evs = [].
Proof.
  intros evs H. induction H as [|e r He _ IH]; [reflexivity|].
  destruct e; simpl in *; [assumption|assumption|contradiction].
Qed.

(* ================================================================= *)
(** ** The endpoint *)

Lemma try_block_run : forall w req h,
  try_block w req h =
  match call_toUpperCase w "action.toUpperCase" (requested_action req) with
  | inl e => (inl e, [DateNow])
  | inr _ =>
      match dispatch w (requested_action req) req (h ++ [DateNow])%list with
      | (inl e, out) => (inl e, DateNow :: out)
      | (inr result, out) =>
          let h2 := ((h ++ [DateNow]) ++ out)%list in
          match get_prop result "length" with
          | inl e => (inl e, DateNow :: out ++ [DateNow])%list
          | inr charsGenerated =>
              (inr tt,
               DateNow :: out ++
               [DateNow; DateNow;
                Respond 200
                  (JObj [("status", JStr "success");
                         ("result", result);
                         ("charsGenerated", charsGenerated);
                         ("processingTime",
                          JNum (clock w (h2 ++ [DateNow]) - clock w h))])])%list
          end
      end
  end.
Proof.
  intros w req h. unfold try_block. cbv zeta.
  rewrite run_bind. cbn [Date_now]. cbv iota beta.
  destruct (call_toUpperCase w "action.toUpperCase" (requested_action req)) as [e|shown].
  - reflexivity.
  - rewrite run_bind_lift_inr. rewrite run_bind.
    destruct (dispatch w (requested_action req) req (h ++ [DateNow])%list) as [[e|result] out].
    + reflexivity.
    + rewrite run_bind. cbn [Date_now]. cbv iota beta zeta.
      destruct (get_prop result "length") as [e|charsGenerated].
      * rewrite run_bind_lift_inl. reflexivity.
      * rewrite run_bind_lift_inr. rewrite run_bind. cbn [Date_now respond]. cbv iota beta.
        reflexivity.
Qed.

Lemma printable_or_action : forall v,
  printable v = true -> ToString (js_or v (JStr "Action")) = inr (to_string (js_or v (JStr "Action"))).
Proof.
  intros v H. unfold ToString, js_or. destruct (truthy v); [rewrite H|]; reflexivity.
Qed.

Lemma catch_block_run : forall w req err h,
  catch_block w req err h =
  if printable (own_field "action" req)
  then (inl (Exn ReferenceError "result is not defined"),
        [Respond 500 (failure_envelope req err)])
  else (inl cannot_convert, []).
Proof.
  intros w req err h. unfold catch_block.
  destruct (printable (own_field "action" req)) eqn:Hp.
  - rewrite (printable_or_action _ Hp). unfold ToString. rewrite Hp. reflexivity.
  - unfold ToString. rewrite Hp. reflexivity.
Qed.

Lemma requested_action_printable : forall req a,
  requested_action req = JStr a -> printable (own_field "action" req) = true.
Proof.
  intros req a H. unfold requested_action in H.
  destruct (own_field "action" req); try discriminate; reflexivity.
Qed.

Lemma failed_try_block_quiet : forall w req h e out,
  try_block w req h = (inl e, out) -> responses out = [].
Proof.
  intros w req h e out H. rewrite try_block_run in H.
  destruct (call_toUpperCase w "action.toUpperCase" (requested_action req)) as [e0|shown].
  - injection H as _ H. subst out. reflexivity.
  - pose proof (quiet_dispatch w (requested_action req) req (h ++ [DateNow])%list) as Hq.
    destruct (dispatch w (requested_action req) req (h ++ [DateNow])%list) as [[e0|result] out0].
    + injection H as _ H. subst out. simpl in *. apply no_response_responses. assumption.
    + cbv zeta in H. destruct (get_prop result "length") as [e0|c]; [|discriminate].
      injection H as _ H. subst out. simpl in *.
      rewrite responses_app, (no_response_responses _ Hq). reflexivity.
Qed.

Lemma failed_try_block_responds_once : forall w req h e out,
  try_block w req h = (inl e, out) ->
  printable (own_field "action" req) = true ->
  devil_pov w req h =
    (inl (Exn ReferenceError "result is not defined"),
     (out ++ [Respond 500 (failure_envelope req e)])%list) /\
  responses (out ++ [Respond 500 (failure_envelope req e)]) = [(500%Z, failure_envelope req e)].
Proof.
  intros w req h e out H Hp. split.
  - unfold devil_pov, try_catch. rewrite H, catch_block_run, Hp. reflexivity.
  - rewrite responses_app, (failed_try_block_quiet _ _ _ _ _ H). reflexivity.
Qed.

(** C5.  When the handler of a request throws [e], the endpoint writes
    exactly one response: status 500 with the envelope
    [{error: "<action> failed", details: e.message}], where "<action>" is
    the request's action field, or "Action" when the request has none.
    The second [res.json] of the catch block is never called: building its
    argument reads [result], which is out of scope there, so the route's
    promise rejects with a ReferenceError after the one response. *)
Theorem handler_failure_single_response : forall w req h a e out,
  requested_action req = JStr a ->
  dispatch w (JStr a) req (h ++ [DateNow])%list = (inl e, out) ->
  devil_pov w req h =
    (inl (Exn ReferenceError "result is not defined"),
     (DateNow :: out ++ [Respond 500 (failure_envelope req e)])%list) /\
  responses (snd (devil_pov w req h)) = [(500%Z, failure_envelope req e)] /\
  failure_envelope req e =
    JObj [("error", JStr (to_string (js_or (own_field "action" req) (JStr "Action")) ++ " failed"));
          ("details", JStr (message e))].
Proof.
  intros w req h a e out Ha Hd.
  assert (Ht : try_block w req h = (inl e, DateNow :: out)).
  { rewrite try_block_run, Ha. cbn [call_toUpperCase]. rewrite Hd. reflexivity. }
  destruct (failed_try_block_responds_once _ _ _ _ _ Ht (requested_action_printable _ _ Ha))
    as [H1 H2].
  split; [exact H1|]. split; [|reflexivity].
  rewrite H1. exact H2.
Qed.

Lemma handler_failure_single_response_witness :
  requested_action [("action", JStr "noMercy"); ("selectedText", JStr EmptyString)] = JStr "noMercy" /\
  dispatch offline (JStr "noMercy") [("action", JStr "noMercy"); ("selectedText", JStr EmptyString)]
    [DateNow] = (inl (Exn Error "No text selected for rewrite"), []) /\
  responses (snd (devil_pov offline
                    [("action", JStr "noMercy"); ("selectedText", JStr EmptyString)] []))
    = [(500%Z, JObj [("error", JStr "noMercy failed");
                     ("details", JStr "No text selected for rewrite")])].
Proof.
  split; [reflexivity|]. split; [reflexivity|].
  exact (proj1 (proj2 (handler_failure_single_response offline
           [("action", JStr "noMercy"); ("selectedText", JStr EmptyString)] []
           "noMercy" (Exn Error "No text selected for rewrite") [] eq_refl eq_refl))).
Defined.

Lemma handleNoMercy_run : forall w req s h,
  own_field "selectedText" req = JStr s ->
  trim s <> EmptyString ->
  handleNoMercy w req h = callAI w (noMercy_messages (JStr s)) (Qmake 9 10) 1500 h.
Proof.
  intros w req s h Hs Hne. unfold handleNoMercy. cbv zeta. rewrite Hs, blank_string.
  rewrite run_bind_lift_inr, length_zero_empty.
  destruct (trim s =? EmptyString) eqn:Ht; [apply String.eqb_eq in Ht; contradiction|].
  destruct (s =? EmptyString) eqn:He; [|reflexivity].
  apply String.eqb_eq in He. subst s. exfalso. apply Hne. reflexivity.
Qed.

(** C8, as the code has it.  For the request
    [{action: "noMercy", selectedText: "The sky was blue."}], when the model
    caller returns "The sky bled violet fury.", the endpoint writes one
    response, status 200, with the envelope [{status: "success", result:
    "The sky bled violet fury.", charsGenerated: 25, processingTime}], 25
    being the length of the result. *)
Theorem noMercy_end_to_end : forall w h out,
  callAI w (noMercy_messages (JStr "The sky was blue.")) (Qmake 9 10) 1500 (h ++ [DateNow])%list
    = (inr (JStr sky_completion), out) ->
  exists elapsed,
    fst (devil_pov w sky_request h) = inr tt /\
    responses (snd (devil_pov w sky_request h))
      = [(200%Z, success_envelope (JStr sky_completion) (JNum 25) elapsed)] /\
    JNum 25 = JNum (Z.of_nat (String.length sky_completion)).
Proof.
  intros w h out H.
  pose proof (quiet_callAI w (noMercy_messages (JStr "The sky was blue.")) (Qmake 9 10) 1500
                (h ++ [DateNow])%list) as Hq.
  rewrite H in Hq. simpl in Hq.
  eexists. unfold devil_pov, try_catch. rewrite try_block_run.
  change (requested_action sky_request) with (JStr "noMercy").
  cbn [call_toUpperCase].
  change (dispatch w (JStr "noMercy") sky_request) with (handleNoMercy w sky_request).
  rewrite (handleNoMercy_run w sky_request "The sky was blue.") by (reflexivity || discriminate).
  rewrite H. cbv zeta. cbn [get_prop prop String.eqb Ascii.eqb Bool.eqb fst snd].
  split; [reflexivity|]. split; [|reflexivity].
  change (DateNow :: out ++ ?l)%list with ([DateNow] ++ out ++ l)%list.
  rewrite !responses_app, (no_response_responses _ Hq). reflexivity.
Qed.

Lemma noMercy_end_to_end_witness :
  callAI (always_completes sky_completion) (noMercy_messages (JStr "The sky was blue."))
    (Qmake 9 10) 1500 [DateNow]
    = (inr (JStr sky_completion),
       [Fetch (candidate_request (always_completes sky_completion)
                 (noMercy_messages (JStr "The sky was blue.")) (Qmake 9 10) 1500 PRIMARY_MODEL)]) /\
  exists elapsed,
    fst (devil_pov (always_completes sky_completion) sky_request []) = inr tt /\
    responses (snd (devil_pov (always_completes sky_completion) sky_request []))
      = [(200%Z, success_envelope (JStr sky_completion) (JNum 25) elapsed)] /\
    JNum 25 = JNum (Z.of_nat (String.length sky_completion)).
Proof.
  split; [reflexivity|].
  exact (noMercy_end_to_end (always_completes sky_completion) [] _ eq_refl).
Defined.

(** C8 as stated fails: the response carries charsGenerated 25, not 27. *)
Lemma noMercy_chars_generated_not_27 :
  exists payload,
    responses (snd (devil_pov (always_completes sky_completion) sky_request []))
      = [(200%Z, payload)] /\
    prop payload "result" = JStr "The sky bled violet fury." /\
    prop payload "charsGenerated" = JNum 25 /\
    prop payload "charsGenerated" <> JNum 27.
Proof.
  eexists. split; [reflexivity|]. split; [reflexivity|]. split; [reflexivity|].
  cbn. discriminate.
Qed.

(* ================================================================= *)
(** ** Character chat: the session history *)

Lemma last_n_length : forall (A : Type) (n : nat) (l : list A),
  List.length (last_n n l) = Nat.min n (List.length l).
Proof. intros A n l. unfold last_n. rewrite length_skipn. lia. Qed.

Lemma last_n_suffix : forall (A : Type) (n : nat) (l : list A),
  l = (firstn (List.length l - n) l ++ last_n n l)%list.
Proof. intros A n l. unfold last_n. symmetry. apply firstn_skipn. Qed.

Lemma last_n_all : forall (A : Type) (n : nat) (l : list A),
  List.length l <= n -> last_n n l = l.
Proof.
  intros A n l H. unfold last_n.
  replace (List.length l - n) with 0 by lia. reflexivity.
Qed.

(** C6.  For a characterChat request whose session history is the array
    [hist], the conversation handed to the model caller, and carried by
    every request that goes out to a model, is the system message, then the
    last 70 messages of [hist] in their order, then the user message.  When
    [hist] has more than 70 messages these are exactly 70 and form its
    tail; when it has at most 70 they are all of [hist]. *)
Theorem characterChat_last_70 : forall w req hist h,
  own_field "chatHistory" req = JArr hist ->
  handleCharacterChat w req h =
    bind (characterChat_systemPrompt w req)
      (fun systemPrompt =>
         callAI w ([msg "system" (JStr systemPrompt)] ++ last_n 70 hist
                   ++ [msg "user" (own_field "userMessage" req)])%list
           (Qmake 17 20) 500) h /\
  Forall (conversation_is
            (fun messages =>
               exists systemPrompt,
                 messages = ([msg "system" (JStr systemPrompt)] ++ last_n 70 hist
                             ++ [msg "user" (own_field "userMessage" req)])%list))
         (snd (handleCharacterChat w req h)) /\
  (70 < List.length hist ->
     List.length (last_n 70 hist) = 70 /\
     exists older, hist = (older ++ last_n 70 hist)%list) /\
  (List.length hist <= 70 -> last_n 70 hist = hist).
Proof.
  intros w req hist h Hh. split; [|split; [|split]].
  - unfold handleCharacterChat. cbv zeta. rewrite Hh.
    rewrite !run_bind.
    destruct (characterChat_systemPrompt w req h) as [[e|systemPrompt] out]; [reflexivity|].
    change (spread_last_70 (JArr hist)) with (@inr exn _ (last_n 70 hist)).
    rewrite run_bind_lift_inr. reflexivity.
  - revert h. change (emits (conversation_is
            (fun messages =>
               exists systemPrompt,
                 messages = ([msg "system" (JStr systemPrompt)] ++ last_n 70 hist
                             ++ [msg "user" (own_field "userMessage" req)])%list))
         (handleCharacterChat w req)).
    unfold handleCharacterChat. cbv zeta. rewrite Hh.
    change (spread_last_70 (JArr hist)) with (@inr exn _ (last_n 70 hist)).
    apply emits_bind.
    + apply emits_characterChat_systemPrompt; try exact I. intros; exact I.
    + intros systemPrompt. apply emits_bind_lift_inr. apply emits_callAI.
      intros model. exists systemPrompt. reflexivity.
  - intros Hlen. split.
    + rewrite last_n_length. lia.
    + exists (firstn (List.length hist - 70) hist). apply last_n_suffix.
  - apply last_n_all.
Qed.

Lemma characterChat_last_70_witness :
  own_field "chatHistory" chat_request_80 = JArr (numbered_messages 1 80) /\
  handleCharacterChat (always_completes "I never left.") chat_request_80 [] =
    bind (characterChat_systemPrompt (always_completes "I never left.") chat_request_80)
      (fun systemPrompt =>
         callAI (always_completes "I never left.")
           ([msg "system" (JStr systemPrompt)] ++ numbered_messages 11 70
            ++ [msg "user" (JStr "Are you still there?")])%list
           (Qmake 17 20) 500) [] /\
  List.length (last_n 70 (numbered_messages 1 80)) = 70.
Proof.
  pose proof (characterChat_last_70 (always_completes "I never left.") chat_request_80
                (numbered_messages 1 80) [] eq_refl) as [H1 [_ [H2 _]]].
  split; [reflexivity|]. split; [exact H1|].
  apply H2. vm_compute. lia.
Defined.

(** The request that goes out for [chat_request_80] carries 72 messages:
    the system message, messages 11 to 80 of the history, the user message. *)
Example chat_request_80_outbound :
  map (fun q => match body q with
                | ChatCompletion _ messages _ _ =>
                    (List.length messages, nth 1 messages JNull, nth 70 messages JNull,
                     nth 71 messages JNull)
                | DataQuery _ _ _ => (0, JNull, JNull, JNull)
                end)
      (requests (snd (handleCharacterChat (always_completes "I never left.") chat_request_80 [])))
  = [(72, msg "user" (JStr "message 11"), msg "user" (JStr "message 80"),
      msg "user" (JStr "Are you still there?"))].
Proof. vm_compute. reflexivity. Qed.

(* ================================================================= *)
(** ** Related chapters: truncation *)







(* ================================================================= *)
(** ** AI critic: the persona fallback *)

Lemma is_ascii_replace_underscore : forall p,
  is_ascii p = true -> is_ascii (replace_underscore p) = true.
Proof.
  unfold is_ascii. induction p as [|c r IH]; intros H; [reflexivity|].
  cbn [list_ascii_of_string forallb] in H. apply andb_prop in H. destruct H as [Hc Hr].
  cbn [replace_underscore]. destruct (c =? "_")%char.
  - cbn [list_ascii_of_string forallb]. rewrite Hr. reflexivity.
  - cbn [list_ascii_of_string forallb]. rewrite Hc, (IH Hr). reflexivity.
Qed.

(** C9, as the code has it.  For an ai_critic request with non-blank text
    and a string persona key that is neither one of the four persona keys
    nor the name of an inherited property, the prompt sent to the model
    opens with the cold_editor persona text; its marker type is still
    built from the key that was supplied (first underscore replaced by a
    space, then upper-cased: for an ASCII key, a-z mapped to A-Z), where a
    cold_editor request has COLD EDITOR. *)
Theorem critic_unrecognized_persona : forall w req p s h,
  own_field "text" req = JStr s ->
  trim s <> EmptyString ->
  own_field "persona" req = JStr p ->
  lookup p personas = None ->
  inherited_name p = false ->
  handleAICritic w req h =
    bind (callClaudeForAnalysis w
            [msg "user" (JStr (critic_prompt cold_editor (toUpperCase w (replace_underscore p))
                                 (JStr s)))]
            3500)
         (parse_markers w "Failed to parse critic response") h /\
  (is_ascii p = true ->
     toUpperCase w (replace_underscore p) = ascii_toUpperCase (replace_underscore p)) /\
  selectedPersona p = selectedPersona "cold_editor" /\
  persona_label w (JStr "cold_editor") = inr "COLD EDITOR".
Proof.
  intros w req p s h Hs Hne Hp Hl Hi.
  assert (Hsel : selectedPersona p = cold_editor).
  { unfold selectedPersona. rewrite Hl.
    unfold inherited_name in Hi.
    apply orb_false_elim in Hi. destruct Hi as [Hi Hm].
    apply orb_false_elim in Hi. destruct Hi as [Hc Hpr].
    rewrite Hc, Hpr, Hm. reflexivity. }
  split; [|split; [|split]].
  - unfold handleAICritic. cbv zeta. rewrite Hs, Hp, printable_string.
    rewrite run_bind_lift_inr, (blank_false _ _ Hne), run_bind_lift_inr.
    cbn [persona_label]. rewrite run_bind_lift_inr, Hsel. reflexivity.
  - intros Ha. unfold toUpperCase. rewrite (is_ascii_replace_underscore _ Ha). reflexivity.
  - rewrite Hsel. reflexivity.
  - reflexivity.
Qed.

Lemma critic_unrecognized_persona_witness :
  handleAICritic (always_completes "[]") (critic_request "grim_reader") [] =
    bind (callClaudeForAnalysis (always_completes "[]")
            [msg "user" (JStr (critic_prompt cold_editor "GRIM READER" (JStr "It was a dark night.")))]
            3500)
         (parse_markers (always_completes "[]") "Failed to parse critic response") [] /\
  selectedPersona "grim_reader" = selectedPersona "cold_editor" /\
  persona_label (always_completes "[]") (JStr "cold_editor") = inr "COLD EDITOR".
Proof.
  assert (Hne : trim "It was a dark night." <> EmptyString) by discriminate.
  destruct (critic_unrecognized_persona (always_completes "[]") (critic_request "grim_reader")
              "grim_reader" "It was a dark night." [] eq_refl Hne eq_refl eq_refl eq_refl)
    as [H1 [_ [H3 H4]]].
  split; [exact H1|]. split; [exact H3|exact H4].
Defined.

(** C9 as stated fails: with an unrecognized persona the handler does not
    behave as with cold_editor, the two prompts differ in their marker
    type; both requests get through and are answered. *)
Lemma critic_unrecognized_persona_differs :
  lookup "grim_reader" personas = None /\
  fst (handleAICritic (always_completes "[]") (critic_request "grim_reader") []) = inr (JArr []) /\
  fst (handleAICritic (always_completes "[]") (critic_request "cold_editor") []) = inr (JArr []) /\
  outbound_messages (snd (handleAICritic (always_completes "[]") (critic_request "grim_reader") []))
    = [[msg "user" (JStr (critic_prompt cold_editor "GRIM READER" (JStr "It was a dark night.")))]] /\
  outbound_messages (snd (handleAICritic (always_completes "[]") (critic_request "cold_editor") []))
    = [[msg "user" (JStr (critic_prompt cold_editor "COLD EDITOR" (JStr "It was a dark night.")))]] /\
  critic_prompt cold_editor "GRIM READER" (JStr "It was a dark night.")
    <> critic_prompt cold_editor "COLD EDITOR" (JStr "It was a dark night.").
Proof.
  split; [reflexivity|]. split; [reflexivity|]. split; [reflexivity|].
  split; [reflexivity|]. split; [reflexivity|].
  intro H. vm_compute in H. discriminate H.
Qed.

(* ================================================================= *)
(** ** Character chat: the catalyst lookup *)

Lemma In_bind_first : forall (A B : Type) (m : M A) (f : A -> M B) h e,
  In e (snd (m h)) -> In e (snd (bind m f h)).
Proof.
  intros A B m f h e H. unfold bind.
  destruct (m h) as [[x|a] out]; simpl in *; [assumption|].
  destruct (f a (h ++ out)%list) as [r out']. simpl. apply in_or_app. left. assumption.
Qed.

Lemma In_bind_second : forall (A B : Type) (m : M A) (f : A -> M B) h e,
  (exists a, fst (m h) = inr a) ->
  (forall a h', In e (snd (f a h'))) ->
  In e (snd (bind m f h)).
Proof.
  intros A B m f h e [a Ha] H. unfold bind.
  destruct (m h) as [[x|a'] out]; simpl in *; [discriminate|].
  specialize (H a' (h ++ out)%list).
  destruct (f a' (h ++ out)%list) as [r out']. simpl in *. apply in_or_app. right. assumption.
Qed.

Lemma In_all4_fourth : forall (A B C D : Type) w (a : M A) (b : M B) (c : M C) (d : M D) h e,
  (forall h', In e (snd (d h'))) -> In e (snd (all4 w a b c d h)).
Proof.
  intros A B C D w a b c d h e H. unfold all4.
  destruct (a h) as [ra oa]. destruct (b (h ++ oa)%list) as [rb ob].
  destruct (c (h ++ oa ++ ob)%list) as [rc oc].
  specialize (H (h ++ oa ++ ob ++ oc)%list).
  destruct (d (h ++ oa ++ ob ++ oc)%list) as [rd od]. simpl in *.
  apply in_or_app. right. apply in_or_app. right. apply in_or_app. right. assumption.
Qed.

Lemma getCatalystIntel_queries : forall w tags h,
  no_tags tags = false ->
  In (Fetch (wix_request w "Catalyst" (filter_on "title" "$contains" (first_tag tags)) 1))
     (snd (getCatalystIntel w tags h)).
Proof.
  intros w tags h H. unfold getCatalystIntel. rewrite H. cbv zeta.
  apply In_bind_first. rewrite queryWixCMS_run. left. reflexivity.
Qed.

Lemma catalyst_keyed_chat : forall tag apiKey xTitle model messages temperature maxTokens,
  catalyst_keyed_by tag (Fetch (chat_request apiKey xTitle model messages temperature maxTokens)).
Proof. intros. exact I. Qed.

Lemma catalyst_keyed_other : forall tag w collection filter limit,
  collection <> "Catalyst" ->
  catalyst_keyed_by tag (Fetch (wix_request w collection filter limit)).
Proof. intros tag w collection filter limit H. simpl. intros Hc. contradiction. Qed.

Lemma catalyst_keyed_catalyst : forall tag w limit,
  catalyst_keyed_by tag
    (Fetch (wix_request w "Catalyst" (filter_on "title" "$contains" tag) limit)).
Proof. intros. simpl. reflexivity. Qed.

Lemma characterChat_catalyst_keyed : forall w req,
  emits (catalyst_keyed_by (first_tag (own_field "characterTags" req)))
        (handleCharacterChat w req).
Proof.
  intros w req. unfold handleCharacterChat. cbv zeta.
  apply emits_bind.
  - apply emits_characterChat_systemPrompt.
    + exact I.
    + apply catalyst_keyed_other.
    + apply catalyst_keyed_catalyst.
  - intros systemPrompt. apply emits_bind; [apply emits_lift|].
    intros history. apply emits_callAI. intros model. apply catalyst_keyed_chat.
Qed.

(** C10.  [handleCharacterChat] never reads catalystTags: two requests that
    agree on every other field run alike.  Every query to the Catalyst
    collection it issues filters titles on containing the first character
    tag; and it issues that query whenever the user message is not blank
    and character tags are given. *)
Theorem characterChat_catalyst_by_character_tag : forall w req req' h,
  (forall k, k <> "catalystTags" -> own_field k req' = own_field k req) ->
  handleCharacterChat w req' h = handleCharacterChat w req h /\
  Forall (catalyst_keyed_by (first_tag (own_field "characterTags" req)))
         (snd (handleCharacterChat w req h)) /\
  (forall s, own_field "userMessage" req = JStr s -> trim s <> EmptyString ->
     no_tags (own_field "characterTags" req) = false ->
     In (Fetch (wix_request w "Catalyst"
                  (filter_on "title" "$contains" (first_tag (own_field "characterTags" req))) 1))
        (snd (handleCharacterChat w req h))).
Proof.
  intros w req req' h H. split; [|split].
  - unfold handleCharacterChat, characterChat_systemPrompt. cbv zeta.
    rewrite (H "userMessage"), (H "chatHistory"), (H "characterName"), (H "personaType"),
      (H "chatbotInstructions"), (H "characterTags"), (H "storyTags"), (H "toneTags")
      by discriminate.
    reflexivity.
  - apply characterChat_catalyst_keyed.
  - intros s Hs Hne Htags. unfold handleCharacterChat. cbv zeta.
    apply In_bind_first. unfold characterChat_systemPrompt. cbv zeta.
    rewrite Hs, (blank_false _ _ Hne), run_bind_lift_inr.
    apply In_bind_second; [eexists; reflexivity|]. intros t0 h'.
    apply In_bind_first. apply In_all4_fourth. intros h''.
    apply getCatalystIntel_queries. assumption.
Qed.

Lemma characterChat_catalyst_by_character_tag_witness :
  (forall k, k <> "catalystTags" ->
     own_field k lilith_chat_with_catalyst = own_field k lilith_chat) /\
  handleCharacterChat (always_completes "I never left.") lilith_chat_with_catalyst []
    = handleCharacterChat (always_completes "I never left.") lilith_chat [] /\
  In (Fetch (wix_request (always_completes "I never left.") "Catalyst"
               (filter_on "title" "$contains" (JStr "@Lilith")) 1))
     (snd (handleCharacterChat (always_completes "I never left.") lilith_chat [])).
Proof.
  assert (Hagree : forall k, k <> "catalystTags" ->
            own_field k lilith_chat_with_catalyst = own_field k lilith_chat).
  { intros k Hk. unfold lilith_chat_with_catalyst. cbn [own_field].
    destruct (String.eqb_spec "catalystTags" k) as [He|_]; [|reflexivity].
    exfalso. apply Hk. symmetry. exact He. }
  destruct (characterChat_catalyst_by_character_tag (always_completes "I never left.")
              lilith_chat lilith_chat_with_catalyst [] Hagree) as [H1 [_ H3]].
  split; [exact Hagree|]. split; [exact H1|].
  apply (H3 "Are you still there?"); [reflexivity|discriminate|reflexivity].
Defined.

(* ================================================================= *)
(** * Further properties *)

(* ================================================================= *)
(** ** One response for every request *)

Lemma devil_pov_success : forall w req h out,
  try_block w req h = (inr tt, out) ->
  devil_pov w req h = (inr tt, out) /\
  exists result charsGenerated elapsed,
    responses out = [(200%Z, success_envelope result charsGenerated elapsed)] /\
    get_prop result "length" = inr charsGenerated.
Proof.
  intros w req h out H. split.
  - unfold devil_pov, try_catch. rewrite H. reflexivity.
  - rewrite try_block_run in H.
    destruct (call_toUpperCase w "action.toUpperCase" (requested_action req)) as [e|shown];
      [discriminate|].
    pose proof (quiet_dispatch w (requested_action req) req (h ++ [DateNow])%list) as Hq.
    destruct (dispatch w (requested_action req) req (h ++ [DateNow])%list) as [[e|result] out0];
      [discriminate|].
    cbv zeta in H. destruct (get_prop result "length") as [e|c] eqn:Hl; [discriminate|].
    injection H as H. subst out. simpl in Hq.
    exists result, c. eexists. split; [|exact Hl].
    change (DateNow :: out0 ++ ?l)%list with ([DateNow] ++ out0 ++ l)%list.
    rewrite !responses_app, (no_response_responses _ Hq). reflexivity.
Qed.

Lemma unprintable_action_no_response : forall w req h,
  printable (own_field "action" req) = false ->
  devil_pov w req h = (inl cannot_convert, [DateNow]).
Proof.
  intros w req h Hp. unfold devil_pov, try_catch. rewrite try_block_run.
  unfold requested_action.
  destruct (own_field "action" req) as [| | | | |l|fs] eqn:Ha; try discriminate Hp;
    cbn [call_toUpperCase]; rewrite catch_block_run, Ha, Hp; reflexivity.
Qed.

(** X1.  As long as the action of the request converts to a string, the
    route writes exactly one response, whatever the request and whatever
    the outside world does.  It is status 200 with the success envelope,
    whose charsGenerated is the length property of the result, when the
    try block completes; it is status 500 with a failure envelope,
    [{error: "<action> failed", details}], otherwise, and the route's
    promise then rejects on the out-of-scope [result].  When the action
    does not convert to a string (an object with a toString property of
    its own, or an array that holds one), [action.toUpperCase()] throws,
    the log line of the catch block throws again before the response is
    written, and the route writes no response at all. *)
Theorem devil_pov_one_response : forall w req h,
  (printable (own_field "action" req) = true /\
   exists status payload,
     responses (snd (devil_pov w req h)) = [(status, payload)] /\
     ((status = 200%Z /\ fst (devil_pov w req h) = inr tt /\
       exists result charsGenerated elapsed,
         payload = success_envelope result charsGenerated elapsed /\
         get_prop result "length" = inr charsGenerated)
      \/
      (status = 500%Z /\
       fst (devil_pov w req h) = inl (Exn ReferenceError "result is not defined") /\
       exists e, payload = failure_envelope req e)))
  \/
  (printable (own_field "action" req) = false /\
   devil_pov w req h = (inl (Exn TypeError "Cannot convert object to primitive value"), [DateNow]) /\
   responses (snd (devil_pov w req h)) = []).
Proof.
  intros w req h. destruct (printable (own_field "action" req)) eqn:Hp.
  - left. split; [reflexivity|].
    destruct (try_block w req h) as [[e|[]] out] eqn:Ht.
    + destruct (failed_try_block_responds_once _ _ _ _ _ Ht Hp) as [H1 H2].
      exists 500%Z, (failure_envelope req e). rewrite H1. cbn [snd fst].
      split; [exact H2|]. right. split; [reflexivity|]. split; [reflexivity|].
      exists e. reflexivity.
    + destruct (devil_pov_success _ _ _ _ Ht) as [H1 [result [c [elapsed [H2 H3]]]]].
      exists 200%Z, (success_envelope result c elapsed). rewrite H1. cbn [snd fst].
      split; [exact H2|]. left. split; [reflexivity|]. split; [reflexivity|].
      exists result, c, elapsed. split; [reflexivity|exact H3].
  - right. split; [reflexivity|].
    rewrite (unprintable_action_no_response w req h Hp). split; reflexivity.
Qed.

(** A request whose action is an object with a toString property gets no
    response. *)
Example action_object_no_response :
  devil_pov offline [("action", JObj [("toString", JNum 1)])] []
    = (inl (Exn TypeError "Cannot convert object to primitive value"), [DateNow]).
Proof. reflexivity. Qed.

(* ================================================================= *)
(** ** Presence checks *)

Lemma drop_ws_all : forall l, forallb is_ws l = true -> drop_ws l = [].
Proof.
  induction l as [|c r IH]; simpl; intros H; [reflexivity|].
  apply andb_prop in H. destruct H as [Hc Hr]. rewrite Hc. apply IH. exact Hr.
Qed.

Lemma drop_ws_nil : forall l, drop_ws l = [] -> forallb is_ws l = true.
Proof.
  induction l as [|c r IH]; simpl; intros H; [reflexivity|].
  destruct (is_ws c); [apply IH; exact H|discriminate].
Qed.

Lemma drop_ws_head : forall l c r, drop_ws l = c :: r -> is_ws c = false.
Proof.
  induction l as [|x l IH]; simpl; intros c r H; [discriminate|].
  destruct (is_ws x) eqn:Hx; [apply (IH _ _ H)|].
  injection H as H _. subst. exact Hx.
Qed.

Lemma forallb_rev : forall (A : Type) (f : A -> bool) (l : list A),
  forallb f (rev l) = forallb f l.
Proof.
  intros A f l. induction l as [|x r IH]; [reflexivity|].
  simpl. rewrite forallb_app, IH. simpl. rewrite andb_true_r. apply andb_comm.
Qed.

Lemma string_of_list_ascii_nil : forall l, string_of_list_ascii l = EmptyString -> l = [].
Proof. destruct l; [reflexivity|discriminate]. Qed.

Lemma trim_empty_iff : forall s, trim s = EmptyString <-> whitespace_only s = true.
Proof.
  intros s. unfold trim, whitespace_only. set (l := list_ascii_of_string s). split.
  - intros H. apply string_of_list_ascii_nil in H.
    assert (Hr : rev (drop_ws (rev (drop_ws l))) = []) by exact H.
    apply (f_equal (@rev ascii)) in Hr. rewrite rev_involutive in Hr. simpl in Hr.
    apply drop_ws_nil in Hr. rewrite forallb_rev in Hr.
    destruct (drop_ws l) as [|c r] eqn:Hd; [apply drop_ws_nil; exact Hd|].
    apply drop_ws_head in Hd. simpl in Hr. rewrite Hd in Hr. discriminate.
  - intros H. rewrite (drop_ws_all _ H). reflexivity.
Qed.

Lemma blank_true : forall expr v, absent_or_blank v -> blank expr v = inr true.
Proof.
  intros expr v [H|[s [Hs Hw]]].
  - unfold blank. rewrite H. reflexivity.
  - subst v. rewrite blank_string, length_zero_empty.
    apply trim_empty_iff in Hw. rewrite Hw. apply f_equal. apply orb_true_r.
Qed.

Lemma requested_action_string : forall req a,
  own_field "action" req = JStr a -> requested_action req = JStr a.
Proof. intros req a H. unfold requested_action. rewrite H. reflexivity. Qed.

Lemma failed_dispatch_run : forall w req h a e,
  own_field "action" req = JStr a ->
  a <> EmptyString ->
  dispatch w (JStr a) req (h ++ [DateNow])%list = (inl e, []) ->
  devil_pov w req h =
    (inl (Exn ReferenceError "result is not defined"),
     [DateNow; Respond 500 (failure (a ++ " failed") (message e))]).
Proof.
  intros w req h a e Ha Hne Hd.
  assert (Ht : try_block w req h = (inl e, [DateNow])).
  { rewrite try_block_run, (requested_action_string _ _ Ha). cbn [call_toUpperCase].
    rewrite Hd. reflexivity. }
  assert (Hp : printable (own_field "action" req) = true) by (rewrite Ha; reflexivity).
  destruct (failed_try_block_responds_once _ _ _ _ _ Ht Hp) as [H1 _].
  rewrite H1. unfold failure_envelope, failure. rewrite Ha.
  destruct a as [|c a']; [contradiction|]. reflexivity.
Qed.

Lemma analysis_handler_blank : forall w prompt maxTokens failure_message req h,
  absent_or_blank (own_field "text" req) ->
  analysis_handler w prompt maxTokens failure_message req h
    = (inl (Exn Error "No text provided for analysis"), []).
Proof.
  intros. unfold analysis_handler. cbv zeta.
  rewrite (blank_true _ _ H). reflexivity.
Qed.

(** X2.  For each of the twelve actions that check a required text, a
    request whose required field is missing, empty or white space only is
    answered with the one response 500 [{error: "<action> failed", details:
    <the check's message>}], and nothing is sent to the CMS or to a model.
    For ai_critic and tag_generation this supposes that the fields their
    opening log line renders (persona; type and name) convert to a string:
    that line runs before the check. *)
Theorem blank_input_rejected_without_requests : forall w req h action field details,
  In (action, field, details) presence_checks ->
  own_field "action" req = JStr action ->
  absent_or_blank (own_field field req) ->
  renders req (logged_first action) = true ->
  devil_pov w req h =
    (inl (Exn ReferenceError "result is not defined"),
     [DateNow; Respond 500 (failure (action ++ " failed") details)]).
Proof.
  intros w req h action field details Hin Ha Hb Hr.
  unfold presence_checks in Hin. simpl in Hin.
  repeat (destruct Hin as [Hin|Hin];
          [injection Hin as ? ? ?; subst action field details;
           apply (failed_dispatch_run w req h _ (Exn Error _) Ha); [discriminate|];
           cbn [dispatch String.eqb Ascii.eqb Bool.eqb];
           first [ apply analysis_handler_blank; exact Hb
                 | unfold handleUnhinge, handleUnleash, handleNoMercy, handleIntensify,
                     handleCharacterChat, characterChat_systemPrompt; cbv zeta;
                   rewrite (blank_true _ _ Hb); reflexivity
                 | cbn in Hr; rewrite andb_true_r in Hr;
                   unfold handleAICritic, ToString; cbv zeta;
                   rewrite Hr, run_bind_lift_inr, (blank_true _ _ Hb); reflexivity
                 | cbn in Hr; rewrite andb_true_r in Hr; apply andb_prop in Hr;
                   destruct Hr as [Hty Hna];
                   unfold handleTagGeneration, ToString; cbv zeta;
                   rewrite Hty, Hna, !run_bind_lift_inr, (blank_true _ _ Hb); reflexivity ]
          |]).
  contradiction.
Qed.

Lemma blank_input_rejected_without_requests_witness :
  In ("ai_critic", "text", "No text provided for critique") presence_checks /\
  absent_or_blank (own_field "text"
                     [("action", JStr "ai_critic"); ("text", JStr "   ");
                      ("persona", JStr "market_hawk")]) /\
  renders [("action", JStr "ai_critic"); ("text", JStr "   "); ("persona", JStr "market_hawk")]
    (logged_first "ai_critic") = true /\
  devil_pov (always_completes "unused")
    [("action", JStr "ai_critic"); ("text", JStr "   "); ("persona", JStr "market_hawk")] [] =
    (inl (Exn ReferenceError "result is not defined"),
     [DateNow; Respond 500 (failure "ai_critic failed" "No text provided for critique")]).
Proof.
  assert (Hin : In ("ai_critic", "text", "No text provided for critique") presence_checks).
  { simpl. tauto. }
  assert (Hb : absent_or_blank (own_field "text"
                 [("action", JStr "ai_critic"); ("text", JStr "   ");
                  ("persona", JStr "market_hawk")])).
  { right. exists "   ". split; reflexivity. }
  split; [exact Hin|]. split; [exact Hb|]. split; [reflexivity|].
  exact (blank_input_rejected_without_requests (always_completes "unused")
           [("action", JStr "ai_critic"); ("text", JStr "   "); ("persona", JStr "market_hawk")] []
           "ai_critic" "text" "No text provided for critique" Hin eq_refl Hb eq_refl).
Defined.

(** With a persona that does not convert to a string, the blank text is
    not what the response reports. *)
Example blank_text_unprintable_persona :
  devil_pov (always_completes "unused")
    [("action", JStr "ai_critic"); ("text", JStr EmptyString);
     ("persona", JObj [("toString", JNum 1)])] [] =
    (inl (Exn ReferenceError "result is not defined"),
     [DateNow; Respond 500 (failure "ai_critic failed" "Cannot convert object to primitive value")]).
Proof. reflexivity. Qed.

(* ================================================================= *)
(** ** Absent and unrecognized actions *)

Lemma dispatch_default : forall w a req,
  mem a case_labels = false -> dispatch w (JStr a) req = handleDevilPOV w req.
Proof.
  intros w a req H. unfold mem, case_labels in H. simpl in H.
  repeat (apply orb_false_elim in H; destruct H as [?H H]).
  unfold dispatch.
  repeat match goal with Hx : (a =? _) = false |- _ => rewrite Hx; clear Hx end.
  reflexivity.
Qed.

(** X3.  A request without an action field, and a request whose action is
    a string that is none of the fourteen case labels, are both handled by
    [handleDevilPOV]; when such a request carries no previousChapter it is
    answered 500 with details "No chapter provided" and nothing is sent
    out.  The envelope names the action as given, "Action" when there is
    none.  An action that is given but is no string (null, a number, a
    boolean, an array, an object) never reaches the switch:
    [action.toUpperCase()] throws, no handler runs, and the request is
    answered 500 with the message of that TypeError, provided the action
    converts to a string. *)
Theorem unknown_action_runs_devilPOV : forall w req,
  ((own_field "action" req = JUndefined \/
    exists a, own_field "action" req = JStr a /\ mem a case_labels = false) ->
   dispatch w (requested_action req) req = handleDevilPOV w req /\
   (truthy (own_field "previousChapter" req) = false ->
    forall h,
      devil_pov w req h =
        (inl (Exn ReferenceError "result is not defined"),
         [DateNow; Respond 500 (failure_envelope req (Exn Error "No chapter provided"))]))) /\
  (not_text (own_field "action" req) = true ->
   printable (own_field "action" req) = true ->
   forall h,
     devil_pov w req h =
       (inl (Exn ReferenceError "result is not defined"),
        [DateNow;
         Respond 500
           (failure (to_string (js_or (own_field "action" req) (JStr "Action")) ++ " failed")
              match own_field "action" req with
              | JNull => "Cannot read properties of null (reading 'toUpperCase')"
              | _ => "action.toUpperCase is not a function"
              end)])).
Proof.
  intros w req. split.
  - intros H.
    assert (Hd : dispatch w (requested_action req) req = handleDevilPOV w req).
    { destruct H as [H|[a [H Hm]]]; unfold requested_action; rewrite H.
      - reflexivity.
      - apply dispatch_default. exact Hm. }
    split; [exact Hd|].
    intros Hp h.
    assert (Hs : exists s, requested_action req = JStr s).
    { destruct H as [H|[a [H _]]]; unfold requested_action; rewrite H; eexists; reflexivity. }
    destruct Hs as [s Hs].
    assert (Ht : try_block w req h = (inl (Exn Error "No chapter provided"), [DateNow])).
    { rewrite try_block_run, Hd, Hs. cbn [call_toUpperCase].
      unfold handleDevilPOV. cbv zeta. rewrite Hp. reflexivity. }
    destruct (failed_try_block_responds_once _ _ _ _ _ Ht (requested_action_printable _ _ Hs))
      as [H1 _].
    exact H1.
  - intros Hn Hp h. unfold devil_pov, try_catch. rewrite try_block_run.
    unfold requested_action.
    destruct (own_field "action" req) as [| |b|n| |l|fs] eqn:Ha; try discriminate Hn;
      cbn [call_toUpperCase]; rewrite catch_block_run, Ha, Hp;
      unfold failure_envelope, failure; rewrite Ha; reflexivity.
Qed.

Lemma unknown_action_runs_devilPOV_witness :
  (own_field "action" [("action", JStr "summon")] = JUndefined \/
   exists a, own_field "action" [("action", JStr "summon")] = JStr a /\
             mem a case_labels = false) /\
  dispatch offline (JStr "summon") [("action", JStr "summon")]
    = handleDevilPOV offline [("action", JStr "summon")] /\
  devil_pov offline [("action", JStr "summon")] [] =
    (inl (Exn ReferenceError "result is not defined"),
     [DateNow; Respond 500 (failure "summon failed" "No chapter provided")]) /\
  devil_pov offline [("action", JNum 5)] [] =
    (inl (Exn ReferenceError "result is not defined"),
     [DateNow; Respond 500 (failure "5 failed" "action.toUpperCase is not a function")]).
Proof.
  assert (H : own_field "action" [("action", JStr "summon")] = JUndefined \/
              exists a, own_field "action" [("action", JStr "summon")] = JStr a /\
                        mem a case_labels = false).
  { right. exists "summon". split; reflexivity. }
  destruct (unknown_action_runs_devilPOV offline [("action", JStr "summon")]) as [H0 _].
  destruct (H0 H) as [H1 H2].
  destruct (unknown_action_runs_devilPOV offline [("action", JNum 5)]) as [_ H3].
  split; [exact H|]. split; [exact H1|]. split; [apply H2; reflexivity|].
  apply H3; reflexivity.
Defined.

(* ================================================================= *)
(** ** The analysis caller and the analysis tools *)

Lemma callClaudeForAnalysis_run : forall w messages maxTokens h,
  truthy (OPENROUTER_API_KEY w) = true ->
  callClaudeForAnalysis w messages maxTokens h =
    (analysis_outcome (network w h (analysis_request w messages maxTokens)),
     [Fetch (analysis_request w messages maxTokens)]).
Proof.
  intros w messages maxTokens h Hkey.
  unfold callClaudeForAnalysis. cbv zeta. rewrite Hkey. cbn [negb].
  fold (analysis_request w messages maxTokens).
  unfold try_catch, bind, fetch, lift, throw, analysis_outcome.
  destruct (network w h (analysis_request w messages maxTokens)) as [e|resp]; simpl;
    [reflexivity|].
  destruct (ok resp); simpl.
  - destruct (json resp) as [e|data]; simpl; [reflexivity|].
    destruct (message_content data); reflexivity.
  - destruct (text resp); reflexivity.
Qed.

(** X4.  With a credential configured, the analysis caller sends exactly
    one request, to the model openai/gpt-3.5-turbo at temperature 0.3, and
    never falls back: a transport failure, an unreadable body or an
    unreachable content is rethrown as it is, a non-success status throws
    "Claude API failed: " followed by the response text, and a success
    returns the message content. *)
Theorem callClaudeForAnalysis_single_attempt : forall w messages maxTokens h,
  truthy (OPENROUTER_API_KEY w) = true ->
  let q := analysis_request w messages maxTokens in
  snd (callClaudeForAnalysis w messages maxTokens h) = [Fetch q] /\
  body q = ChatCompletion "openai/gpt-3.5-turbo" messages (Qmake 3 10) maxTokens /\
  (forall e, network w h q = inl e ->
     fst (callClaudeForAnalysis w messages maxTokens h) = inl e) /\
  (forall resp errorText, network w h q = inr resp -> ok resp = false ->
     text resp = inr errorText ->
     fst (callClaudeForAnalysis w messages maxTokens h)
       = inl (Exn Error ("Claude API failed: " ++ errorText))) /\
  (forall resp e, network w h q = inr resp -> ok resp = true -> json resp = inl e ->
     fst (callClaudeForAnalysis w messages maxTokens h) = inl e) /\
  (forall resp data, network w h q = inr resp -> ok resp = true -> json resp = inr data ->
     fst (callClaudeForAnalysis w messages maxTokens h) = message_content data).
Proof.
  intros w messages maxTokens h Hkey q. rewrite (callClaudeForAnalysis_run _ _ _ _ Hkey).
  fold q. cbn [fst snd]. repeat split.
  - intros e H. rewrite H. reflexivity.
  - intros resp errorText H Hok Ht. rewrite H. simpl. rewrite Hok, Ht. reflexivity.
  - intros resp e H Hok Hj. rewrite H. simpl. rewrite Hok, Hj. reflexivity.
  - intros resp data H Hok Hj. rewrite H. simpl. rewrite Hok, Hj. reflexivity.
Qed.

Lemma callClaudeForAnalysis_single_attempt_witness :
  truthy (OPENROUTER_API_KEY (analyst "[]")) = true /\
  callClaudeForAnalysis (analyst "[]") hello 3000 []
    = (inr (JStr "[]"), [Fetch (analysis_request (analyst "[]") hello 3000)]).
Proof.
  pose proof (callClaudeForAnalysis_single_attempt (analyst "[]") hello 3000 [] eq_refl)
    as [H1 _].
  split; [reflexivity|].
  rewrite <- H1. reflexivity.
Defined.

Lemma blank_not_whitespace : forall expr s,
  whitespace_only s = false -> blank expr (JStr s) = inr false.
Proof.
  intros expr s H. apply blank_false. intros Ht.
  apply trim_empty_iff in Ht. rewrite Ht in H. discriminate.
Qed.

(** X5.  An analysis tool (overuse scanner, pacing analyzer, sentence
    mechanics, dialogue critic, structural check) given a text that is not
    blank asks the analysis caller once.  A caller failure is passed on.
    A string answer is stripped of its code fences, trimmed and parsed as
    JSON, and the parsed value is the result; when parsing fails, or the
    answer is no string, the tool throws its own parse error. *)
Theorem analysis_response_parsed : forall w prompt maxTokens failure_message req s h,
  own_field "text" req = JStr s ->
  whitespace_only s = false ->
  analysis_handler w prompt maxTokens failure_message req h =
    (let run := callClaudeForAnalysis w [msg "user" (JStr (prompt (JStr s)))] maxTokens h in
     (match fst run with
     | inl e => inl e
     | inr (JStr answer) =>
         match JSON_parse w (trim (strip_fences answer)) with
         | inr markers => inr markers
         | inl _ => inl (Exn Error failure_message)
         end
     | inr _ => inl (Exn Error failure_message)
     end, snd run)) /\
  handleOveruseScanner w = analysis_handler w overuse_prompt 3000 "Failed to parse analysis response" /\
  handlePacingAnalyzer w = analysis_handler w pacing_prompt 3000 "Failed to parse pacing analysis" /\
  handleSentenceMechanics w = analysis_handler w mechanics_prompt 2500 "Failed to parse mechanics analysis" /\
  handleDialogueCritic w = analysis_handler w dialogue_prompt 2500 "Failed to parse dialogue analysis" /\
  handleStructuralCheck w = analysis_handler w structural_prompt 2500 "Failed to parse structural analysis".
Proof.
  intros w prompt maxTokens failure_message req s h Hs Hw.
  split; [|repeat split].
  unfold analysis_handler. cbv zeta. rewrite Hs, (blank_not_whitespace _ _ Hw).
  rewrite run_bind_lift_inr, run_bind.
  destruct (callClaudeForAnalysis w [msg "user" (JStr (prompt (JStr s)))] maxTokens h)
    as [[e|answer] out]; [reflexivity|].
  cbn [fst snd]. unfold parse_markers.
  destruct answer as [| | | |r| |]; try (cbn; rewrite app_nil_end_r; reflexivity).
  destruct (JSON_parse w (trim (strip_fences r))); cbn; rewrite app_nil_end_r; reflexivity.
Qed.

Lemma analysis_response_parsed_witness :
  whitespace_only "It was a dark night." = false /\
  handleOveruseScanner (analyst "```json[]```") [("text", JStr "It was a dark night.")] []
    = (inr (JArr []),
       [Fetch (analysis_request (analyst "```json[]```")
                 [msg "user" (JStr (overuse_prompt (JStr "It was a dark night.")))] 3000)]).
Proof.
  pose proof (analysis_response_parsed (analyst "```json[]```") overuse_prompt 3000
                "Failed to parse analysis response" [("text", JStr "It was a dark night.")]
                "It was a dark night." [] eq_refl eq_refl) as [H _].
  split; [reflexivity|].
  unfold handleOveruseScanner. rewrite H. reflexivity.
Defined.

(* ----------------------------------------------------------------- *)
(** *** Code fences *)

Lemma strip_fences_from_plain : forall s t,
  no_backtick s = true ->
  strip_fences_from 0 (s ++ t) = s ++ strip_fences_from 0 t.
Proof.
  induction s as [|c r IH]; intros t H; [reflexivity|].
  simpl in H. apply andb_prop in H. destruct H as [Hc Hr].
  apply negb_true_iff in Hc. apply Ascii.eqb_neq in Hc.
  change (String c r ++ t) with (String c (r ++ t)).
  cbn [strip_fences_from String.prefix].
  destruct (ascii_dec "`" c) as [He|_]; [exfalso; apply Hc; symmetry; exact He|].
  rewrite (IH t Hr). reflexivity.
Qed.

Lemma append_empty_r : forall s, s ++ EmptyString = s.
Proof. induction s as [|c r IH]; simpl; congruence. Qed.

Lemma strip_json_fence : forall y,
  strip_fences_from 0 ("```json" ++ y) = strip_fences_from 0 y.
Proof. intros y. destruct y; reflexivity. Qed.

Lemma strip_bare_fence : forall y,
  String.prefix "json" y = false ->
  strip_fences_from 0 ("```" ++ y) = strip_fences_from 0 y.
Proof.
  intros y H. destruct y as [|c r]; [reflexivity|].
  change ("```" ++ String c r) with (String "`" (String "`" (String "`" (String c r)))).
  cbn [strip_fences_from].
  replace (String.prefix "```json" (String "`" (String "`" (String "`" (String c r)))))
    with (String.prefix "json" (String c r)) by reflexivity.
  rewrite H. reflexivity.
Qed.

Lemma prefix_before_backtick : forall p s t,
  no_backtick p = true ->
  String.prefix p s = false -> String.prefix p (s ++ String "`" t) = false.
Proof.
  induction p as [|a p IH]; intros s t Hp H.
  - destruct s; discriminate.
  - cbn [no_backtick] in Hp. apply andb_prop in Hp. destruct Hp as [Ha Hp].
    apply negb_true_iff in Ha. apply Ascii.eqb_neq in Ha.
    destruct s as [|c s].
    + change (EmptyString ++ String "`" t) with (String "`" t). cbn [String.prefix].
      destruct (ascii_dec a "`"); [contradiction|reflexivity].
    + change (String c s ++ String "`" t) with (String c (s ++ String "`" t)).
      cbn [String.prefix] in *.
      destruct (ascii_dec a c); [apply IH; assumption|reflexivity].
Qed.

(** X6.  Stripping code fences leaves a text without backticks as it is,
    and unwraps such a text from a json fence; a bare fence is unwrapped as
    well unless the text starts with json, whose first four letters then
    go with the fence. *)
Theorem strip_fences_unwraps : forall s,
  no_backtick s = true ->
  strip_fences s = s /\
  strip_fences ("```json" ++ s ++ "```") = s /\
  (String.prefix "json" s = false -> strip_fences ("```" ++ s ++ "```") = s) /\
  (forall r, s = "json" ++ r -> strip_fences ("```" ++ s ++ "```") = r).
Proof.
  intros s H. unfold strip_fences.
  assert (Hend : forall r, no_backtick r = true -> strip_fences_from 0 (r ++ "```") = r).
  { intros r Hr. rewrite (strip_fences_from_plain r "```" Hr).
    change (strip_fences_from 0 "```") with EmptyString. apply append_empty_r. }
  split; [|split; [|split]].
  - rewrite <- (append_empty_r s) at 1. rewrite (strip_fences_from_plain s EmptyString H).
    apply append_empty_r.
  - rewrite strip_json_fence. apply Hend. exact H.
  - intros Hp. rewrite strip_bare_fence.
    + apply Hend. exact H.
    + apply (prefix_before_backtick "json" s "``" eq_refl Hp).
  - intros r Hr. subst s.
    change ("```" ++ ("json" ++ r) ++ "```") with ("```json" ++ r ++ "```").
    rewrite strip_json_fence. apply Hend. exact H.
Qed.

Lemma strip_fences_unwraps_witness :
  no_backtick "[1, 2]" = true /\
  strip_fences "[1, 2]" = "[1, 2]" /\
  strip_fences "```json[1, 2]```" = "[1, 2]" /\
  strip_fences "```[1, 2]```" = "[1, 2]".
Proof.
  pose proof (strip_fences_unwraps "[1, 2]" eq_refl) as [H1 [H2 [H3 _]]].
  split; [reflexivity|]. split; [exact H1|]. split; [exact H2|]. apply H3. reflexivity.
Defined.

(* ================================================================= *)
(** ** Context fetchers: records, failures, tags *)

Lemma has_items_records : forall w records,
  records <> [] -> has_items w {| items := JArr records |} = inr true.
Proof.
  intros w records H. unfold has_items. cbn [items prop String.eqb Ascii.eqb Bool.eqb gt_zero].
  destruct records as [|x r]; [contradiction|]. reflexivity.
Qed.

Lemma query_result_eta : forall r : query_result, r = {| items := items r |}.
Proof. intros [its]. reflexivity. Qed.

Lemma ToString_printable : forall v, printable v = true -> ToString v = inr (to_string v).
Proof. intros v H. unfold ToString. rewrite H. reflexivity. Qed.

Lemma ToString_unprintable : forall v, printable v = false -> ToString v = inl cannot_convert.
Proof. intros v H. unfold ToString. rewrite H. reflexivity. Qed.

(** X7.  When the CMS returns chat records for a tag that converts to a
    string, [getChatHistory] does not throw and returns one session per
    record, in order, each decoded on its own: a record whose message log
    is text that does not parse yields an empty message list for that
    record alone, one whose log parses yields the parsed value (or an empty
    list if that is falsy).  For a tag that does not convert to a string,
    the log line that follows the query throws a TypeError. *)
Theorem getChatHistory_decodes_each_record : forall w tags h records,
  truthy tags = true ->
  records <> [] ->
  fst (queryWixCMS w "ChatWithCharacters" (filter_on "charactertags" "$eq" (first_tag tags)) 5 h)
    = inr {| items := JArr records |} ->
  (printable (first_tag tags) = true ->
   fst (getChatHistory w tags h) = inr (map (session_of_item w) records)) /\
  (printable (first_tag tags) = false ->
   fst (getChatHistory w tags h)
     = inl (Exn TypeError "Cannot convert object to primitive value")) /\
  List.length (map (session_of_item w) records) = List.length records /\
  (forall item data s,
     get_prop item "data" = inr data -> opt_prop data "chatBox" = JStr s ->
     session_of_item w item =
       JObj [("messages",
              match JSON_parse w s with
              | inl _ => JArr []
              | inr messages => js_or messages (JArr [])
              end)]).
Proof.
  intros w tags h records Ht Hne Hq.
  assert (Hrun : forall shown,
            ToString (first_tag tags) = shown ->
            fst (getChatHistory w tags h) =
              match shown with
              | inl e => inl e
              | inr _ => inr (map (session_of_item w) records)
              end).
  { intros shown Hs. unfold getChatHistory. rewrite Ht. cbn [negb]. cbv zeta. rewrite run_bind.
    destruct (queryWixCMS w "ChatWithCharacters" (filter_on "charactertags" "$eq" (first_tag tags)) 5 h)
      as [[e|r] out]; cbn [fst] in Hq; [discriminate|].
    injection Hq as Hq. subst r. cbn [items].
    rewrite (ToString_printable (prop (JArr records) "length")) by reflexivity.
    rewrite run_bind_lift_inr, Hs. destruct shown as [e|t].
    - rewrite run_bind_lift_inl. reflexivity.
    - rewrite run_bind_lift_inr, (has_items_records w records Hne), run_bind_lift_inr.
      reflexivity. }
  split; [|split; [|split]].
  - intros Hp. apply (Hrun _ (ToString_printable _ Hp)).
  - intros Hp. apply (Hrun _ (ToString_unprintable _ Hp)).
  - apply length_map.
  - intros item data s Hd Hc. unfold session_of_item. rewrite Hd, Hc.
    destruct (JSON_parse w s); reflexivity.
Qed.

Lemma getChatHistory_decodes_each_record_witness :
  fst (getChatHistory two_sessions (JStr "@Lilith") []) =
    inr [JObj [("messages", JArr [])];
         JObj [("messages", JArr [JObj [("type", JStr "user"); ("text", JStr "hi")]])]] /\
  fst (getChatHistory two_sessions (JArr [JObj [("toString", JStr "@Lilith")]]) []) =
    inl (Exn TypeError "Cannot convert object to primitive value").
Proof.
  assert (Hne : [JObj [("data", JObj [("chatBox", JStr "{oops")])];
                 JObj [("data",
                        JObj [("chatBox",
                               JArr [JObj [("type", JStr "user"); ("text", JStr "hi")]])])]]
                <> []) by discriminate.
  split.
  - exact (proj1 (getChatHistory_decodes_each_record two_sessions (JStr "@Lilith") [] _
                    eq_refl Hne eq_refl) eq_refl).
  - exact (proj1 (proj2 (getChatHistory_decodes_each_record two_sessions
                           (JArr [JObj [("toString", JStr "@Lilith")]]) [] _
                           eq_refl Hne eq_refl)) eq_refl).
Defined.

Lemma queryWixCMS_no_records : forall w collection filter limit h,
  no_records (network w h (wix_request w collection filter limit)) = true ->
  queryWixCMS w collection filter limit h =
    (inr {| items := JArr [] |}, [Fetch (wix_request w collection filter limit)]).
Proof.
  intros w collection filter limit h H. rewrite queryWixCMS_run. unfold no_records in H.
  destruct (network w h (wix_request w collection filter limit)) as [e|resp]; [reflexivity|].
  destruct (ok resp); [|reflexivity].
  destruct (json resp) as [e|data]; [reflexivity|].
  unfold get_prop.
  destruct data; try reflexivity;
    destruct (prop _ "dataItems") as [| | | | |[|x r]|]; try discriminate; reflexivity.
Qed.

Lemma has_items_empty : forall w, has_items w {| items := JArr [] |} = inr false.
Proof. reflexivity. Qed.

(** X8.  When the CMS brings no record (it cannot be reached, answers with
    a failure status or an unparseable body, or matches nothing), the
    character, chapter and catalyst fetchers return their empty default,
    the same value as without a tag, and do not throw.  So does the chat
    history fetcher when its tag converts to a string; for a tag that does
    not, the log line that follows its query throws a TypeError. *)
Theorem fetchers_default_without_records : forall w tags h,
  (forall collection filter limit,
     no_records (network w h (wix_request w collection filter limit)) = true) ->
  fst (getCharacterContext w tags h) = inr (JStr EmptyString) /\
  (printable (first_tag tags) = true -> fst (getChatHistory w tags h) = inr []) /\
  (truthy tags = true -> printable (first_tag tags) = false ->
   fst (getChatHistory w tags h)
     = inl (Exn TypeError "Cannot convert object to primitive value")) /\
  fst (getRelatedChapters w tags h) = inr [] /\
  fst (getCatalystIntel w tags h) = inr (JStr EmptyString).
Proof.
  intros w tags h H.
  unfold getCharacterContext, getChatHistory, getRelatedChapters, getCatalystIntel. cbv zeta.
  split; [|split; [|split; [|split]]].
  - destruct (no_tags tags); [reflexivity|].
    rewrite run_bind, (queryWixCMS_no_records _ _ _ _ _ (H _ _ _)), has_items_empty. reflexivity.
  - intros Hp. destruct (negb (truthy tags)); [reflexivity|].
    rewrite run_bind, (queryWixCMS_no_records _ _ _ _ _ (H _ _ _)), has_items_empty.
    rewrite (ToString_printable _ Hp). reflexivity.
  - intros Ht Hp. rewrite Ht. cbn [negb].
    rewrite run_bind, (queryWixCMS_no_records _ _ _ _ _ (H _ _ _)).
    rewrite (ToString_unprintable _ Hp). reflexivity.
  - destruct (no_tags tags); [reflexivity|].
    rewrite run_bind, (queryWixCMS_no_records _ _ _ _ _ (H _ _ _)), has_items_empty. reflexivity.
  - destruct (no_tags tags); [reflexivity|].
    rewrite run_bind, (queryWixCMS_no_records _ _ _ _ _ (H _ _ _)), has_items_empty. reflexivity.
Qed.

Lemma fetchers_default_without_records_witness :
  (forall collection filter limit,
     no_records (network (always_completes "x") []
                   (wix_request (always_completes "x") collection filter limit)) = true) /\
  getCharacterContext (always_completes "x") (JArr [JStr "@Lilith"]) []
    = (inr (JStr EmptyString),
       [Fetch (wix_request (always_completes "x") "Characters"
                 (filter_on "charactertags" "$eq" (JStr "@Lilith")) 1)]) /\
  fst (getChatHistory (always_completes "x") (JArr [JStr "@Lilith"]) []) = inr [].
Proof.
  assert (H : forall collection filter limit,
     no_records (network (always_completes "x") []
                   (wix_request (always_completes "x") collection filter limit)) = true).
  { intros. reflexivity. }
  destruct (fetchers_default_without_records (always_completes "x") (JArr [JStr "@Lilith"]) [] H)
    as [_ [H2 _]].
  split; [exact H|]. split; [reflexivity|exact (H2 eq_refl)].
Defined.

(** X9.  Given a list of tags, each of the four context fetchers looks up
    the first tag only: the tags that follow it change nothing. *)
Theorem fetchers_use_first_tag_only : forall w tag others h,
  getCharacterContext w (JArr (tag :: others)) h = getCharacterContext w (JArr [tag]) h /\
  getChatHistory w (JArr (tag :: others)) h = getChatHistory w (JArr [tag]) h /\
  getRelatedChapters w (JArr (tag :: others)) h = getRelatedChapters w (JArr [tag]) h /\
  getCatalystIntel w (JArr (tag :: others)) h = getCatalystIntel w (JArr [tag]) h.
Proof.
  intros w tag others h.
  unfold getCharacterContext, getChatHistory, getRelatedChapters, getCatalystIntel, no_tags.
  cbn [truthy negb orb prop String.eqb Ascii.eqb Bool.eqb is_zero first_tag nth List.length].
  repeat split.
Qed.

(* ================================================================= *)
(** ** Tag generation *)

Lemma handleTagGeneration_run : forall w req,
  exists e,
    (forall h, handleTagGeneration w req h = (inl e, [])) /\
    (forall s, own_field "name" req = JStr s -> whitespace_only s = false ->
       truthy (OPENROUTER_API_KEY w) = true ->
       printable (own_field "type" req) = true ->
       e = Exn ReferenceError "existingTags is not defined") /\
    (printable (own_field "type" req) = false -> e = cannot_convert).
Proof.
  intros w req. destruct (handleTagGeneration_throws w req) as [e [H1 [H2 H3]]].
  exists e. split; [exact H1|]. split; [|exact H2].
  intros s Hs Hw Hk Hp. specialize (H3 Hp). rewrite Hs in H3. specialize (H3 eq_refl).
  rewrite (blank_not_whitespace _ _ Hw), Hk in H3. exact H3.
Qed.

(** X10.  Tag generation never succeeds and never sends a request: the
    handler throws for every input and in every world.  With a name that
    is not blank, a type that converts to a string and a credential
    configured, it throws the ReferenceError of reading [existingTags],
    which nothing declares; with a type that does not convert to a string
    its opening log line throws a TypeError.  So every tag_generation
    request is answered 500. *)
Theorem tag_generation_always_fails : forall w req,
  exists e,
    (forall h, handleTagGeneration w req h = (inl e, [])) /\
    (forall s, own_field "name" req = JStr s -> whitespace_only s = false ->
       truthy (OPENROUTER_API_KEY w) = true ->
       printable (own_field "type" req) = true ->
       e = Exn ReferenceError "existingTags is not defined") /\
    (printable (own_field "type" req) = false ->
       e = Exn TypeError "Cannot convert object to primitive value") /\
    (own_field "action" req = JStr "tag_generation" ->
     forall h, devil_pov w req h =
       (inl (Exn ReferenceError "result is not defined"),
        [DateNow; Respond 500 (failure "tag_generation failed" (message e))])).
Proof.
  intros w req. destruct (handleTagGeneration_run w req) as [e [H1 [H2 H3]]].
  exists e. split; [exact H1|]. split; [exact H2|]. split; [exact H3|].
  intros Ha h. apply (failed_dispatch_run w req h "tag_generation" e Ha); [discriminate|].
  apply H1.
Qed.

(** With a credential and a name, the handler still fails. *)
Example tag_generation_with_credential :
  devil_pov (always_completes "@LilithVane")
    [("action", JStr "tag_generation"); ("name", JStr "Lilith Vane"); ("type", JStr "character")] []
  = (inl (Exn ReferenceError "result is not defined"),
     [DateNow; Respond 500 (failure "tag_generation failed" "existingTags is not defined")]).
Proof. reflexivity. Qed.

(* ================================================================= *)
(** ** A completion without text *)

(** X11.  When a handler returns null or undefined (a model answered with
    a message whose content is null or missing, which the fallback caller
    takes as a success), reading the result's length throws: the request is
    answered 500 with the TypeError's message, and nothing more is sent. *)
Theorem null_result_answered_500 : forall w req h a result out,
  own_field "action" req = JStr a ->
  a <> EmptyString ->
  dispatch w (JStr a) req (h ++ [DateNow])%list = (inr result, out) ->
  result = JNull \/ result = JUndefined ->
  devil_pov w req h =
    (inl (Exn ReferenceError "result is not defined"),
     (DateNow :: out ++
      [DateNow;
       Respond 500 (failure (a ++ " failed")
                      ("Cannot read properties of " ++ to_string result
                       ++ " (reading 'length')"))])%list) /\
  responses (snd (devil_pov w req h)) =
    [(500%Z, failure (a ++ " failed")
               ("Cannot read properties of " ++ to_string result ++ " (reading 'length')"))].
Proof.
  intros w req h a result out Ha Hne Hd Hr.
  assert (Ht : try_block w req h =
                 (inl (cannot_read result "length"), (DateNow :: out ++ [DateNow])%list)).
  { rewrite try_block_run, (requested_action_string _ _ Ha). cbn [call_toUpperCase].
    rewrite Hd. cbv zeta. destruct Hr; subst result; reflexivity. }
  assert (Hp : printable (own_field "action" req) = true) by (rewrite Ha; reflexivity).
  destruct (failed_try_block_responds_once _ _ _ _ _ Ht Hp) as [H1 H2].
  assert (He : failure_envelope req (cannot_read result "length") =
               failure (a ++ " failed")
                 ("Cannot read properties of " ++ to_string result ++ " (reading 'length')")).
  { unfold failure_envelope, failure. rewrite Ha.
    destruct a as [|c a']; [contradiction|]. reflexivity. }
  rewrite He in H1, H2. split.
  - rewrite H1. cbn [app]. rewrite <- app_assoc. reflexivity.
  - rewrite H1. exact H2.
Qed.

Lemma null_result_answered_500_witness :
  dispatch answers_null (JStr "noMercy") sky_request [DateNow]
    = (inr JNull,
       [Fetch (candidate_request answers_null (noMercy_messages (JStr "The sky was blue."))
                 (Qmake 9 10) 1500 PRIMARY_MODEL)]) /\
  responses (snd (devil_pov answers_null sky_request [])) =
    [(500%Z, failure "noMercy failed" "Cannot read properties of null (reading 'length')")].
Proof.
  assert (Hd : dispatch answers_null (JStr "noMercy") sky_request ([] ++ [DateNow])%list
    = (inr JNull,
       [Fetch (candidate_request answers_null (noMercy_messages (JStr "The sky was blue."))
                 (Qmake 9 10) 1500 PRIMARY_MODEL)])) by reflexivity.
  assert (Hne : "noMercy" <> EmptyString) by discriminate.
  split; [exact Hd|].
  exact (proj2 (null_result_answered_500 answers_null sky_request [] "noMercy" JNull _
                  eq_refl Hne Hd (or_introl eq_refl))).
Defined.

(* ================================================================= *)
(** ** Devil POV: the conversations in the prompt *)

Lemma last_n_app_exact : forall (A : Type) (n : nat) (older recent : list A),
  List.length recent = n -> last_n n (older ++ recent)%list = recent.
Proof.
  intros A n older recent H. unfold last_n. rewrite length_app, H.
  replace (List.length older + n - n) with (List.length older) by lia.
  rewrite skipn_app, skipn_all, Nat.sub_diag. reflexivity.
Qed.

Lemma last_n_idem : forall (A : Type) (n : nat) (l : list A),
  last_n n (last_n n l) = last_n n l.
Proof. intros A n l. apply last_n_all. rewrite last_n_length. lia. Qed.

Lemma session_lines_recent_five : forall session,
  session_lines (recent_five session) = session_lines session.
Proof.
  intros session. unfold recent_five.
  destruct (prop session "messages") as [| | | | |l|] eqn:Hm; try reflexivity.
  unfold session_lines. rewrite Hm.
  cbn [prop own_field String.eqb Ascii.eqb Bool.eqb]. rewrite last_n_idem. reflexivity.
Qed.

(** X12.  Of each chat session only the last five messages reach the
    Devil POV prompt: the text built from the sessions is the same when
    every session is cut down to its last five messages, so an older
    message, even a malformed one, has no effect. *)
Theorem devilPOV_sessions_last_five : forall sessions idx,
  sessions_text idx (map recent_five sessions) = sessions_text idx sessions.
Proof.
  induction sessions as [|session rest IH]; intros idx; [reflexivity|].
  cbn [map sessions_text]. rewrite session_lines_recent_five, IH. reflexivity.
Qed.

(** A null message older than the last five does not make the prompt fail;
    among the last five it does. *)
Example devilPOV_old_null_message :
  sessions_text 0 [JObj [("messages",
                          JArr (JNull :: map (fun t => JObj [("type", JStr "user"); ("text", JStr t)])
                                           ["a"; "b"; "c"; "d"; "e"]))]]
    = inr (nl ++ "[Session 1]" ++ nl ++ "AUTHOR: a" ++ nl ++ "AUTHOR: b" ++ nl ++ "AUTHOR: c"
           ++ nl ++ "AUTHOR: d" ++ nl ++ "AUTHOR: e" ++ nl) /\
  sessions_text 0 [JObj [("messages", JArr [JObj [("type", JStr "user"); ("text", JStr "a")];
                                            JNull])]]
    = inl (Exn TypeError "Cannot read properties of null (reading 'type')").
Proof. split; reflexivity. Qed.

(* ================================================================= *)
(** ** Unleash: the conversation *)

Lemma conversation_query : forall Q w collection filter limit,
  conversation_is Q (Fetch (wix_request w collection filter limit)).
Proof. intros. exact I. Qed.

(** The request that goes out once both sections are built. *)
Ltac unleash_sent :=
  match goal with
  | Hq : Forall (conversation_is ?Q) ?queries,
    Hc : truthy ?characterContext = _, Hk : truthy ?catalystIntel = _
    |- context [callAI ?w ?m ?t ?k ?hh] =>
      let Hcall := fresh "Hcall" in
      assert (Hcall : emits (conversation_is Q) (callAI w m t k))
        by (apply emits_callAI; intros model; exists characterContext, catalystIntel;
            split; [reflexivity|]; split; [reflexivity|]; rewrite Hc, Hk; reflexivity);
      specialize (Hcall hh); destruct (callAI w m t k hh) as [r out];
      cbn [snd] in *; apply Forall_app; split; [exact Hq|exact Hcall]
  end.

(** X13.  Every request [handleUnleash] sends to a model carries two
    messages.  The system message is the fixed instructions, followed by
    the section CHARACTER CONTEXT with what the character lookup returned,
    if that is truthy, and by the section NARRATIVE CATALYST with what the
    catalyst lookup returned, if that is truthy, and nothing else.  The
    user message ends with the chapter.  Without character and catalyst
    tags the CMS is not asked and the system message is the fixed
    instructions alone, with no empty heading. *)
Theorem handleUnleash_conversation : forall w req s h,
  own_field "chapterContent" req = JStr s ->
  Forall (conversation_is
            (fun messages =>
               exists characterContext catalystIntel,
                 fst (getCharacterContext w (own_field "characterTags" req) h)
                   = inr characterContext /\
                 fst (getCatalystIntel w (own_field "catalystTags" req)
                        (h ++ snd (getCharacterContext w (own_field "characterTags" req) h))%list)
                   = inr catalystIntel /\
                 messages =
                   [msg "system"
                      (JStr (unleash_instructions
                             ++ (if truthy characterContext
                                 then nl ++ nl ++ "CHARACTER CONTEXT:" ++ nl
                                      ++ to_string characterContext
                                 else EmptyString)
                             ++ (if truthy catalystIntel
                                 then nl ++ nl ++ "NARRATIVE CATALYST:" ++ nl
                                      ++ to_string catalystIntel
                                 else EmptyString)));
                    unleash_user_message s]))
         (snd (handleUnleash w req h)) /\
  (whitespace_only s = false ->
   no_tags (own_field "characterTags" req) = true ->
   no_tags (own_field "catalystTags" req) = true ->
   handleUnleash w req h =
     callAI w [msg "system" (JStr unleash_instructions); unleash_user_message s]
       (Qmake 17 20) 2000 h).
Proof.
  intros w req s h Hs. split.
  - set (Q := fun messages : list jsval =>
               exists characterContext catalystIntel,
                 fst (getCharacterContext w (own_field "characterTags" req) h)
                   = inr characterContext /\
                 fst (getCatalystIntel w (own_field "catalystTags" req)
                        (h ++ snd (getCharacterContext w (own_field "characterTags" req) h))%list)
                   = inr catalystIntel /\
                 messages =
                   [msg "system"
                      (JStr (unleash_instructions
                             ++ (if truthy characterContext
                                 then nl ++ nl ++ "CHARACTER CONTEXT:" ++ nl
                                      ++ to_string characterContext
                                 else EmptyString)
                             ++ (if truthy catalystIntel
                                 then nl ++ nl ++ "NARRATIVE CATALYST:" ++ nl
                                      ++ to_string catalystIntel
                                 else EmptyString)));
                    unleash_user_message s]).
    unfold handleUnleash. cbv zeta. rewrite Hs.
    destruct (blank "chapterContent.trim" (JStr s)) as [e|[|]];
      [rewrite run_bind_lift_inl; constructor
      |rewrite run_bind_lift_inr; constructor|].
    rewrite run_bind_lift_inr, run_bind. unfold all2.
    pose proof (emits_getCharacterContext (conversation_is Q)
                  (fun w' c f l _ => conversation_query Q w' c f l)
                  w (own_field "characterTags" req) h) as Ha.
    destruct (getCharacterContext w (own_field "characterTags" req) h) as [ra oa].
    pose proof (emits_getCatalystIntel (conversation_is Q)
                  w (own_field "catalystTags" req)
                  (conversation_query Q _ _ _ _) (h ++ oa)%list) as Hb.
    cbn [snd fst] in *.
    destruct (getCatalystIntel w (own_field "catalystTags" req) (h ++ oa)%list) as [rb ob].
    cbn [snd] in Hb.
    assert (Hq : Forall (conversation_is Q) (oa ++ ob)%list)
      by (apply Forall_app; split; assumption).
    destruct ra as [ea|characterContext]; [destruct rb; exact Hq|].
    destruct rb as [eb|catalystIntel]; [exact Hq|].
    cbv iota beta. unfold section_if, ToString.
    destruct (truthy characterContext) eqn:Hc.
    + destruct (printable characterContext);
        [|rewrite run_bind_lift_inl; cbn [snd]; rewrite app_nil_end_r; exact Hq].
      rewrite run_bind_lift_inr.
      destruct (truthy catalystIntel) eqn:Hk.
      * destruct (printable catalystIntel);
          [|rewrite run_bind_lift_inl; cbn [snd]; rewrite app_nil_end_r; exact Hq].
        rewrite run_bind_lift_inr.
        unleash_sent.
      * rewrite run_bind_lift_inr.
        unleash_sent.
    + rewrite run_bind_lift_inr.
      destruct (truthy catalystIntel) eqn:Hk.
      * destruct (printable catalystIntel);
          [|rewrite run_bind_lift_inl; cbn [snd]; rewrite app_nil_end_r; exact Hq].
        rewrite run_bind_lift_inr.
        unleash_sent.
      * rewrite run_bind_lift_inr.
        unleash_sent.
  - intros Hw Hc Hk. unfold handleUnleash. cbv zeta.
    rewrite Hs, (blank_not_whitespace _ _ Hw), run_bind_lift_inr.
    unfold getCharacterContext, getCatalystIntel. rewrite Hc, Hk.
    rewrite run_bind. cbn [all2 ret]. cbv iota beta. rewrite app_nil_end_r.
    cbn [section_if truthy String.eqb negb]. rewrite !run_bind_lift_inr.
    change (unleash_instructions ++ EmptyString ++ EmptyString)
      with (unleash_instructions ++ EmptyString).
    rewrite append_empty_r.
    destruct (callAI w _ (Qmake 17 20) 2000 h) as [r out]. reflexivity.
Qed.

Lemma handleUnleash_conversation_witness :
  own_field "chapterContent" [("chapterContent", JStr "The door opened.")]
    = JStr "The door opened." /\
  handleUnleash (always_completes "And closed.") [("chapterContent", JStr "The door opened.")] []
    = callAI (always_completes "And closed.")
        [msg "system" (JStr unleash_instructions); unleash_user_message "The door opened."]
        (Qmake 17 20) 2000 [].
Proof.
  destruct (handleUnleash_conversation (always_completes "And closed.")
              [("chapterContent", JStr "The door opened.")] "The door opened." [] eq_refl)
    as [_ H].
  split; [reflexivity|]. apply H; reflexivity.
Defined.

(* ================================================================= *)
(** ** Character tags given as a string *)

Lemma bind_stops_first : forall (A B : Type) (P : event -> Prop) (m : M A) (f : A -> M B),
  stops_with P m -> stops_with P (bind m f).
Proof.
  intros A B P m f H h. destruct (H h) as [[e He] Hp]. unfold bind.
  destruct (m h) as [[e'|a] out]; simpl in *; [|discriminate].
  split; [exists e'; reflexivity|assumption].
Qed.

Lemma bind_stops_later : forall (A B : Type) (P : event -> Prop) (m : M A) (f : A -> M B),
  emits P m -> (forall a, stops_with P (f a)) -> stops_with P (bind m f).
Proof.
  intros A B P m f Hm Hf h. specialize (Hm h). unfold bind.
  destruct (m h) as [[e|a] out]; simpl in *.
  - split; [exists e; reflexivity|assumption].
  - destruct (Hf a (h ++ out)%list) as [[e He] Hp].
    destruct (f a (h ++ out)%list) as [r out']. simpl in *.
    split; [exists e; assumption|]. apply Forall_app. split; assumption.
Qed.

Lemma throw_stops : forall (A : Type) (P : event -> Prop) (e : exn), stops_with P (@throw A e).
Proof. intros A P e h. split; [exists e; reflexivity|constructor]. Qed.

Lemma lift_inl_stops : forall (A : Type) (P : event -> Prop) (e : exn),
  stops_with P (@lift A (inl e)).
Proof. intros A P e h. split; [exists e; reflexivity|constructor]. Qed.

Lemma tag_line_string : forall w label expr t,
  t <> EmptyString ->
  tag_line w label expr (JStr t) = inl (not_a_function expr).
Proof.
  intros w label expr t H. unfold tag_line.
  cbn [opt_prop prop String.eqb Ascii.eqb Bool.eqb gt_zero].
  destruct t as [|c r]; [contradiction|]. reflexivity.
Qed.

Lemma characterChat_systemPrompt_string_tags : forall w req t,
  own_field "characterTags" req = JStr t ->
  t <> EmptyString ->
  stops_with no_chat_request (characterChat_systemPrompt w req).
Proof.
  intros w req t Ht Hne. unfold characterChat_systemPrompt, log_preview. cbv zeta.
  rewrite Ht, (tag_line_string _ _ _ _ Hne).
  apply bind_stops_later; [apply emits_lift|]. intros b.
  destruct b; [apply throw_stops|].
  apply bind_stops_later; [apply emits_Date_now; exact I|]. intros t0.
  apply bind_stops_later.
  { apply emits_all4.
    - apply emits_getCharacterContext. intros. exact I.
    - apply emits_getChatHistory. intros. exact I.
    - apply emits_getRelatedChapters. intros. exact I.
    - apply emits_getCatalystIntel; intros; exact I. }
  intros [[[characterContext chatHistoryContext] relatedChapters] catalystIntel].
  apply bind_stops_later; [apply emits_Date_now; exact I|]. intros t1.
  apply bind_stops_later; [emits_auto|]. intros _.
  apply bind_stops_later; [emits_auto|]. intros _.
  apply bind_stops_later; [emits_auto|]. intros _.
  apply bind_stops_later; [emits_auto|]. intros _.
  apply bind_stops_first. apply lift_inl_stops.
Qed.

(** X14.  The context fetchers accept a single tag given as a string, but
    the two chat handlers do not: a characterChat or devilPOV request whose
    characterTags is a string that is not empty always throws, and no
    request reaches a model.  (The handlers call [join] on the tags after
    the CMS has been queried.) *)
Theorem chat_handlers_reject_string_tags : forall w req t h,
  own_field "characterTags" req = JStr t ->
  t <> EmptyString ->
  ((exists e, fst (handleCharacterChat w req h) = inl e) /\
   Forall no_chat_request (snd (handleCharacterChat w req h))) /\
  ((exists e, fst (handleDevilPOV w req h) = inl e) /\
   Forall no_chat_request (snd (handleDevilPOV w req h))).
Proof.
  intros w req t h Ht Hne. split.
  - revert h. change (stops_with no_chat_request (handleCharacterChat w req)).
    unfold handleCharacterChat. cbv zeta. apply bind_stops_first.
    apply (characterChat_systemPrompt_string_tags w req t Ht Hne).
  - revert h. change (stops_with no_chat_request (handleDevilPOV w req)).
    unfold handleDevilPOV. cbv zeta. rewrite Ht, (tag_line_string _ _ _ _ Hne).
    destruct (negb (truthy (own_field "previousChapter" req))); [apply throw_stops|].
    apply bind_stops_later; [apply emits_Date_now; exact I|]. intros t0.
    apply bind_stops_later.
    { apply emits_all4.
      - apply emits_getCharacterContext. intros. exact I.
      - apply emits_getChatHistory. intros. exact I.
      - apply emits_getRelatedChapters. intros. exact I.
      - apply emits_getCatalystIntel; intros; exact I. }
    intros [[[characterContext chatHistory] relatedChapters] catalystIntel].
    apply bind_stops_later; [apply emits_Date_now; exact I|]. intros t1.
    apply bind_stops_first. apply lift_inl_stops.
Qed.

Lemma chat_handlers_reject_string_tags_witness :
  own_field "characterTags"
    [("userMessage", JStr "hello"); ("previousChapter", JStr "Night fell.");
     ("characterTags", JStr "@Lilith")] = JStr "@Lilith" /\
  handleCharacterChat (always_completes "x")
    [("userMessage", JStr "hello"); ("previousChapter", JStr "Night fell.");
     ("characterTags", JStr "@Lilith")] [] =
    (inl (Exn TypeError "characterTags.join is not a function"),
     [DateNow;
      Fetch (wix_request (always_completes "x") "Characters"
               (filter_on "charactertags" "$eq" (JStr "@Lilith")) 1);
      Fetch (wix_request (always_completes "x") "ChatWithCharacters"
               (filter_on "charactertags" "$eq" (JStr "@Lilith")) 5);
      Fetch (wix_request (always_completes "x") "Catalyst"
               (filter_on "title" "$contains" (JStr "@Lilith")) 1);
      DateNow]) /\
  (exists e, fst (handleDevilPOV (always_completes "x")
    [("userMessage", JStr "hello"); ("previousChapter", JStr "Night fell.");
     ("characterTags", JStr "@Lilith")] []) = inl e).
Proof.
  assert (Hne : "@Lilith" <> EmptyString) by discriminate.
  destruct (chat_handlers_reject_string_tags (always_completes "x")
    [("userMessage", JStr "hello"); ("previousChapter", JStr "Night fell.");
     ("characterTags", JStr "@Lilith")] "@Lilith" [] eq_refl Hne) as [_ [H _]].
  split; [reflexivity|]. split; [reflexivity|]. exact H.
Defined.

(* ================================================================= *)
(** ** What the route sends out *)

Ltac in_list := simpl; repeat (first [left; reflexivity | right]).

Lemma expected_now : forall w, expected w DateNow.
Proof. intros. exact I. Qed.

Lemma expected_respond : forall w status payload, expected w (Respond status payload).
Proof. intros. exact I. Qed.

#[local] Hint Resolve expected_now expected_respond : emits.

Lemma expected_callAI : forall w messages temperature maxTokens,
  In (temperature, maxTokens) generation_settings ->
  emits (expected w) (callAI w messages temperature maxTokens).
Proof.
  intros w messages temperature maxTokens H. unfold callAI. cbv zeta.
  destruct (negb (truthy (OPENROUTER_API_KEY w))); [apply emits_throw|].
  assert (Ha : forall model, In model fallback_models ->
            emits (expected w)
              (callAI_attempt w (OPENROUTER_API_KEY w) messages temperature maxTokens model)).
  { intros model Hm. unfold callAI_attempt.
    apply emits_try_catch; [|intros; apply emits_ret].
    apply emits_bind.
    - apply emits_fetch. apply (expected_generation w model messages temperature maxTokens Hm H).
    - intros response. emits_auto. }
  cbn [callAI_loop].
  apply emits_bind; [apply Ha; in_list|]. intros [c|]; [apply emits_ret|].
  apply emits_bind; [apply Ha; in_list|]. intros [c|]; [apply emits_ret|].
  apply emits_bind; [apply Ha; in_list|]. intros [c|]; [apply emits_ret|].
  apply emits_throw.
Qed.

Lemma expected_callClaudeForAnalysis : forall w messages maxTokens,
  In maxTokens analysis_budgets ->
  emits (expected w) (callClaudeForAnalysis w messages maxTokens).
Proof.
  intros w messages maxTokens H. apply emits_callClaudeForAnalysis.
  apply (expected_analysis w messages maxTokens H).
Qed.

Lemma expected_wix : forall w collection field op tag limit,
  In (collection, field, op, limit) cms_queries ->
  emits (expected w) (queryWixCMS w collection (filter_on field op tag) limit).
Proof.
  intros. apply emits_queryWixCMS. apply expected_query. assumption.
Qed.

Lemma expected_getCharacterContext : forall w tags,
  emits (expected w) (getCharacterContext w tags).
Proof.
  intros. unfold getCharacterContext. cbv zeta.
  destruct (no_tags tags); [apply emits_ret|].
  apply emits_bind; [apply expected_wix; in_list|intros; emits_auto].
Qed.

Lemma expected_getChatHistory : forall w tags, emits (expected w) (getChatHistory w tags).
Proof.
  intros. unfold getChatHistory. cbv zeta.
  destruct (negb (truthy tags)); [apply emits_ret|].
  apply emits_bind; [apply expected_wix; in_list|intros; emits_auto].
Qed.

Lemma expected_getRelatedChapters : forall w tags,
  emits (expected w) (getRelatedChapters w tags).
Proof.
  intros. unfold getRelatedChapters. cbv zeta.
  destruct (no_tags tags); [apply emits_ret|].
  apply emits_bind; [apply expected_wix; in_list|intros; emits_auto].
Qed.

Lemma expected_getCatalystIntel : forall w tags,
  emits (expected w) (getCatalystIntel w tags).
Proof.
  intros. unfold getCatalystIntel. cbv zeta.
  destruct (no_tags tags); [apply emits_ret|].
  apply emits_bind; [apply expected_wix; in_list|intros; emits_auto].
Qed.

#[local] Hint Resolve expected_getCharacterContext expected_getChatHistory
  expected_getRelatedChapters expected_getCatalystIntel : emits.

Ltac expected_call :=
  first [ apply expected_callAI; in_list
        | apply expected_callClaudeForAnalysis; in_list ].

Ltac expected_auto :=
  repeat (first [ solve [auto with emits] | expected_call | emits_step ]).

Lemma expected_parse_markers : forall w failure_message response,
  emits (expected w) (parse_markers w failure_message response).
Proof. intros. unfold parse_markers. emits_auto. Qed.

#[local] Hint Resolve expected_parse_markers : emits.

Lemma expected_analysis_handler : forall w prompt maxTokens failure_message req,
  In maxTokens analysis_budgets ->
  emits (expected w) (analysis_handler w prompt maxTokens failure_message req).
Proof.
  intros w prompt maxTokens failure_message req H. unfold analysis_handler. cbv zeta.
  apply emits_bind; [apply emits_lift|]. intros b. destruct b; [apply emits_throw|].
  apply emits_bind; [apply expected_callClaudeForAnalysis; exact H|].
  intros. apply expected_parse_markers.
Qed.

Lemma expected_dispatch : forall w action req, emits (expected w) (dispatch w action req).
Proof.
  intros w action req. unfold dispatch.
  destruct action as [| | | |a| |];
    try (unfold handleDevilPOV; cbv zeta; expected_auto).
  - unfold handleUnhinge. cbv zeta. expected_auto.
  - unfold handleUnleash. cbv zeta. expected_auto.
  - unfold handleNoMercy. cbv zeta. expected_auto.
  - unfold handleInvoke. cbv zeta. expected_auto.
  - unfold handleIntensify. cbv zeta. expected_auto.
  - unfold handleCharacterChat, characterChat_systemPrompt, log_preview. cbv zeta. expected_auto.
  - apply expected_analysis_handler. in_list.
  - apply expected_analysis_handler. in_list.
  - apply expected_analysis_handler. in_list.
  - apply expected_analysis_handler. in_list.
  - unfold handleAICritic. cbv zeta. expected_auto.
  - apply expected_analysis_handler. in_list.
  - intros h. destruct (handleTagGeneration_run w req) as [e [H _]]. rewrite H. constructor.
Qed.

Lemma expected_devil_pov : forall w req, emits (expected w) (devil_pov w req).
Proof.
  intros w req. unfold devil_pov. apply emits_try_catch.
  - unfold try_block. cbv zeta.
    apply emits_bind; [apply emits_Date_now; exact I|]. intros startTime.
    apply emits_bind; [apply emits_lift|]. intros shown.
    apply emits_bind; [apply expected_dispatch|]. intros result.
    emits_auto.
  - intros err. unfold catch_block. emits_auto.
Qed.

Lemma In_requests : forall q evs, In q (requests evs) -> In (Fetch q) evs.
Proof.
  intros q evs H. unfold requests in H. apply in_flat_map in H.
  destruct H as [e [He Hq]]. destruct e as [r| |]; simpl in Hq; try contradiction.
  destruct Hq as [Hq|[]]. subst r. exact He.
Qed.

(** X15.  Whatever the request, everything the route sends out is one of:
    a generation request to one of the three fallback models, with one of
    the seven temperature and token settings of the handlers; an analysis
    request to openai/gpt-3.5-turbo with a budget of 2500, 3000 or 3500
    tokens; or one of the four CMS queries (Characters, limit 1;
    ChatWithCharacters, limit 5; BackupChapters, limit 3; Catalyst, limit
    1).  Each is a JSON POST: to the chat-completions URL with the
    configured credential as bearer token and the fixed referer, or to the
    CMS query URL with the configured key, site and account. *)
Theorem route_requests_expected : forall w req h,
  Forall (expected w) (snd (devil_pov w req h)) /\
  (forall q, In q (requests (snd (devil_pov w req h))) ->
     method q = "POST" /\
     header "Content-Type" q = JStr "application/json" /\
     ((url q = OPENROUTER_URL /\
       header "Authorization" q = JStr ("Bearer " ++ to_string (OPENROUTER_API_KEY w)) /\
       header "HTTP-Referer" q = JStr REFERER)
      \/
      (url q = WIX_QUERY_URL /\
       header "Authorization" q = WIX_API_KEY w /\
       header "wix-site-id" q = WIX_SITE_ID w /\
       header "wix-account-id" q = WIX_ACCOUNT_ID w))).
Proof.
  intros w req h. pose proof (expected_devil_pov w req h) as H. split; [exact H|].
  intros q Hq. apply In_requests in Hq.
  rewrite Forall_forall in H. specialize (H _ Hq). simpl in H.
  destruct H as [model messages temperature maxTokens _ _
                |messages maxTokens _
                |collection field op tag limit _].
  - split; [reflexivity|]. split; [reflexivity|]. left. repeat split.
  - split; [reflexivity|]. split; [reflexivity|]. left. repeat split.
  - split; [reflexivity|]. split; [reflexivity|]. right. repeat split.
Qed.

(* ================================================================= *)
(** ** How many requests a request costs *)

Section Counting.

Variable p : event -> bool.

Lemma count_app : forall a b, count p (a ++ b)%list = count p a + count p b.
Proof. intros a b. unfold count. rewrite filter_app, length_app. reflexivity. Qed.

Lemma count_skipped : forall evs, Forall (skipped p) evs -> count p evs = 0.
Proof.
  intros evs H. induction H as [|e r He _ IH]; [reflexivity|].
  unfold count in *. simpl. unfold skipped in He. rewrite He. exact IH.
Qed.

Lemma at_most_skipped : forall (A : Type) (m : M A) n,
  emits (skipped p) m -> at_most p n m.
Proof. intros A m n H h. rewrite (count_skipped _ (H h)). lia. Qed.

Lemma at_most_weaken : forall (A : Type) (m : M A) n n',
  n <= n' -> at_most p n m -> at_most p n' m.
Proof. intros A m n n' Hle H h. specialize (H h). lia. Qed.

Lemma at_most_bind : forall (A B : Type) (m : M A) (f : A -> M B) n1 n2,
  at_most p n1 m -> (forall a, at_most p n2 (f a)) -> at_most p (n1 + n2) (bind m f).
Proof.
  intros A B m f n1 n2 Hm Hf h. unfold bind. specialize (Hm h).
  destruct (m h) as [[e|a] out]; simpl in *; [lia|].
  specialize (Hf a (h ++ out)%list).
  destruct (f a (h ++ out)%list) as [r out']. simpl in *. rewrite count_app. lia.
Qed.

Lemma at_most_after : forall (A B : Type) (m : M A) (f : A -> M B) n,
  emits (skipped p) m -> (forall a, at_most p n (f a)) -> at_most p n (bind m f).
Proof.
  intros A B m f n Hm Hf. apply (at_most_bind _ _ m f 0 n); [|exact Hf].
  apply at_most_skipped. exact Hm.
Qed.

Lemma at_most_before : forall (A B : Type) (m : M A) (f : A -> M B) n,
  at_most p n m -> (forall a, emits (skipped p) (f a)) -> at_most p n (bind m f).
Proof.
  intros A B m f n Hm Hf. apply (at_most_weaken _ _ (n + 0)); [lia|].
  apply at_most_bind; [exact Hm|]. intros a. apply at_most_skipped. apply Hf.
Qed.

Lemma at_most_try_catch : forall (A : Type) (m : M A) (handler : exn -> M A) n,
  at_most p n m -> (forall e, emits (skipped p) (handler e)) ->
  at_most p n (try_catch m handler).
Proof.
  intros A m handler n Hm Hh h. unfold try_catch. specialize (Hm h).
  destruct (m h) as [[e|a] out]; simpl in *; [|lia].
  specialize (Hh e (h ++ out)%list).
  destruct (handler e (h ++ out)%list) as [r out']. simpl in *.
  rewrite count_app, (count_skipped _ Hh). lia.
Qed.

Lemma at_most_all2 : forall (A B : Type) w (a : M A) (b : M B) n1 n2,
  at_most p n1 a -> at_most p n2 b -> at_most p (n1 + n2) (all2 w a b).
Proof.
  intros A B w a b n1 n2 Ha Hb h. unfold all2. specialize (Ha h).
  destruct (a h) as [ra oa]. specialize (Hb (h ++ oa)%list).
  destruct (b (h ++ oa)%list) as [rb ob]. simpl in *. rewrite count_app. lia.
Qed.

Lemma at_most_all4 : forall (A B C D : Type) w (a : M A) (b : M B) (c : M C) (d : M D)
    n1 n2 n3 n4,
  at_most p n1 a -> at_most p n2 b -> at_most p n3 c -> at_most p n4 d ->
  at_most p (n1 + n2 + n3 + n4) (all4 w a b c d).
Proof.
  intros A B C D w a b c d n1 n2 n3 n4 Ha Hb Hc Hd h. unfold all4. specialize (Ha h).
  destruct (a h) as [ra oa]. specialize (Hb (h ++ oa)%list).
  destruct (b (h ++ oa)%list) as [rb ob]. specialize (Hc (h ++ oa ++ ob)%list).
  destruct (c (h ++ oa ++ ob)%list) as [rc oc]. specialize (Hd (h ++ oa ++ ob ++ oc)%list).
  destruct (d (h ++ oa ++ ob ++ oc)%list) as [rd od]. simpl in *.
  rewrite !count_app. lia.
Qed.

End Counting.

Lemma not_query_chat : forall apiKey xTitle model messages temperature maxTokens,
  skipped is_query (Fetch (chat_request apiKey xTitle model messages temperature maxTokens)).
Proof. intros. reflexivity. Qed.

Lemma not_chat_query : forall w collection filter limit,
  skipped is_chat (Fetch (wix_request w collection filter limit)).
Proof. intros. reflexivity. Qed.

Lemma not_chat_now : skipped is_chat DateNow.
Proof. reflexivity. Qed.

Lemma not_query_now : skipped is_query DateNow.
Proof. reflexivity. Qed.

Lemma not_chat_respond : forall s v, skipped is_chat (Respond s v).
Proof. reflexivity. Qed.

Lemma not_query_respond : forall s v, skipped is_query (Respond s v).
Proof. reflexivity. Qed.

#[local] Hint Resolve not_query_chat not_chat_query not_chat_now not_query_now
  not_chat_respond not_query_respond : emits.

(* ----------------------------------------------------------------- *)
(** *** Requests to a model *)

Lemma no_chat_getCharacterContext : forall w tags,
  emits (skipped is_chat) (getCharacterContext w tags).
Proof. intros. apply emits_getCharacterContext. intros. reflexivity. Qed.

Lemma no_chat_getChatHistory : forall w tags, emits (skipped is_chat) (getChatHistory w tags).
Proof. intros. apply emits_getChatHistory. intros. reflexivity. Qed.

Lemma no_chat_getRelatedChapters : forall w tags,
  emits (skipped is_chat) (getRelatedChapters w tags).
Proof. intros. apply emits_getRelatedChapters. intros. reflexivity. Qed.

Lemma no_chat_getCatalystIntel : forall w tags,
  emits (skipped is_chat) (getCatalystIntel w tags).
Proof. intros. apply emits_getCatalystIntel. reflexivity. Qed.

Lemma no_chat_parse_markers : forall w failure_message response,
  emits (skipped is_chat) (parse_markers w failure_message response).
Proof. intros. unfold parse_markers. emits_auto. Qed.

#[local] Hint Resolve no_chat_getCharacterContext no_chat_getChatHistory
  no_chat_getRelatedChapters no_chat_getCatalystIntel no_chat_parse_markers : emits.

Lemma callAI_at_most_3 : forall w messages temperature maxTokens,
  at_most is_chat 3 (callAI w messages temperature maxTokens).
Proof.
  intros w messages temperature maxTokens h. unfold callAI. cbv zeta.
  destruct (negb (truthy (OPENROUTER_API_KEY w))); [unfold count; cbn; lia|].
  rewrite callAI_loop_cons. cbv zeta. destruct (candidate_content _); [unfold count; cbn; lia|].
  rewrite callAI_loop_cons. cbv zeta. destruct (candidate_content _); [unfold count; cbn; lia|].
  rewrite callAI_loop_cons. cbv zeta. destruct (candidate_content _); unfold count; cbn; lia.
Qed.

Lemma callClaudeForAnalysis_at_most_1 : forall w messages maxTokens,
  at_most is_chat 1 (callClaudeForAnalysis w messages maxTokens).
Proof.
  intros w messages maxTokens h.
  destruct (truthy (OPENROUTER_API_KEY w)) eqn:Hk.
  - rewrite (callClaudeForAnalysis_run _ _ _ _ Hk). unfold count. cbn. lia.
  - unfold callClaudeForAnalysis. rewrite Hk. unfold count. cbn. lia.
Qed.

(** One step towards a bound on the requests to a model. *)
Ltac chat_step :=
  match goal with
  | |- at_most is_chat _ (callAI _ _ _ _) =>
      apply (at_most_weaken is_chat _ _ 3); [lia|apply callAI_at_most_3]
  | |- at_most is_chat _ (bind (callAI _ _ _ _) _) =>
      apply at_most_before;
      [apply (at_most_weaken is_chat _ _ 3); [lia|apply callAI_at_most_3]
      |intros; emits_auto]
  | |- at_most is_chat _ (bind (callClaudeForAnalysis _ _ _) _) =>
      apply at_most_before;
      [apply (at_most_weaken is_chat _ _ 1); [lia|apply callClaudeForAnalysis_at_most_1]
      |intros; emits_auto]
  | |- at_most is_chat _ (bind _ _) => apply at_most_after; [emits_auto|intros]
  | |- at_most is_chat _ (throw _) => apply at_most_skipped, emits_throw
  | |- at_most is_chat _ (ret _) => apply at_most_skipped, emits_ret
  | |- at_most is_chat _ (lift _) => apply at_most_skipped, emits_lift
  | |- at_most is_chat _ (if ?b then _ else _) => destruct b
  | |- at_most is_chat _ (match ?x with _ => _ end) => destruct x
  end.

Lemma dispatch_at_most_3_chat : forall w action req, at_most is_chat 3 (dispatch w action req).
Proof.
  intros w action req. unfold dispatch.
  destruct action as [| | | |a| |];
    try (unfold handleDevilPOV; cbv zeta; repeat chat_step).
  - unfold handleUnhinge. cbv zeta. repeat chat_step.
  - unfold handleUnleash. cbv zeta. repeat chat_step.
  - unfold handleNoMercy. cbv zeta. repeat chat_step.
  - unfold handleInvoke. cbv zeta. repeat chat_step.
  - unfold handleIntensify. cbv zeta. repeat chat_step.
  - unfold handleCharacterChat, characterChat_systemPrompt, log_preview. cbv zeta.
    repeat chat_step.
  - unfold handleOveruseScanner, analysis_handler. cbv zeta. repeat chat_step.
  - unfold handlePacingAnalyzer, analysis_handler. cbv zeta. repeat chat_step.
  - unfold handleSentenceMechanics, analysis_handler. cbv zeta. repeat chat_step.
  - unfold handleDialogueCritic, analysis_handler. cbv zeta. repeat chat_step.
  - unfold handleAICritic. cbv zeta. repeat chat_step.
  - unfold handleStructuralCheck, analysis_handler. cbv zeta. repeat chat_step.
  - intros h. destruct (handleTagGeneration_run w req) as [e [H _]]. rewrite H.
    unfold count. cbn. lia.
Qed.

(* ----------------------------------------------------------------- *)
(** *** Queries to the CMS *)

Lemma no_query_callAI : forall w messages temperature maxTokens,
  emits (skipped is_query) (callAI w messages temperature maxTokens).
Proof. intros. apply emits_callAI. intros. reflexivity. Qed.

Lemma no_query_callClaudeForAnalysis : forall w messages maxTokens,
  emits (skipped is_query) (callClaudeForAnalysis w messages maxTokens).
Proof. intros. apply emits_callClaudeForAnalysis. reflexivity. Qed.

Lemma no_query_parse_markers : forall w failure_message response,
  emits (skipped is_query) (parse_markers w failure_message response).
Proof. intros. unfold parse_markers. emits_auto. Qed.

#[local] Hint Resolve no_query_callAI no_query_callClaudeForAnalysis
  no_query_parse_markers : emits.

Lemma queryWixCMS_at_most_1 : forall w collection filter limit,
  at_most is_query 1 (queryWixCMS w collection filter limit).
Proof. intros w collection filter limit h. rewrite queryWixCMS_run. unfold count. cbn. lia. Qed.

Ltac fetcher_bound :=
  cbv zeta;
  match goal with
  | |- at_most _ _ (if ?b then _ else _) =>
      destruct b;
      [apply at_most_skipped, emits_ret
      |apply at_most_before; [apply queryWixCMS_at_most_1|intros; emits_auto]]
  end.

Lemma getCharacterContext_at_most_1 : forall w tags,
  at_most is_query 1 (getCharacterContext w tags).
Proof. intros. unfold getCharacterContext. fetcher_bound. Qed.

Lemma getChatHistory_at_most_1 : forall w tags, at_most is_query 1 (getChatHistory w tags).
Proof. intros. unfold getChatHistory. fetcher_bound. Qed.

Lemma getRelatedChapters_at_most_1 : forall w tags,
  at_most is_query 1 (getRelatedChapters w tags).
Proof. intros. unfold getRelatedChapters. fetcher_bound. Qed.

Lemma getCatalystIntel_at_most_1 : forall w tags,
  at_most is_query 1 (getCatalystIntel w tags).
Proof. intros. unfold getCatalystIntel. fetcher_bound. Qed.

(** One step towards a bound on the queries to the CMS. *)
Ltac query_step :=
  match goal with
  | |- at_most is_query _ (bind (all4 _ _ _ _ _) _) =>
      apply at_most_before;
      [apply (at_most_weaken is_query _ _ (1 + 1 + 1 + 1)); [lia|];
       apply at_most_all4;
       [apply getCharacterContext_at_most_1 | apply getChatHistory_at_most_1
       |apply getRelatedChapters_at_most_1 | apply getCatalystIntel_at_most_1]
      |intros; emits_auto]
  | |- at_most is_query _ (bind (all2 _ _ _) _) =>
      apply at_most_before;
      [apply (at_most_weaken is_query _ _ (1 + 1)); [lia|];
       apply at_most_all2;
       [apply getCharacterContext_at_most_1 | apply getCatalystIntel_at_most_1]
      |intros; emits_auto]
  | |- at_most is_query _ (bind _ _) => apply at_most_after; [emits_auto|intros]
  | |- at_most is_query _ (if ?b then _ else _) => destruct b
  | |- at_most is_query _ (match ?x with _ => _ end) => destruct x
  end.

Ltac query_bound :=
  cbv zeta;
  repeat (first [ solve [apply at_most_skipped; emits_auto] | query_step ]).

Lemma dispatch_at_most_4_queries : forall w action req,
  at_most is_query 4 (dispatch w action req).
Proof.
  intros w action req. unfold dispatch.
  destruct action as [| | | |a| |];
    try (unfold handleDevilPOV; query_bound).
  - unfold handleUnhinge. query_bound.
  - unfold handleUnleash. query_bound.
  - unfold handleNoMercy. query_bound.
  - unfold handleInvoke. query_bound.
  - unfold handleIntensify. query_bound.
  - unfold handleCharacterChat. cbv zeta.
    apply at_most_before; [|intros; emits_auto].
    unfold characterChat_systemPrompt, log_preview. query_bound.
  - unfold handleOveruseScanner, analysis_handler. query_bound.
  - unfold handlePacingAnalyzer, analysis_handler. query_bound.
  - unfold handleSentenceMechanics, analysis_handler. query_bound.
  - unfold handleDialogueCritic, analysis_handler. query_bound.
  - unfold handleAICritic. query_bound.
  - unfold handleStructuralCheck, analysis_handler. query_bound.
  - intros h. destruct (handleTagGeneration_run w req) as [e [H _]]. rewrite H.
    unfold count. cbn. lia.
Qed.

Lemma devil_pov_at_most : forall (p : event -> bool) n w req,
  skipped p DateNow ->
  (forall s v, skipped p (Respond s v)) ->
  (forall action, at_most p n (dispatch w action req)) ->
  at_most p n (devil_pov w req).
Proof.
  intros p n w req Hnow Hresp Hd. unfold devil_pov. apply at_most_try_catch.
  - unfold try_block. cbv zeta.
    apply at_most_after; [apply emits_Date_now; exact Hnow|]. intros startTime.
    apply at_most_after; [apply emits_lift|]. intros shown.
    apply at_most_before; [apply Hd|]. intros result.
    apply emits_bind; [apply emits_Date_now; exact Hnow|]. intros logged.
    apply emits_bind; [apply emits_lift|]. intros charsGenerated.
    apply emits_bind; [apply emits_Date_now; exact Hnow|]. intros now.
    apply emits_respond. apply Hresp.
  - intros err. unfold catch_block.
    apply emits_bind; [apply emits_lift|]. intros shown.
    apply emits_bind; [apply emits_lift|]. intros label.
    apply emits_bind; [apply emits_respond; apply Hresp|]. intros _.
    apply emits_bind; [apply emits_lift|]. intros _.
    apply emits_bind; [apply emits_Date_now; exact Hnow|]. intros now.
    apply emits_bind; [apply emits_lift|]. intros _.
    apply emits_respond. apply Hresp.
Qed.

(** X16.  Serving one request costs at most three requests to a model and
    at most four queries to the CMS, whatever the request and whatever the
    answers: no handler retries, and the fallback caller asks each of its
    three models at most once. *)
Theorem route_fan_out_bounded : forall w req h,
  count is_chat (snd (devil_pov w req h)) <= 3 /\
  count is_query (snd (devil_pov w req h)) <= 4 /\
  List.length (requests (snd (devil_pov w req h))) <= 7.
Proof.
  intros w req h.
  assert (Hc : count is_chat (snd (devil_pov w req h)) <= 3).
  { apply devil_pov_at_most; [reflexivity|reflexivity|].
    intros action. apply dispatch_at_most_3_chat. }
  assert (Hq : count is_query (snd (devil_pov w req h)) <= 4).
  { apply devil_pov_at_most; [reflexivity|reflexivity|].
    intros action. apply dispatch_at_most_4_queries. }
  split; [exact Hc|]. split; [exact Hq|].
  assert (Hsum : forall evs,
            List.length (requests evs) = count is_chat evs + count is_query evs).
  { induction evs as [|e r IH]; [reflexivity|].
    unfold count in *. destruct e as [q| |]; simpl; [|exact IH|exact IH].
    destruct (body q); simpl; rewrite IH; lia. }
  rewrite Hsum. lia.
Qed.

(** Both bounds are reached: with tags given and every request failing, a
    characterChat request costs four CMS queries and three model requests. *)
Example route_fan_out_reached :
  count is_query (snd (devil_pov unreachable tagged_chat [])) = 4 /\
  count is_chat (snd (devil_pov unreachable tagged_chat [])) = 3 /\
  responses (snd (devil_pov unreachable tagged_chat []))
    = [(500%Z, failure "characterChat failed" "All models failed")].
Proof. repeat split. Qed.

(* ================================================================= *)
(** ** The catalyst lookup of the other handlers *)

Ltac catalyst_keyed :=
  repeat (first
    [ solve [auto with emits]
    | apply emits_getCharacterContext; intros; apply catalyst_keyed_other; assumption
    | apply emits_getChatHistory; intros; apply catalyst_keyed_other; assumption
    | apply emits_getRelatedChapters; intros; apply catalyst_keyed_other; assumption
    | apply emits_getCatalystIntel; apply catalyst_keyed_catalyst
    | apply emits_callAI; intros; apply catalyst_keyed_chat
    | apply emits_Date_now; exact I
    | emits_step ]).

(** X17.  In [handleDevilPOV], [handleUnleash] and [handleInvoke] every
    query to the Catalyst collection filters titles on containing the
    first catalyst tag of the request (unlike characterChat, which uses
    the first character tag). *)
Theorem catalyst_lookup_by_catalyst_tag : forall w req h,
  Forall (catalyst_keyed_by (first_tag (own_field "catalystTags" req)))
         (snd (handleDevilPOV w req h)) /\
  Forall (catalyst_keyed_by (first_tag (own_field "catalystTags" req)))
         (snd (handleUnleash w req h)) /\
  Forall (catalyst_keyed_by (first_tag (own_field "catalystTags" req)))
         (snd (handleInvoke w req h)).
Proof.
  intros w req h. split; [|split]; revert h.
  - change (emits (catalyst_keyed_by (first_tag (own_field "catalystTags" req)))
              (handleDevilPOV w req)).
    unfold handleDevilPOV. cbv zeta. catalyst_keyed.
  - change (emits (catalyst_keyed_by (first_tag (own_field "catalystTags" req)))
              (handleUnleash w req)).
    unfold handleUnleash. cbv zeta. catalyst_keyed.
  - change (emits (catalyst_keyed_by (first_tag (own_field "catalystTags" req)))
              (handleInvoke w req)).
    unfold handleInvoke. cbv zeta. catalyst_keyed.
Qed.

(** The query goes out for a devilPOV request with a catalyst tag. *)
Example devilPOV_catalyst_query :
  In (Fetch (wix_request unreachable "Catalyst"
               (filter_on "title" "$contains" (JStr "@Storm")) 1))
     (snd (handleDevilPOV unreachable
             [("previousChapter", JStr "Night fell.");
              ("characterTags", JArr [JStr "@Lilith"]);
              ("catalystTags", JArr [JStr "@Storm"; JStr "@Flood"])] [])).
Proof. simpl. tauto. Qed.
